(** * User service of go-mongo-restapi: a shallow embedding of
      [business/user/user.go] and the properties of its operations.

    The Go package is rendered as state-passing functions over a [World]
    that holds the users collection, the driver sessions and the answers of
    the environment (wall clock, generated identifiers, entropy, faults).
    A Go function returning [(T, error)] is a computation returning a pair
    [(T, option error)]; a run-time panic is a separate outcome. *)

From Stdlib Require Import ZArith NArith String Ascii List Bool Lia DecimalString.
From stdpp Require Import base option list gmap strings.

Local Open Scope Z_scope.
Local Open Scope string_scope.

(** ** Go values *)

(** The [error] interface.  [Errorf] is an error built by [fmt.Errorf] in
    the service itself; [Foreign] is an error handed back by a collaborator
    (driver, bcrypt, jwt), with the error labels the driver attaches. *)
Inductive error : Type :=
| Errorf (msg : string)
| Foreign (origin msg : string) (labels : list string).

#[global] Instance error_eq_dec : EqDecision error.
Proof. solve_decision. Defined.

(** [time.Time] as nanoseconds since the Unix epoch; [UTC()] changes the
    location of a value, not its instant. *)
Definition Time := Z.
Definition Duration := Z.

Module time.
Definition Nanosecond : Duration := 1.
Definition Second : Duration := 1000000000 * Nanosecond.
Definition Hour : Duration := 3600 * Second.
Definition UTC (t : Time) : Time := t.
Definition Add (t : Time) (d : Duration) : Time := t + d.
Definition Unix (t : Time) : Z := t / 1000000000.
(** The zero [time.Time]: January 1, year 1, 00:00:00 UTC. *)
Definition zero : Time := -62135596800 * Second.
End time.

(** [primitive.ObjectID] is a [12]byte, kept here as the 96-bit number it
    spells; [Hex] prints its 24 hexadecimal digits. *)
Definition ObjectID := N.

Module primitive.
Definition modulus : N := 16 ^ 24.

Definition hexDigit (d : N) : ascii :=
  if (d <? 10)%N then ascii_of_N (48 + d) else ascii_of_N (87 + d).

Definition hexValue (c : ascii) : option N :=
  let n := N_of_ascii c in
  if ((48 <=? n) && (n <=? 57))%N then Some (n - 48)%N
  else if ((97 <=? n) && (n <=? 102))%N then Some (n - 87)%N
  else if ((65 <=? n) && (n <=? 70))%N then Some (n - 55)%N
  else None.

Fixpoint digits (k : nat) (n : N) : list ascii :=
  match k with
  | O => []
  | S k' => digits k' (n / 16) ++ [hexDigit (n mod 16)]
  end.

Fixpoint parse (acc : N) (cs : list ascii) : option N :=
  match cs with
  | [] => Some acc
  | c :: cs' =>
      match hexValue c with
      | Some d => parse (16 * acc + d) cs'
      | None => None
      end
  end.

Definition Hex (id : ObjectID) : string :=
  string_of_list_ascii (digits 24 (id mod modulus)).

Definition ErrInvalidHex : error :=
  Foreign "primitive" "the provided hex string is not a valid ObjectID" [].

(** [hex.InvalidByteError]: the error of [encoding/hex] for a byte that is
    not a hexadecimal digit.  The error value is this byte; the text that
    renders it is not modelled. *)
Definition InvalidByteError (c : ascii) : error :=
  Foreign "encoding/hex.InvalidByteError" (String c "") [].

(** The first byte that is not a hexadecimal digit. *)
Fixpoint invalidByte (cs : list ascii) : ascii :=
  match cs with
  | [] => zero
  | c :: cs' =>
      match hexValue c with
      | Some _ => invalidByte cs'
      | None => c
      end
  end.

(** [ObjectIDFromHex]: a string that is not 24 characters long is refused
    with [ErrInvalidHex]; one of 24 characters is decoded by
    [hex.DecodeString], whose error is returned. *)
Definition ObjectIDFromHex (s : string) : ObjectID * option error :=
  if Nat.eqb (String.length s) 24 then
    match parse 0 (list_ascii_of_string s) with
    | Some n => (n, None)
    | None =>
        (0%N, Some (InvalidByteError (invalidByte (list_ascii_of_string s))))
    end
  else (0%N, Some ErrInvalidHex).
End primitive.

(** [entities.User]; [requests.User] and [responses.User] are converted to
    and from it by plain Go conversions, so the three are one record. *)
Record User : Type := mkUser {
  ID : ObjectID;
  Name : string;
  Surnames : string;
  Email : string;
  PasswordHash : string;
  Claims : list Z;
  CreatedAt : Time;
  UpdatedAt : Time
}.

Definition zeroUser : User := mkUser 0%N "" "" "" "" [] time.zero time.zero.

(** ** The world *)

(** A driver session: open, possibly with a transaction in progress whose
    view of the collection is private until commit, or ended. *)
Inductive Session : Type :=
| Active (txn : option (list User))
| Ended.

Inductive Context : Type :=
| PlainContext
| SessionContext (handle : nat).

(** The commands the driver sends to the backend. *)
Inductive Command : Type :=
| CmdPing
| CmdFind
| CmdInsert
| CmdUpdate
| CmdDelete
| CmdStartSession
| CmdCommit
| CmdAbort.

#[global] Instance Command_eq_dec : EqDecision Command.
Proof. solve_decision. Defined.

Definition isWrite (c : Command) : bool :=
  match c with
  | CmdInsert | CmdUpdate | CmdDelete => true
  | _ => false
  end.

(** What a read of [rand.Reader] gives: the bytes read, as a number, or
    the error of the reader. *)
Inductive draw : Type :=
| Drawn (seed : N)
| Failed (e : error).

(** [users] is the collection, [journal] the commands sent so far;
    [wallClock], [objectIDs], [entropy] and [faults] are the answers the
    environment gives at each of its [tick]s, and [attempts] is how often
    the timer of [WithTransaction] is found not to have fired. *)
Record World : Type := mkWorld {
  users : list User;
  sessions : list Session;
  journal : list Command;
  tick : nat;
  wallClock : nat -> Time;
  objectIDs : nat -> N;
  entropy : nat -> draw;
  faults : nat -> option error;
  attempts : nat
}.

Definition setUsers (us : list User) (w : World) : World :=
  mkWorld us (sessions w) (journal w) (tick w) (wallClock w) (objectIDs w)
          (entropy w) (faults w) (attempts w).

Definition setSessions (ss : list Session) (w : World) : World :=
  mkWorld (users w) ss (journal w) (tick w) (wallClock w) (objectIDs w)
          (entropy w) (faults w) (attempts w).

Definition record (c : Command) (w : World) : World :=
  mkWorld (users w) (sessions w) (journal w ++ [c]) (tick w) (wallClock w)
          (objectIDs w) (entropy w) (faults w) (attempts w).

Definition step (w : World) : World :=
  mkWorld (users w) (sessions w) (journal w) (S (tick w)) (wallClock w)
          (objectIDs w) (entropy w) (faults w) (attempts w).

(** ** Computations *)

Inductive outcome (A : Type) : Type :=
| Returned (a : A)
| Panicked (msg : string).
Arguments Returned {A} a.
Arguments Panicked {A} msg.

Definition Go (A : Type) : Type := World -> outcome A * World.

#[global] Instance Go_ret : MRet Go := fun A a w => (Returned a, w).

#[global] Instance Go_bind : MBind Go := fun A B f m w =>
  match m w with
  | (Returned a, w') => f a w'
  | (Panicked msg, w') => (Panicked msg, w')
  end.

Definition panic {A} (msg : string) : Go A := fun w => (Panicked msg, w).

Definition nilDereference : string :=
  "runtime error: invalid memory address or nil pointer dereference".

Definition indexOutOfRange : string := "runtime error: index out of range".

(** [*p] for a pointer [p]. *)
Definition deref {A} (p : option A) : Go A :=
  match p with
  | Some a => mret a
  | None => panic nilDereference
  end.

(** [s[i]] for a slice [s]. *)
Definition index {A} (s : list A) (i : nat) : Go A :=
  match s !! i with
  | Some a => mret a
  | None => panic indexOutOfRange
  end.

(** [defer cleanup] followed by [body]: the cleanup runs when the function
    is left, by return or by panic. *)
Definition defer {A} (cleanup : Go unit) (body : Go A) : Go A := fun w =>
  let (r, w1) := body w in
  let (_, w2) := cleanup w1 in
  (r, w2).

(** Readings of the environment. *)
Definition time_Now : Go Time := fun w =>
  (Returned (wallClock w (tick w)), step w).

Definition NewObjectID : Go ObjectID := fun w =>
  (Returned (objectIDs w (tick w) mod primitive.modulus)%N, step w).

(** The slot of [rand.Reader] that a call of the hasher may read: the
    library reads it once it has accepted the length of the password and
    the cost, and the read may fail. *)
Definition randRead : Go draw := fun w =>
  (Returned (entropy w (tick w)), step w).

(** One round trip to the backend for a command: the environment decides
    whether it fails. *)
Definition roundTrip (c : Command) : Go (option error) := fun w =>
  (Returned (faults w (tick w)), record c (step w)).

(** ** The driver: collection, sessions and transactions

    The storage engine is a collaborator of the service.  Its model keeps
    what the service can observe: documents in natural order, the unique
    [_id] index, reads and writes routed through a transaction's private
    view when the context carries a session with a transaction in
    progress, and failures that the environment may inject at every round
    trip. *)
Module mongo.

Definition ErrNoDocuments : error :=
  Foreign "mongo" "mongo: no documents in result" [].
Definition ErrDuplicateKey : error :=
  Foreign "mongo" "E11000 duplicate key error" [].
Definition ErrImmutableID : error :=
  Foreign "mongo" "the (immutable) field '_id' was found to have been altered" [].
Definition ErrTransactionInProgress : error :=
  Foreign "mongo" "transaction already in progress" [].
Definition ErrNoTransactStarted : error :=
  Foreign "mongo" "no transaction started" [].
Definition ErrSessionEnded : error :=
  Foreign "mongo" "ended session was used" [].

Definition TransientTransactionError : string := "TransientTransactionError".
Definition UnknownTransactionCommitResult : string :=
  "UnknownTransactionCommitResult".

Definition hasLabel (e : error) (l : string) : bool :=
  match e with
  | Errorf _ => false
  | Foreign _ _ labels => existsb (String.eqb l) labels
  end.

(** The documents a context reads: the view of its transaction when one is
    in progress, the collection otherwise. *)
Definition view (ctx : Context) (w : World) : list User :=
  match ctx with
  | PlainContext => users w
  | SessionContext h =>
      match sessions w !! h with
      | Some (Active (Some v)) => v
      | _ => users w
      end
  end.

(** Where a context writes. *)
Definition install (ctx : Context) (docs : list User) (w : World) : World :=
  match ctx with
  | PlainContext => setUsers docs w
  | SessionContext h =>
      match sessions w !! h with
      | Some (Active (Some _)) =>
          setSessions (<[h := Active (Some docs)]> (sessions w)) w
      | _ => setUsers docs w
      end
  end.

Definition read (ctx : Context) : Go (list User) := fun w =>
  (Returned (view ctx w), w).

Definition write (ctx : Context) (docs : list User) : Go unit := fun w =>
  (Returned tt, install ctx docs w).

Definition hasID (oid : ObjectID) (u : User) : bool := (ID u =? oid)%N.

Fixpoint replaceFirst (oid : ObjectID) (doc : User) (docs : list User)
  : list User :=
  match docs with
  | [] => []
  | d :: ds => if hasID oid d then doc :: ds else d :: replaceFirst oid doc ds
  end.

Fixpoint removeFirst (oid : ObjectID) (docs : list User) : list User :=
  match docs with
  | [] => []
  | d :: ds => if hasID oid d then ds else d :: removeFirst oid ds
  end.

Definition Ping : Go (option error) := roundTrip CmdPing.

Definition StartSession : Go (nat * option error) :=
  fault ← roundTrip CmdStartSession;
  match fault with
  | Some e => mret (O, Some e)
  | None =>
      ((fun w =>
          (Returned (length (sessions w), None),
           setSessions (sessions w ++ [Active None]) w))
       : Go (nat * option error))
  end.

(** Ending a session drops a transaction still in progress. *)
Definition EndSession (h : nat) : Go unit := fun w =>
  (Returned tt, setSessions (<[h := Ended]> (sessions w)) w).

Definition StartTransaction (h : nat) : Go (option error) := fun w =>
  match sessions w !! h with
  | Some (Active None) =>
      (Returned None,
       setSessions (<[h := Active (Some (users w))]> (sessions w)) w)
  | Some (Active (Some _)) => (Returned (Some ErrTransactionInProgress), w)
  | _ => (Returned (Some ErrSessionEnded), w)
  end.

Definition TransactionRunning (h : nat) : Go bool := fun w =>
  match sessions w !! h with
  | Some (Active (Some _)) => (Returned true, w)
  | _ => (Returned false, w)
  end.

Definition AbortTransaction (h : nat) : Go (option error) :=
  fault ← roundTrip CmdAbort;
  ((fun w =>
      match sessions w !! h with
      | Some (Active (Some _)) =>
          (Returned fault, setSessions (<[h := Active None]> (sessions w)) w)
      | _ => (Returned (Some ErrNoTransactStarted), w)
      end) : Go (option error)).

(** A commit that the backend acknowledges makes the view the collection;
    one that fails publishes nothing. *)
Definition CommitTransaction (h : nat) : Go (option error) := fun w =>
  match sessions w !! h with
  | Some (Active (Some v)) =>
      let w1 := record CmdCommit (step w) in
      match faults w (tick w) with
      | None =>
          (Returned None,
           setUsers v (setSessions (<[h := Active None]> (sessions w)) w1))
      | Some e =>
          if hasLabel e UnknownTransactionCommitResult
          then (Returned (Some e), w1)
          else (Returned (Some e),
                setSessions (<[h := Active None]> (sessions w)) w1)
      end
  | _ => (Returned (Some ErrNoTransactStarted), w)
  end.

(** The commit loop of [WithTransaction]: [None] asks for the whole
    transaction to be run again, [Some r] is the result to return. *)
Fixpoint commitLoop (budget : nat) (h : nat) : Go (option (option error)) :=
  err ← CommitTransaction h;
  match err with
  | None => mret (Some None)
  | Some e =>
      match budget with
      | O => mret (Some (Some e))
      | S budget' =>
          if hasLabel e UnknownTransactionCommitResult
          then commitLoop budget' h
          else if hasLabel e TransientTransactionError
          then mret None
          else mret (Some (Some e))
      end
  end.

(** [session.WithTransaction]: start, run the callback, abort on its error
    and commit otherwise, running the whole again on a transient error
    while the timer ([budget]) has not fired. *)
Fixpoint withTransaction (budget : nat) (h : nat)
  (fn : Context -> Go (option error)) : Go (option error) :=
  err ← StartTransaction h;
  match err with
  | Some e => mret (Some e)
  | None =>
      err ← fn (SessionContext h);
      match err with
      | Some e =>
          running ← TransactionRunning h;
          _ ← (if (running : bool) then AbortTransaction h else mret None
               : Go (option error));
          match budget with
          | O => mret (Some e)
          | S budget' =>
              if hasLabel e TransientTransactionError
              then withTransaction budget' h fn
              else mret (Some e)
          end
      | None =>
          match budget with
          | O => CommitTransaction h
          | S budget' =>
              r ← commitLoop budget h;
              match r with
              | Some res => mret res
              | None => withTransaction budget' h fn
              end
          end
      end
  end.

Definition WithTransaction (h : nat) (fn : Context -> Go (option error))
  : Go (option error) := fun w => withTransaction (attempts w) h fn w.

End mongo.

(** ** The repository of the framework ([infrastructure.MongoRepository])

    A thin layer over the collection: find by filter, find by identifier,
    insert, replace by identifier, delete by identifier.  Results come back
    as [interface{}] values holding [entities.User]; the type assertions of
    the service on them cannot fail, so the model hands back [User]
    directly ([None] for the nil interface). *)
Module infrastructure.

(** [bson.M] with string values.  The service only filters on [email]. *)
Definition bsonM := list (string * string).

Definition field (key : string) (u : User) : option string :=
  if String.eqb key "email" then Some (Email u) else None.

Definition matches (query : bsonM) (u : User) : bool :=
  forallb (fun kv : string * string =>
             match field (fst kv) u with
             | Some v => String.eqb v (snd kv)
             | None => false
             end) query.

Definition Get (ctx : Context) (query : bsonM)
  : Go (list User * option error) :=
  fault ← roundTrip CmdFind;
  match fault with
  | Some e => mret ([], Some e)
  | None => docs ← mongo.read ctx; mret (List.filter (matches query) docs, None)
  end.

Definition GetByID (ctx : Context) (id : string)
  : Go (option User * option error) :=
  let (oid, err) := primitive.ObjectIDFromHex id in
  match err with
  | Some e => mret (None, Some e)
  | None =>
      fault ← roundTrip CmdFind;
      match fault with
      | Some e => mret (None, Some e)
      | None =>
          docs ← mongo.read ctx;
          match List.find (mongo.hasID oid) docs with
          | Some u => mret (Some u, None)
          | None => mret (None, Some mongo.ErrNoDocuments)
          end
      end
  end.

Definition Create (ctx : Context) (entity : User) : Go (string * option error) :=
  fault ← roundTrip CmdInsert;
  match fault with
  | Some e => mret ("", Some e)
  | None =>
      docs ← mongo.read ctx;
      if existsb (mongo.hasID (ID entity)) docs
      then mret ("", Some mongo.ErrDuplicateKey)
      else _ ← mongo.write ctx (docs ++ [entity]);
           mret (primitive.Hex (ID entity), None)
  end.

Definition Update (ctx : Context) (id : string) (entity : User) (upsert : bool)
  : Go (option error) :=
  let (oid, err) := primitive.ObjectIDFromHex id in
  match err with
  | Some e => mret (Some e)
  | None =>
      fault ← roundTrip CmdUpdate;
      match fault with
      | Some e => mret (Some e)
      | None =>
          docs ← mongo.read ctx;
          if existsb (mongo.hasID oid) docs then
            if (ID entity =? oid)%N
            then _ ← mongo.write ctx (mongo.replaceFirst oid entity docs);
                 mret None
            else mret (Some mongo.ErrImmutableID)
          else if (upsert : bool)
          then _ ← mongo.write ctx (docs ++ [entity]); mret None
          else mret (Some mongo.ErrNoDocuments)
      end
  end.

Definition Delete (ctx : Context) (id : string) : Go (option error) :=
  let (oid, err) := primitive.ObjectIDFromHex id in
  match err with
  | Some e => mret (Some e)
  | None =>
      fault ← roundTrip CmdDelete;
      match fault with
      | Some e => mret (Some e)
      | None =>
          docs ← mongo.read ctx;
          if existsb (mongo.hasID oid) docs
          then _ ← mongo.write ctx (mongo.removeFirst oid docs); mret None
          else mret (Some mongo.ErrNoDocuments)
      end
  end.

End infrastructure.

(** ** Requests, responses and configuration *)

Module requests.
Module LoginUser.
Record t : Type := mk { Email : string; Password : string }.
End LoginUser.
(** Every field of an update is a pointer: nil means absent. *)
Module UpdateUser.
Record t : Type := mk {
  Name : option string;
  Surnames : option string;
  Email : option string;
  OldPassword : option string;
  NewPassword : option string;
  Claims : option (list Z)
}.
End UpdateUser.
End requests.

Module responses.
Module LoginUser.
Record t : Type := mk { User : User; Token : string }.
Definition zero : t := mk zeroUser "".
End LoginUser.
Module Creation.
Record t : Type := mk { InsertedID : string }.
Definition zero : t := mk "".
End Creation.
End responses.

Module config.
Record Config : Type := mkConfig { JWTSecret : string }.
End config.

(** ** Collaborating packages as interfaces *)

(** [entities.Claim]: the closed enumeration of claims lives in the
    entities package; the service reaches it through these three
    functions. *)
Class Entities : Type := {
  IsValid : Z -> bool;
  ClaimString : Z -> string;
  entities_GetClaims : gmap Z string
}.

(** [golang.org/x/crypto/bcrypt]: hashing draws its salt from the entropy
    it is given, which is what its read of [rand.Reader] gives. *)
Class Bcrypt : Type := {
  GenerateFromPassword : draw -> string -> Z -> string * option error;
  CompareHashAndPassword : string -> string -> option error
}.

(** [%d] of [fmt]. *)
Definition fmt_d (n : Z) : string := NilZero.string_of_int (Z.to_int n).

(** ** The hasher of the service: bcrypt over Blowfish

    [golang.org/x/crypto/bcrypt] and [golang.org/x/crypto/blowfish], the
    library behind [hashPassword] and [checkPasswordHash], followed down to
    the tables of Blowfish (the digits of pi that fill the initial cipher).
    The functions take the tables as a parameter; [pi] gives them.  A
    [[]byte] is a list of characters, a [uint32] an integer kept below
    2^32. *)
Module blowfish.

Record Cipher : Type := mkCipher {
  p : list Z;
  s0 : list Z;
  s1 : list Z;
  s2 : list Z;
  s3 : list Z
}.

Definition uint32 (x : Z) : Z := x mod 2 ^ 32.
Definition byte (x : Z) : Z := x mod 2 ^ 8.
Definition ofByte (c : ascii) : Z := Z.of_N (N_of_ascii c).
Definition toByte (x : Z) : ascii := ascii_of_N (Z.to_N (byte x)).

(** [a[i]] for an array of words. *)
Definition at_ (a : list Z) (i : Z) : Z := nth (Z.to_nat i) a 0.

(** [getNextWord]: four bytes of [b] from position [j], wrapping around
    at the end of [b]; the word and the new position. *)
Fixpoint nextBytes (k : nat) (b : list ascii) (j : nat) (w : Z) : Z * nat :=
  match k with
  | O => (w, j)
  | S k' =>
      let w := Z.lor (uint32 (Z.shiftl w 8)) (ofByte (nth j b zero)) in
      let j := S j in
      let j := if (length b <=? j)%nat then O else j in
      nextBytes k' b j w
  end.

Definition getNextWord (b : list ascii) (pos : nat) : Z * nat :=
  nextBytes 4 b pos 0.

(** The words of the first loop of a key expansion: [n] successive words
    of the key from position [j]. *)
Fixpoint keyWords (n : nat) (key : list ascii) (j : nat) : list Z :=
  match n with
  | O => []
  | S n' =>
      let (d, j') := getNextWord key j in
      d :: keyWords n' key j'
  end.

(** The first loop of a key expansion, [c.p[i] ^= d] for the 18 words [d]
    of the key; the words do not depend on [p] and are taken first. *)
Definition xorKey (key : list ascii) (c : Cipher) : Cipher :=
  mkCipher (zip_with Z.lxor (p c) (keyWords 18 key 0))
           (s0 c) (s1 c) (s2 c) (s3 c).

(** One round: [((s0[x>>24] + s1[x>>16]) ^ s2[x>>8]) + s3[x] ^ k]. *)
Definition round (c : Cipher) (x k : Z) : Z :=
  Z.lxor
    (uint32
       (Z.lxor
          (uint32 (at_ (s0 c) (byte (Z.shiftr x 24))
                   + at_ (s1 c) (byte (Z.shiftr x 16))))
          (at_ (s2 c) (byte (Z.shiftr x 8)))
        + at_ (s3 c) (byte x)))
    k.

Definition encryptBlock (l r : Z) (c : Cipher) : Z * Z :=
  let xl := Z.lxor l (at_ (p c) 0) in
  let xr := Z.lxor r (round c xl (at_ (p c) 1)) in
  let xl := Z.lxor xl (round c xr (at_ (p c) 2)) in
  let xr := Z.lxor xr (round c xl (at_ (p c) 3)) in
  let xl := Z.lxor xl (round c xr (at_ (p c) 4)) in
  let xr := Z.lxor xr (round c xl (at_ (p c) 5)) in
  let xl := Z.lxor xl (round c xr (at_ (p c) 6)) in
  let xr := Z.lxor xr (round c xl (at_ (p c) 7)) in
  let xl := Z.lxor xl (round c xr (at_ (p c) 8)) in
  let xr := Z.lxor xr (round c xl (at_ (p c) 9)) in
  let xl := Z.lxor xl (round c xr (at_ (p c) 10)) in
  let xr := Z.lxor xr (round c xl (at_ (p c) 11)) in
  let xl := Z.lxor xl (round c xr (at_ (p c) 12)) in
  let xr := Z.lxor xr (round c xl (at_ (p c) 13)) in
  let xl := Z.lxor xl (round c xr (at_ (p c) 14)) in
  let xr := Z.lxor xr (round c xl (at_ (p c) 15)) in
  let xl := Z.lxor xl (round c xr (at_ (p c) 16)) in
  let xr := Z.lxor xr (at_ (p c) 17) in
  (xr, xl).

(** The arrays of a cipher and the assignment [a[i], a[i+1] = l, r]. *)
Inductive array : Type := P | S0 | S1 | S2 | S3.

Definition assign2 (a : array) (i : nat) (l r : Z) (c : Cipher) : Cipher :=
  let put (xs : list Z) := <[S i := r]> (<[i := l]> xs) in
  match a with
  | P => mkCipher (put (p c)) (s0 c) (s1 c) (s2 c) (s3 c)
  | S0 => mkCipher (p c) (put (s0 c)) (s1 c) (s2 c) (s3 c)
  | S1 => mkCipher (p c) (s0 c) (put (s1 c)) (s2 c) (s3 c)
  | S2 => mkCipher (p c) (s0 c) (s1 c) (put (s2 c)) (s3 c)
  | S3 => mkCipher (p c) (s0 c) (s1 c) (s2 c) (put (s3 c))
  end.

(** The five loops that refill the arrays, as the pairs they assign to in
    order: [i = 0, 2, ..] below 18 for [p], below 256 for each box. *)
Definition pairsOf (a : array) (n : nat) : list (array * nat) :=
  map (fun k => (a, 2 * k)%nat) (seq 0 n).

Definition schedule : list (array * nat) :=
  pairsOf P 9 ++ pairsOf S0 128 ++ pairsOf S1 128 ++ pairsOf S2 128
  ++ pairsOf S3 128.

(** The refill of [ExpandKey]: each pair takes the encryption of the
    previous one under the cipher as it stands. *)
Definition refill (c : Cipher) : Cipher :=
  snd (fold_left
         (fun (st : Z * Z * Cipher) (ai : array * nat) =>
            let '(l, r, c) := st in
            let (l, r) := encryptBlock l r c in
            (l, r, assign2 (fst ai) (snd ai) l r c))
         schedule (0, 0, c)).

(** The refill of [expandKeyWithSalt]: the words of the salt are xored
    into the block before each encryption. *)
Definition refillSalted (salt : list ascii) (c : Cipher) : Cipher :=
  snd (fold_left
         (fun (st : nat * Z * Z * Cipher) (ai : array * nat) =>
            let '(j, l, r, c) := st in
            let (d, j) := getNextWord salt j in
            let l := Z.lxor l d in
            let (d, j) := getNextWord salt j in
            let r := Z.lxor r d in
            let (l, r) := encryptBlock l r c in
            (j, l, r, assign2 (fst ai) (snd ai) l r c))
         schedule (O, 0, 0, c)).

Definition ExpandKey (key : list ascii) (c : Cipher) : Cipher :=
  refill (xorKey key c).

Definition expandKeyWithSalt (key salt : list ascii) (c : Cipher) : Cipher :=
  refillSalted salt (xorKey key c).

Definition KeySizeError (k : nat) : error :=
  Foreign "blowfish" "invalid key size" [].

(** [Encrypt] of an 8-byte block. *)
Definition word (b : list ascii) (i : nat) : Z :=
  Z.lor (Z.lor (Z.lor (Z.shiftl (ofByte (nth i b zero)) 24)
                      (Z.shiftl (ofByte (nth (i + 1) b zero)) 16))
               (Z.shiftl (ofByte (nth (i + 2) b zero)) 8))
        (ofByte (nth (i + 3) b zero)).

Definition bytesOf (x : Z) : list ascii :=
  [toByte (Z.shiftr x 24); toByte (Z.shiftr x 16); toByte (Z.shiftr x 8);
   toByte x].

Definition Encrypt (c : Cipher) (src : list ascii) : list ascii :=
  let (l, r) := encryptBlock (word src 0) (word src 4) c in
  bytesOf l ++ bytesOf r.

(** The tables of Blowfish: the cipher [initCipher] starts from. *)
Class Tables : Type := { initCipher : Cipher }.

Section WithTables.

Context {tables : Tables}.

Definition NewCipher (key : list ascii) : option Cipher * option error :=
  let k := length key in
  if ((k <? 1) || (56 <? k))%nat
  then (None, Some (KeySizeError k))
  else (Some (ExpandKey key initCipher), None).

Definition NewSaltedCipher (key salt : list ascii)
  : option Cipher * option error :=
  if (length salt =? 0)%nat then NewCipher key
  else
    let k := length key in
    if (k <? 1)%nat then (None, Some (KeySizeError k))
    else (Some (expandKeyWithSalt key salt initCipher), None).

End WithTables.

End blowfish.

Module bcrypt.

Definition MinCost : Z := 4.
Definition MaxCost : Z := 31.
Definition DefaultCost : Z := 10.

Definition ErrMismatchedHashAndPassword : error :=
  Foreign "bcrypt"
    "crypto/bcrypt: hashedPassword is not the hash of the given password" [].
Definition ErrHashTooShort : error :=
  Foreign "bcrypt"
    "crypto/bcrypt: hashedSecret too short to be a bcrypted password" [].
Definition ErrPasswordTooLong : error :=
  Foreign "bcrypt" "bcrypt: password length exceeds 72 bytes" [].
Definition HashVersionTooNewError (c : ascii) : error :=
  Foreign "bcrypt" "crypto/bcrypt: bcrypt algorithm version too new" [].
Definition InvalidHashPrefixError (c : ascii) : error :=
  Foreign "bcrypt" "crypto/bcrypt: bcrypt hashes must start with '$'" [].
Definition InvalidCostError (cost : Z) : error :=
  Foreign "bcrypt" "crypto/bcrypt: cost outside allowed range" [].
Definition CorruptInputError : error :=
  Foreign "base64" "illegal base64 data" [].
Definition ErrSyntax : error :=
  Foreign "strconv" "strconv.Atoi: invalid syntax" [].

Definition majorVersion : ascii := "2".
Definition minorVersion : ascii := "a".
Definition maxSaltSize : nat := 16.
Definition maxCryptedHashSize : nat := 23.
Definition encodedSaltSize : nat := 22.
Definition encodedHashSize : nat := 31.
Definition minHashSize : nat := 59.

Definition magicCipherData : list ascii :=
  list_ascii_of_string "OrpheanBeholderScryDoubt".

Definition alphabet : list ascii :=
  list_ascii_of_string
    "./ABCDEFGHIJKLMNOPQRSTUVWXYZabcdefghijklmnopqrstuvwxyz0123456789".

(** *** The base64 of bcrypt *)

Definition enc6 (v : Z) : ascii := nth (Z.to_nat (v mod 64)) alphabet zero.

Fixpoint position (c : ascii) (cs : list ascii) (i : Z) : option Z :=
  match cs with
  | [] => None
  | x :: xs => if Ascii.eqb x c then Some i else position c xs (i + 1)
  end.

Definition dec6 (c : ascii) : option Z := position c alphabet 0.

(** [base64Encode]: the encoding with its padding removed. *)
Fixpoint base64Encode (src : list ascii) : list ascii :=
  match src with
  | [] => []
  | [a] =>
      let x := Z.shiftl (blowfish.ofByte a) 16 in
      [enc6 (Z.shiftr x 18); enc6 (Z.shiftr x 12)]
  | [a; b] =>
      let x := Z.lor (Z.shiftl (blowfish.ofByte a) 16)
                     (Z.shiftl (blowfish.ofByte b) 8) in
      [enc6 (Z.shiftr x 18); enc6 (Z.shiftr x 12); enc6 (Z.shiftr x 6)]
  | a :: b :: c :: rest =>
      let x := Z.lor (Z.lor (Z.shiftl (blowfish.ofByte a) 16)
                            (Z.shiftl (blowfish.ofByte b) 8))
                     (blowfish.ofByte c) in
      enc6 (Z.shiftr x 18) :: enc6 (Z.shiftr x 12) :: enc6 (Z.shiftr x 6)
      :: enc6 x :: base64Encode rest
  end.

Fixpoint values (cs : list ascii) : option (list Z) :=
  match cs with
  | [] => Some []
  | c :: cs' =>
      match dec6 c, values cs' with
      | Some v, Some vs => Some (v :: vs)
      | _, _ => None
      end
  end.

Fixpoint bytesOfValues (vs : list Z) : list ascii :=
  match vs with
  | v0 :: v1 :: v2 :: v3 :: rest =>
      let x := Z.lor (Z.lor (Z.lor (Z.shiftl v0 18) (Z.shiftl v1 12))
                            (Z.shiftl v2 6)) v3 in
      blowfish.toByte (Z.shiftr x 16) :: blowfish.toByte (Z.shiftr x 8)
      :: blowfish.toByte x :: bytesOfValues rest
  | [v0; v1; v2] =>
      let x := Z.lor (Z.lor (Z.shiftl v0 18) (Z.shiftl v1 12))
                     (Z.shiftl v2 6) in
      [blowfish.toByte (Z.shiftr x 16); blowfish.toByte (Z.shiftr x 8)]
  | [v0; v1] =>
      let x := Z.lor (Z.shiftl v0 18) (Z.shiftl v1 12) in
      [blowfish.toByte (Z.shiftr x 16)]
  | _ => []
  end.

Definition isNewline (c : ascii) : bool :=
  Ascii.eqb c "010" || Ascii.eqb c "013".

(** [base64Decode]: the source is padded with [4 - len % 4] signs [=] and
    decoded; the decoder skips line ends, and accepts the padding only
    where it completes the last group of characters. *)
Definition base64Decode (src : list ascii)
  : option (list ascii) * option error :=
  let numOfEquals := (4 - length src mod 4)%nat in
  let chars := List.filter (fun c => negb (isNewline c)) src in
  let r := (length chars mod 4)%nat in
  if ((r =? 2) && (numOfEquals =? 2) || (r =? 3) && (numOfEquals =? 1))%nat
  then
    match values chars with
    | Some vs => (Some (bytesOfValues vs), None)
    | None => (None, Some CorruptInputError)
    end
  else (None, Some CorruptInputError).

(** *** Hashes *)

Record hashed : Type := mkHashed {
  hash : list ascii;
  salt : list ascii;
  cost : Z;
  major : ascii;
  minor : ascii
}.

(** [copy] of a source into a zeroed region of [n] bytes. *)
Definition fit (n : nat) (src : list ascii) : list ascii :=
  take n (src ++ repeat zero n).

(** [fmt.Sprintf("%02d", cost)] *)
Definition fmt_02d (n : Z) : list ascii :=
  let s := list_ascii_of_string (fmt_d n) in
  if (length s <? 2)%nat then "0"%char :: s else s.

(** [Hash]: [$], version, [$], two digits of cost, [$], the 22 bytes of
    the salt and the 31 bytes of the hash. *)
Definition Hash (h : hashed) : list ascii :=
  "$"%char :: major h
  :: (if Ascii.eqb (minor h) zero then [] else [minor h])
  ++ "$"%char :: fmt_02d (cost h)
  ++ "$"%char :: fit encodedSaltSize (salt h) ++ fit encodedHashSize (hash h).

Definition checkCost (cost : Z) : option error :=
  if ((cost <? MinCost) || (MaxCost <? cost))%Z
  then Some (InvalidCostError cost)
  else None.

Definition digit (c : ascii) : option Z :=
  let n := Z.of_N (N_of_ascii c) in
  if ((48 <=? n) && (n <=? 57))%Z then Some (n - 48) else None.

(** [strconv.Atoi] on the two characters of a cost. *)
Definition Atoi2 (a b : ascii) : Z * option error :=
  if Ascii.eqb a "-" || Ascii.eqb a "+" then
    match digit b with
    | Some d => (if Ascii.eqb a "-" then - d else d, None)
    | None => (0, Some ErrSyntax)
    end
  else
    match digit a, digit b with
    | Some d1, Some d2 => (10 * d1 + d2, None)
    | _, _ => (0, Some ErrSyntax)
    end.

(** [decodeVersion]: major, minor and the bytes consumed. *)
Definition decodeVersion (sbytes : list ascii)
  : (ascii * ascii * nat) * option error :=
  if negb (Ascii.eqb (nth 0 sbytes zero) "$")
  then ((zero, zero, O), Some (InvalidHashPrefixError (nth 0 sbytes zero)))
  else if (N_of_ascii majorVersion <? N_of_ascii (nth 1 sbytes zero))%N
  then ((zero, zero, O), Some (HashVersionTooNewError (nth 1 sbytes zero)))
  else if negb (Ascii.eqb (nth 2 sbytes zero) "$")
  then ((nth 1 sbytes zero, nth 2 sbytes zero, 4%nat), None)
  else ((nth 1 sbytes zero, zero, 3%nat), None).

Definition decodeCost (sbytes : list ascii) : (Z * nat) * option error :=
  let (cost, err) := Atoi2 (nth 0 sbytes zero) (nth 1 sbytes zero) in
  match err with
  | Some e => ((0, O), Some e)
  | None =>
      match checkCost cost with
      | Some e => ((0, O), Some e)
      | None => ((cost, 3%nat), None)
      end
  end.

Definition newFromHash (hashedSecret : list ascii)
  : option hashed * option error :=
  if (length hashedSecret <? minHashSize)%nat
  then (None, Some ErrHashTooShort)
  else
    let '((major, minor, n), err) := decodeVersion hashedSecret in
    match err with
    | Some e => (None, Some e)
    | None =>
        let hashedSecret := drop n hashedSecret in
        let '((cost, n), err) := decodeCost hashedSecret in
        match err with
        | Some e => (None, Some e)
        | None =>
            let hashedSecret := drop n hashedSecret in
            let salt := fit encodedSaltSize (take encodedSaltSize hashedSecret) in
            let hashedSecret := drop encodedSaltSize hashedSecret in
            (Some (mkHashed hashedSecret salt cost major minor), None)
        end
    end.

(** Since its release v0.5.0 the library refuses to hash a password of
    more than 72 bytes; earlier releases hash it, of which only 72 bytes
    count.  Which release the service is built with is left open: it is a
    parameter. *)
Class Release : Type := { rejectsLongPasswords : bool }.

Section WithTables.

Context {tables : blowfish.Tables} {release : Release}.

Definition expensiveBlowfishSetup (key : list ascii) (cost : Z)
  (salt : list ascii) : option blowfish.Cipher * option error :=
  let (csalt, err) := base64Decode salt in
  match csalt, err with
  | Some csalt, None =>
      let ckey := (key ++ [zero])%list in
      let (c, err) := blowfish.NewSaltedCipher ckey csalt in
      match c, err with
      | Some c, None =>
          let rounds := Z.to_nat (Z.shiftl 1 cost) in
          (Some (Nat.iter rounds
                   (fun c => blowfish.ExpandKey csalt (blowfish.ExpandKey ckey c))
                   c), None)
      | _, _ => (None, err)
      end
  | _, _ => (None, err)
  end.

Definition blocks (data : list ascii) : list (list ascii) :=
  [take 8 data; take 8 (drop 8 data); take 8 (drop 16 data)].

Definition bcrypt (password : list ascii) (cost : Z) (salt : list ascii)
  : list ascii * option error :=
  let cipherData := magicCipherData in
  let (c, err) := expensiveBlowfishSetup password cost salt in
  match c, err with
  | Some c, None =>
      let cipherData :=
        concat (map (Nat.iter 64 (blowfish.Encrypt c)) (blocks cipherData)) in
      (base64Encode (take maxCryptedHashSize cipherData), None)
  | _, _ => ([], err)
  end.

(** The sixteen bytes read from [rand.Reader]. *)
Definition unencodedSalt (seed : N) : list ascii :=
  map (fun i => ascii_of_N (seed / 256 ^ N.of_nat i)) (seq 0 maxSaltSize).

(** [newFromPassword]: the cost is checked, then the salt is read with
    [io.ReadFull(rand.Reader, unencodedSalt)], whose error is returned. *)
Definition newFromPassword (rand : draw) (password : list ascii) (cost : Z)
  : option hashed * option error :=
  let cost := if (cost <? MinCost)%Z then DefaultCost else cost in
  match checkCost cost with
  | Some e => (None, Some e)
  | None =>
      match rand with
      | Failed e => (None, Some e)
      | Drawn seed =>
          let salt := base64Encode (unencodedSalt seed) in
          let (hash, err) := bcrypt password cost salt in
          match err with
          | Some e => (None, Some e)
          | None =>
              (Some (mkHashed hash salt cost majorVersion minorVersion), None)
          end
      end
  end.

Definition GenerateFromPassword (rand : draw) (password : list ascii)
  (cost : Z) : list ascii * option error :=
  if rejectsLongPasswords && (72 <? length password)%nat
  then ([], Some ErrPasswordTooLong)
  else
    let (p, err) := newFromPassword rand password cost in
    match p, err with
    | Some p, None => (Hash p, None)
    | _, _ => ([], err)
    end.

Definition CompareHashAndPassword (hashedPassword password : list ascii)
  : option error :=
  let (p, err) := newFromHash hashedPassword in
  match p, err with
  | Some p, None =>
      let (otherHash, err) := bcrypt password (cost p) (salt p) in
      match err with
      | Some e => Some e
      | None =>
          let otherP := mkHashed otherHash (salt p) (cost p) (major p) (minor p) in
          if decide (Hash p = Hash otherP) then None
          else Some ErrMismatchedHashAndPassword
      end
  | _, _ => err
  end.

End WithTables.

End bcrypt.

(** The tables of Blowfish: the hexadecimal digits of the fractional part
    of pi, 18 words for [p] and 256 for each of the four boxes. *)
Module pi.
Definition p0 : list Z :=
  [0x243f6a88; 0x85a308d3; 0x13198a2e; 0x03707344; 0xa4093822; 0x299f31d0;
   0x082efa98; 0xec4e6c89; 0x452821e6; 0x38d01377; 0xbe5466cf; 0x34e90c6c;
   0xc0ac29b7; 0xc97c50dd; 0x3f84d5b5; 0xb5470917; 0x9216d5d9; 0x8979fb1b].
Definition s0 : list Z :=
  [0xd1310ba6; 0x98dfb5ac; 0x2ffd72db; 0xd01adfb7; 0xb8e1afed; 0x6a267e96;
   0xba7c9045; 0xf12c7f99; 0x24a19947; 0xb3916cf7; 0x0801f2e2; 0x858efc16;
   0x636920d8; 0x71574e69; 0xa458fea3; 0xf4933d7e; 0x0d95748f; 0x728eb658;
   0x718bcd58; 0x82154aee; 0x7b54a41d; 0xc25a59b5; 0x9c30d539; 0x2af26013;
   0xc5d1b023; 0x286085f0; 0xca417918; 0xb8db38ef; 0x8e79dcb0; 0x603a180e;
   0x6c9e0e8b; 0xb01e8a3e; 0xd71577c1; 0xbd314b27; 0x78af2fda; 0x55605c60;
   0xe65525f3; 0xaa55ab94; 0x57489862; 0x63e81440; 0x55ca396a; 0x2aab10b6;
   0xb4cc5c34; 0x1141e8ce; 0xa15486af; 0x7c72e993; 0xb3ee1411; 0x636fbc2a;
   0x2ba9c55d; 0x741831f6; 0xce5c3e16; 0x9b87931e; 0xafd6ba33; 0x6c24cf5c;
   0x7a325381; 0x28958677; 0x3b8f4898; 0x6b4bb9af; 0xc4bfe81b; 0x66282193;
   0x61d809cc; 0xfb21a991; 0x487cac60; 0x5dec8032; 0xef845d5d; 0xe98575b1;
   0xdc262302; 0xeb651b88; 0x23893e81; 0xd396acc5; 0x0f6d6ff3; 0x83f44239;
   0x2e0b4482; 0xa4842004; 0x69c8f04a; 0x9e1f9b5e; 0x21c66842; 0xf6e96c9a;
   0x670c9c61; 0xabd388f0; 0x6a51a0d2; 0xd8542f68; 0x960fa728; 0xab5133a3;
   0x6eef0b6c; 0x137a3be4; 0xba3bf050; 0x7efb2a98; 0xa1f1651d; 0x39af0176;
   0x66ca593e; 0x82430e88; 0x8cee8619; 0x456f9fb4; 0x7d84a5c3; 0x3b8b5ebe;
   0xe06f75d8; 0x85c12073; 0x401a449f; 0x56c16aa6; 0x4ed3aa62; 0x363f7706;
   0x1bfedf72; 0x429b023d; 0x37d0d724; 0xd00a1248; 0xdb0fead3; 0x49f1c09b;
   0x075372c9; 0x80991b7b; 0x25d479d8; 0xf6e8def7; 0xe3fe501a; 0xb6794c3b;
   0x976ce0bd; 0x04c006ba; 0xc1a94fb6; 0x409f60c4; 0x5e5c9ec2; 0x196a2463;
   0x68fb6faf; 0x3e6c53b5; 0x1339b2eb; 0x3b52ec6f; 0x6dfc511f; 0x9b30952c;
   0xcc814544; 0xaf5ebd09; 0xbee3d004; 0xde334afd; 0x660f2807; 0x192e4bb3;
   0xc0cba857; 0x45c8740f; 0xd20b5f39; 0xb9d3fbdb; 0x5579c0bd; 0x1a60320a;
   0xd6a100c6; 0x402c7279; 0x679f25fe; 0xfb1fa3cc; 0x8ea5e9f8; 0xdb3222f8;
   0x3c7516df; 0xfd616b15; 0x2f501ec8; 0xad0552ab; 0x323db5fa; 0xfd238760;
   0x53317b48; 0x3e00df82; 0x9e5c57bb; 0xca6f8ca0; 0x1a87562e; 0xdf1769db;
   0xd542a8f6; 0x287effc3; 0xac6732c6; 0x8c4f5573; 0x695b27b0; 0xbbca58c8;
   0xe1ffa35d; 0xb8f011a0; 0x10fa3d98; 0xfd2183b8; 0x4afcb56c; 0x2dd1d35b;
   0x9a53e479; 0xb6f84565; 0xd28e49bc; 0x4bfb9790; 0xe1ddf2da; 0xa4cb7e33;
   0x62fb1341; 0xcee4c6e8; 0xef20cada; 0x36774c01; 0xd07e9efe; 0x2bf11fb4;
   0x95dbda4d; 0xae909198; 0xeaad8e71; 0x6b93d5a0; 0xd08ed1d0; 0xafc725e0;
   0x8e3c5b2f; 0x8e7594b7; 0x8ff6e2fb; 0xf2122b64; 0x8888b812; 0x900df01c;
   0x4fad5ea0; 0x688fc31c; 0xd1cff191; 0xb3a8c1ad; 0x2f2f2218; 0xbe0e1777;
   0xea752dfe; 0x8b021fa1; 0xe5a0cc0f; 0xb56f74e8; 0x18acf3d6; 0xce89e299;
   0xb4a84fe0; 0xfd13e0b7; 0x7cc43b81; 0xd2ada8d9; 0x165fa266; 0x80957705;
   0x93cc7314; 0x211a1477; 0xe6ad2065; 0x77b5fa86; 0xc75442f5; 0xfb9d35cf;
   0xebcdaf0c; 0x7b3e89a0; 0xd6411bd3; 0xae1e7e49; 0x00250e2d; 0x2071b35e;
   0x226800bb; 0x57b8e0af; 0x2464369b; 0xf009b91e; 0x5563911d; 0x59dfa6aa;
   0x78c14389; 0xd95a537f; 0x207d5ba2; 0x02e5b9c5; 0x83260376; 0x6295cfa9;
   0x11c81968; 0x4e734a41; 0xb3472dca; 0x7b14a94a; 0x1b510052; 0x9a532915;
   0xd60f573f; 0xbc9bc6e4; 0x2b60a476; 0x81e67400; 0x08ba6fb5; 0x571be91f;
   0xf296ec6b; 0x2a0dd915; 0xb6636521; 0xe7b9f9b6; 0xff34052e; 0xc5855664;
   0x53b02d5d; 0xa99f8fa1; 0x08ba4799; 0x6e85076a].
Definition s1 : list Z :=
  [0x4b7a70e9; 0xb5b32944; 0xdb75092e; 0xc4192623; 0xad6ea6b0; 0x49a7df7d;
   0x9cee60b8; 0x8fedb266; 0xecaa8c71; 0x699a17ff; 0x5664526c; 0xc2b19ee1;
   0x193602a5; 0x75094c29; 0xa0591340; 0xe4183a3e; 0x3f54989a; 0x5b429d65;
   0x6b8fe4d6; 0x99f73fd6; 0xa1d29c07; 0xefe830f5; 0x4d2d38e6; 0xf0255dc1;
   0x4cdd2086; 0x8470eb26; 0x6382e9c6; 0x021ecc5e; 0x09686b3f; 0x3ebaefc9;
   0x3c971814; 0x6b6a70a1; 0x687f3584; 0x52a0e286; 0xb79c5305; 0xaa500737;
   0x3e07841c; 0x7fdeae5c; 0x8e7d44ec; 0x5716f2b8; 0xb03ada37; 0xf0500c0d;
   0xf01c1f04; 0x0200b3ff; 0xae0cf51a; 0x3cb574b2; 0x25837a58; 0xdc0921bd;
   0xd19113f9; 0x7ca92ff6; 0x94324773; 0x22f54701; 0x3ae5e581; 0x37c2dadc;
   0xc8b57634; 0x9af3dda7; 0xa9446146; 0x0fd0030e; 0xecc8c73e; 0xa4751e41;
   0xe238cd99; 0x3bea0e2f; 0x3280bba1; 0x183eb331; 0x4e548b38; 0x4f6db908;
   0x6f420d03; 0xf60a04bf; 0x2cb81290; 0x24977c79; 0x5679b072; 0xbcaf89af;
   0xde9a771f; 0xd9930810; 0xb38bae12; 0xdccf3f2e; 0x5512721f; 0x2e6b7124;
   0x501adde6; 0x9f84cd87; 0x7a584718; 0x7408da17; 0xbc9f9abc; 0xe94b7d8c;
   0xec7aec3a; 0xdb851dfa; 0x63094366; 0xc464c3d2; 0xef1c1847; 0x3215d908;
   0xdd433b37; 0x24c2ba16; 0x12a14d43; 0x2a65c451; 0x50940002; 0x133ae4dd;
   0x71dff89e; 0x10314e55; 0x81ac77d6; 0x5f11199b; 0x043556f1; 0xd7a3c76b;
   0x3c11183b; 0x5924a509; 0xf28fe6ed; 0x97f1fbfa; 0x9ebabf2c; 0x1e153c6e;
   0x86e34570; 0xeae96fb1; 0x860e5e0a; 0x5a3e2ab3; 0x771fe71c; 0x4e3d06fa;
   0x2965dcb9; 0x99e71d0f; 0x803e89d6; 0x5266c825; 0x2e4cc978; 0x9c10b36a;
   0xc6150eba; 0x94e2ea78; 0xa5fc3c53; 0x1e0a2df4; 0xf2f74ea7; 0x361d2b3d;
   0x1939260f; 0x19c27960; 0x5223a708; 0xf71312b6; 0xebadfe6e; 0xeac31f66;
   0xe3bc4595; 0xa67bc883; 0xb17f37d1; 0x018cff28; 0xc332ddef; 0xbe6c5aa5;
   0x65582185; 0x68ab9802; 0xeecea50f; 0xdb2f953b; 0x2aef7dad; 0x5b6e2f84;
   0x1521b628; 0x29076170; 0xecdd4775; 0x619f1510; 0x13cca830; 0xeb61bd96;
   0x0334fe1e; 0xaa0363cf; 0xb5735c90; 0x4c70a239; 0xd59e9e0b; 0xcbaade14;
   0xeecc86bc; 0x60622ca7; 0x9cab5cab; 0xb2f3846e; 0x648b1eaf; 0x19bdf0ca;
   0xa02369b9; 0x655abb50; 0x40685a32; 0x3c2ab4b3; 0x319ee9d5; 0xc021b8f7;
   0x9b540b19; 0x875fa099; 0x95f7997e; 0x623d7da8; 0xf837889a; 0x97e32d77;
   0x11ed935f; 0x16681281; 0x0e358829; 0xc7e61fd6; 0x96dedfa1; 0x7858ba99;
   0x57f584a5; 0x1b227263; 0x9b83c3ff; 0x1ac24696; 0xcdb30aeb; 0x532e3054;
   0x8fd948e4; 0x6dbc3128; 0x58ebf2ef; 0x34c6ffea; 0xfe28ed61; 0xee7c3c73;
   0x5d4a14d9; 0xe864b7e3; 0x42105d14; 0x203e13e0; 0x45eee2b6; 0xa3aaabea;
   0xdb6c4f15; 0xfacb4fd0; 0xc742f442; 0xef6abbb5; 0x654f3b1d; 0x41cd2105;
   0xd81e799e; 0x86854dc7; 0xe44b476a; 0x3d816250; 0xcf62a1f2; 0x5b8d2646;
   0xfc8883a0; 0xc1c7b6a3; 0x7f1524c3; 0x69cb7492; 0x47848a0b; 0x5692b285;
   0x095bbf00; 0xad19489d; 0x1462b174; 0x23820e00; 0x58428d2a; 0x0c55f5ea;
   0x1dadf43e; 0x233f7061; 0x3372f092; 0x8d937e41; 0xd65fecf1; 0x6c223bdb;
   0x7cde3759; 0xcbee7460; 0x4085f2a7; 0xce77326e; 0xa6078084; 0x19f8509e;
   0xe8efd855; 0x61d99735; 0xa969a7aa; 0xc50c06c2; 0x5a04abfc; 0x800bcadc;
   0x9e447a2e; 0xc3453484; 0xfdd56705; 0x0e1e9ec9; 0xdb73dbd3; 0x105588cd;
   0x675fda79; 0xe3674340; 0xc5c43465; 0x713e38d8; 0x3d28f89e; 0xf16dff20;
   0x153e21e7; 0x8fb03d4a; 0xe6e39f2b; 0xdb83adf7].
Definition s2 : list Z :=
  [0xe93d5a68; 0x948140f7; 0xf64c261c; 0x94692934; 0x411520f7; 0x7602d4f7;
   0xbcf46b2e; 0xd4a20068; 0xd4082471; 0x3320f46a; 0x43b7d4b7; 0x500061af;
   0x1e39f62e; 0x97244546; 0x14214f74; 0xbf8b8840; 0x4d95fc1d; 0x96b591af;
   0x70f4ddd3; 0x66a02f45; 0xbfbc09ec; 0x03bd9785; 0x7fac6dd0; 0x31cb8504;
   0x96eb27b3; 0x55fd3941; 0xda2547e6; 0xabca0a9a; 0x28507825; 0x530429f4;
   0x0a2c86da; 0xe9b66dfb; 0x68dc1462; 0xd7486900; 0x680ec0a4; 0x27a18dee;
   0x4f3ffea2; 0xe887ad8c; 0xb58ce006; 0x7af4d6b6; 0xaace1e7c; 0xd3375fec;
   0xce78a399; 0x406b2a42; 0x20fe9e35; 0xd9f385b9; 0xee39d7ab; 0x3b124e8b;
   0x1dc9faf7; 0x4b6d1856; 0x26a36631; 0xeae397b2; 0x3a6efa74; 0xdd5b4332;
   0x6841e7f7; 0xca7820fb; 0xfb0af54e; 0xd8feb397; 0x454056ac; 0xba489527;
   0x55533a3a; 0x20838d87; 0xfe6ba9b7; 0xd096954b; 0x55a867bc; 0xa1159a58;
   0xcca92963; 0x99e1db33; 0xa62a4a56; 0x3f3125f9; 0x5ef47e1c; 0x9029317c;
   0xfdf8e802; 0x04272f70; 0x80bb155c; 0x05282ce3; 0x95c11548; 0xe4c66d22;
   0x48c1133f; 0xc70f86dc; 0x07f9c9ee; 0x41041f0f; 0x404779a4; 0x5d886e17;
   0x325f51eb; 0xd59bc0d1; 0xf2bcc18f; 0x41113564; 0x257b7834; 0x602a9c60;
   0xdff8e8a3; 0x1f636c1b; 0x0e12b4c2; 0x02e1329e; 0xaf664fd1; 0xcad18115;
   0x6b2395e0; 0x333e92e1; 0x3b240b62; 0xeebeb922; 0x85b2a20e; 0xe6ba0d99;
   0xde720c8c; 0x2da2f728; 0xd0127845; 0x95b794fd; 0x647d0862; 0xe7ccf5f0;
   0x5449a36f; 0x877d48fa; 0xc39dfd27; 0xf33e8d1e; 0x0a476341; 0x992eff74;
   0x3a6f6eab; 0xf4f8fd37; 0xa812dc60; 0xa1ebddf8; 0x991be14c; 0xdb6e6b0d;
   0xc67b5510; 0x6d672c37; 0x2765d43b; 0xdcd0e804; 0xf1290dc7; 0xcc00ffa3;
   0xb5390f92; 0x690fed0b; 0x667b9ffb; 0xcedb7d9c; 0xa091cf0b; 0xd9155ea3;
   0xbb132f88; 0x515bad24; 0x7b9479bf; 0x763bd6eb; 0x37392eb3; 0xcc115979;
   0x8026e297; 0xf42e312d; 0x6842ada7; 0xc66a2b3b; 0x12754ccc; 0x782ef11c;
   0x6a124237; 0xb79251e7; 0x06a1bbe6; 0x4bfb6350; 0x1a6b1018; 0x11caedfa;
   0x3d25bdd8; 0xe2e1c3c9; 0x44421659; 0x0a121386; 0xd90cec6e; 0xd5abea2a;
   0x64af674e; 0xda86a85f; 0xbebfe988; 0x64e4c3fe; 0x9dbc8057; 0xf0f7c086;
   0x60787bf8; 0x6003604d; 0xd1fd8346; 0xf6381fb0; 0x7745ae04; 0xd736fccc;
   0x83426b33; 0xf01eab71; 0xb0804187; 0x3c005e5f; 0x77a057be; 0xbde8ae24;
   0x55464299; 0xbf582e61; 0x4e58f48f; 0xf2ddfda2; 0xf474ef38; 0x8789bdc2;
   0x5366f9c3; 0xc8b38e74; 0xb475f255; 0x46fcd9b9; 0x7aeb2661; 0x8b1ddf84;
   0x846a0e79; 0x915f95e2; 0x466e598e; 0x20b45770; 0x8cd55591; 0xc902de4c;
   0xb90bace1; 0xbb8205d0; 0x11a86248; 0x7574a99e; 0xb77f19b6; 0xe0a9dc09;
   0x662d09a1; 0xc4324633; 0xe85a1f02; 0x09f0be8c; 0x4a99a025; 0x1d6efe10;
   0x1ab93d1d; 0x0ba5a4df; 0xa186f20f; 0x2868f169; 0xdcb7da83; 0x573906fe;
   0xa1e2ce9b; 0x4fcd7f52; 0x50115e01; 0xa70683fa; 0xa002b5c4; 0x0de6d027;
   0x9af88c27; 0x773f8641; 0xc3604c06; 0x61a806b5; 0xf0177a28; 0xc0f586e0;
   0x006058aa; 0x30dc7d62; 0x11e69ed7; 0x2338ea63; 0x53c2dd94; 0xc2c21634;
   0xbbcbee56; 0x90bcb6de; 0xebfc7da1; 0xce591d76; 0x6f05e409; 0x4b7c0188;
   0x39720a3d; 0x7c927c24; 0x86e3725f; 0x724d9db9; 0x1ac15bb4; 0xd39eb8fc;
   0xed545578; 0x08fca5b5; 0xd83d7cd3; 0x4dad0fc4; 0x1e50ef5e; 0xb161e6f8;
   0xa28514d9; 0x6c51133c; 0x6fd5c7e7; 0x56e14ec4; 0x362abfce; 0xddc6c837;
   0xd79a3234; 0x92638212; 0x670efa8e; 0x406000e0].
Definition s3 : list Z :=
  [0x3a39ce37; 0xd3faf5cf; 0xabc27737; 0x5ac52d1b; 0x5cb0679e; 0x4fa33742;
   0xd3822740; 0x99bc9bbe; 0xd5118e9d; 0xbf0f7315; 0xd62d1c7e; 0xc700c47b;
   0xb78c1b6b; 0x21a19045; 0xb26eb1be; 0x6a366eb4; 0x5748ab2f; 0xbc946e79;
   0xc6a376d2; 0x6549c2c8; 0x530ff8ee; 0x468dde7d; 0xd5730a1d; 0x4cd04dc6;
   0x2939bbdb; 0xa9ba4650; 0xac9526e8; 0xbe5ee304; 0xa1fad5f0; 0x6a2d519a;
   0x63ef8ce2; 0x9a86ee22; 0xc089c2b8; 0x43242ef6; 0xa51e03aa; 0x9cf2d0a4;
   0x83c061ba; 0x9be96a4d; 0x8fe51550; 0xba645bd6; 0x2826a2f9; 0xa73a3ae1;
   0x4ba99586; 0xef5562e9; 0xc72fefd3; 0xf752f7da; 0x3f046f69; 0x77fa0a59;
   0x80e4a915; 0x87b08601; 0x9b09e6ad; 0x3b3ee593; 0xe990fd5a; 0x9e34d797;
   0x2cf0b7d9; 0x022b8b51; 0x96d5ac3a; 0x017da67d; 0xd1cf3ed6; 0x7c7d2d28;
   0x1f9f25cf; 0xadf2b89b; 0x5ad6b472; 0x5a88f54c; 0xe029ac71; 0xe019a5e6;
   0x47b0acfd; 0xed93fa9b; 0xe8d3c48d; 0x283b57cc; 0xf8d56629; 0x79132e28;
   0x785f0191; 0xed756055; 0xf7960e44; 0xe3d35e8c; 0x15056dd4; 0x88f46dba;
   0x03a16125; 0x0564f0bd; 0xc3eb9e15; 0x3c9057a2; 0x97271aec; 0xa93a072a;
   0x1b3f6d9b; 0x1e6321f5; 0xf59c66fb; 0x26dcf319; 0x7533d928; 0xb155fdf5;
   0x03563482; 0x8aba3cbb; 0x28517711; 0xc20ad9f8; 0xabcc5167; 0xccad925f;
   0x4de81751; 0x3830dc8e; 0x379d5862; 0x9320f991; 0xea7a90c2; 0xfb3e7bce;
   0x5121ce64; 0x774fbe32; 0xa8b6e37e; 0xc3293d46; 0x48de5369; 0x6413e680;
   0xa2ae0810; 0xdd6db224; 0x69852dfd; 0x09072166; 0xb39a460a; 0x6445c0dd;
   0x586cdecf; 0x1c20c8ae; 0x5bbef7dd; 0x1b588d40; 0xccd2017f; 0x6bb4e3bb;
   0xdda26a7e; 0x3a59ff45; 0x3e350a44; 0xbcb4cdd5; 0x72eacea8; 0xfa6484bb;
   0x8d6612ae; 0xbf3c6f47; 0xd29be463; 0x542f5d9e; 0xaec2771b; 0xf64e6370;
   0x740e0d8d; 0xe75b1357; 0xf8721671; 0xaf537d5d; 0x4040cb08; 0x4eb4e2cc;
   0x34d2466a; 0x0115af84; 0xe1b00428; 0x95983a1d; 0x06b89fb4; 0xce6ea048;
   0x6f3f3b82; 0x3520ab82; 0x011a1d4b; 0x277227f8; 0x611560b1; 0xe7933fdc;
   0xbb3a792b; 0x344525bd; 0xa08839e1; 0x51ce794b; 0x2f32c9b7; 0xa01fbac9;
   0xe01cc87e; 0xbcc7d1f6; 0xcf0111c3; 0xa1e8aac7; 0x1a908749; 0xd44fbd9a;
   0xd0dadecb; 0xd50ada38; 0x0339c32a; 0xc6913667; 0x8df9317c; 0xe0b12b4f;
   0xf79e59b7; 0x43f5bb3a; 0xf2d519ff; 0x27d9459c; 0xbf97222c; 0x15e6fc2a;
   0x0f91fc71; 0x9b941525; 0xfae59361; 0xceb69ceb; 0xc2a86459; 0x12baa8d1;
   0xb6c1075e; 0xe3056a0c; 0x10d25065; 0xcb03a442; 0xe0ec6e0e; 0x1698db3b;
   0x4c98a0be; 0x3278e964; 0x9f1f9532; 0xe0d392df; 0xd3a0342b; 0x8971f21e;
   0x1b0a7441; 0x4ba3348c; 0xc5be7120; 0xc37632d8; 0xdf359f8d; 0x9b992f2e;
   0xe60b6f47; 0x0fe3f11d; 0xe54cda54; 0x1edad891; 0xce6279cf; 0xcd3e7e6f;
   0x1618b166; 0xfd2c1d05; 0x848fd2c5; 0xf6fb2299; 0xf523f357; 0xa6327623;
   0x93a83531; 0x56cccd02; 0xacf08162; 0x5a75ebb5; 0x6e163697; 0x88d273cc;
   0xde966292; 0x81b949d0; 0x4c50901b; 0x71c65614; 0xe6c6c7bd; 0x327a140a;
   0x45e1d006; 0xc3f27b9a; 0xc9aa53fd; 0x62a80f00; 0xbb25bfe2; 0x35bdd2f6;
   0x71126905; 0xb2040222; 0xb6cbcf7c; 0xcd769c2b; 0x53113ec0; 0x1640e3d3;
   0x38abbd60; 0x2547adf0; 0xba38209c; 0xf746ce76; 0x77afa1c5; 0x20756060;
   0x85cbfe4e; 0x8ae88dd8; 0x7aaaf9b0; 0x4cf9aa7e; 0x1948c25c; 0x02fb8a8c;
   0x01c36ae4; 0xd6ebe1f9; 0x90d4f869; 0xa65cdea0; 0x3f09252d; 0xc208e69f;
   0xb74e6132; 0xce77e25b; 0x578fdfe3; 0x3ac372e6].
Definition tables : blowfish.Tables :=
  {| blowfish.initCipher := blowfish.mkCipher p0 s0 s1 s2 s3 |}.
End pi.

(** The two kinds of release of the library. *)
Definition strict : bcrypt.Release := {| bcrypt.rejectsLongPasswords := true |}.
Definition lenient : bcrypt.Release :=
  {| bcrypt.rejectsLongPasswords := false |}.

(** The library as the hasher of the service: a Go string is its bytes. *)
Definition xcrypto {tables : blowfish.Tables} {release : bcrypt.Release}
  : Bcrypt := {|
  GenerateFromPassword := fun rand password cost =>
    let (bytes, err) :=
      bcrypt.GenerateFromPassword rand (list_ascii_of_string password) cost in
    (string_of_list_ascii bytes, err);
  CompareHashAndPassword := fun hash password =>
    bcrypt.CompareHashAndPassword (list_ascii_of_string hash)
      (list_ascii_of_string password)
|}.

(** [jwt.MapClaims] and the signing of a token. *)
Inductive claimValue : Type :=
| VBool (b : bool)
| VString (s : string)
| VInt (n : Z).

Module jwt.
Abbreviation MapClaims := (gmap string claimValue).
Record Token : Type := mkToken { Method : string; Claims : MapClaims }.
Definition SigningMethodHS256 : string := "HS256".
Definition NewWithClaims (method : string) (claims : MapClaims) : Token :=
  mkToken method claims.
End jwt.

Class Jwt : Type := {
  SignedString : jwt.Token -> string -> string * option error
}.


(** ** The service ([business/user/user.go]) *)
Section Service.

Context {entities : Entities} {crypto : Bcrypt} {signer : Jwt}.

(** [hashPassword(password *string) error]: the computation returns the
    content of [*password] after the call next to the error. *)
Definition hashPassword (password : string) : Go (string * option error) :=
  seed ← randRead;
  let (bytes, err) := GenerateFromPassword seed password bcrypt.DefaultCost in
  match err with
  | Some e => mret (password, Some e)
  | None => mret (bytes, None)
  end.

Definition checkPasswordHash (password hash : string) : bool :=
  match CompareHashAndPassword hash password with
  | None => true
  | Some _ => false
  end.

Fixpoint validateClaims (claims : list Z) : option error :=
  match claims with
  | [] => None
  | claim :: rest =>
      if negb (IsValid claim)
      then Some (Errorf ("not valid claim detected: " ++ fmt_d claim))
      else validateClaims rest
  end.

(** The loop of [createToken] over the claims. *)
Definition addFlags (claims : list Z) (addClaims : jwt.MapClaims)
  : jwt.MapClaims :=
  fold_left (fun m claim => <[ClaimString claim := VBool true]> m)
            claims addClaims.

Definition createToken (userid jwtSecret : string) (claims : list Z)
  : Go (string * option error) :=
  let addClaims : jwt.MapClaims := ∅ in
  let addClaims := <["authorized" := VBool true]> addClaims in
  let addClaims := <["user_id" := VString userid]> addClaims in
  now ← time_Now;
  let addClaims :=
    <["exp" := VInt (time.Unix (time.Add (time.UTC now) (time.Hour * 168)))]>
      addClaims in
  match validateClaims claims with
  | Some e => mret ("", Some e)
  | None =>
      let addClaims := addFlags claims addClaims in
      let add := jwt.NewWithClaims jwt.SigningMethodHS256 addClaims in
      let (token, err) := SignedString add jwtSecret in
      match err with
      | Some e => mret ("", Some e)
      | None => mret (token, None)
      end
  end.

Definition Login (cfg : config.Config) (ctx : Context)
  (credentials : requests.LoginUser.t)
  : Go (responses.LoginUser.t * option error) :=
  let query := [("email", requests.LoginUser.Email credentials)] in
  '(result, err) ← infrastructure.Get ctx query;
  match err with
  | Some e => mret (responses.LoginUser.zero, Some e)
  | None =>
      if (length result <? 1)%nat
      then mret (responses.LoginUser.zero, Some (Errorf "email not found"))
      else
        user ← index result 0;
        if checkPasswordHash (requests.LoginUser.Password credentials)
                             (PasswordHash user)
        then
          '(token, err) ← createToken (primitive.Hex (ID user))
                                      (config.JWTSecret cfg) (Claims user);
          match err with
          | Some e => mret (responses.LoginUser.zero, Some e)
          | None => mret (responses.LoginUser.mk user token, None)
          end
        else mret (responses.LoginUser.zero, Some (Errorf "incorrect password"))
  end.

Definition withPasswordHash (h : string) (u : User) : User :=
  mkUser (ID u) (Name u) (Surnames u) (Email u) h (Claims u)
         (CreatedAt u) (UpdatedAt u).

Definition Create (ctx : Context) (u : User)
  : Go (responses.Creation.t * option error) :=
  '(hash, err) ← hashPassword (PasswordHash u);
  let u := withPasswordHash hash u in
  match err with
  | Some e => mret (responses.Creation.zero, Some e)
  | None =>
      match validateClaims (Claims u) with
      | Some e => mret (responses.Creation.zero, Some e)
      | None =>
          t ← time_Now;
          let now := time.UTC t in
          oid ← NewObjectID;
          let u := mkUser oid (Name u) (Surnames u) (Email u) (PasswordHash u)
                          (Claims u) now now in
          '(insertedID, err) ← infrastructure.Create ctx u;
          match err with
          | Some e => mret (responses.Creation.zero, Some e)
          | None => mret (responses.Creation.mk insertedID, None)
          end
      end
  end.

Definition GetAll (ctx : Context) : Go (list User * option error) :=
  '(result, err) ← infrastructure.Get ctx [];
  match err with
  | Some e => mret ([], Some e)
  | None => mret (result, None)
  end.

Definition GetByEmail (ctx : Context) (email : string)
  : Go (User * option error) :=
  let query := [("email", email)] in
  '(result, err) ← infrastructure.Get ctx query;
  match err with
  | Some e => mret (zeroUser, Some e)
  | None =>
      if (length result <? 1)%nat
      then mret (zeroUser, Some (Errorf "email not found"))
      else user ← index result 0; mret (user, None)
  end.

Definition GetByID (ctx : Context) (id : string) : Go (User * option error) :=
  '(user, err) ← infrastructure.GetByID ctx id;
  match err with
  | Some e => mret (zeroUser, Some e)
  | None => u ← deref user; mret (u, None)
  end.

(** The fields of a user, one assignment each. *)
Definition withName (v : string) (u : User) : User :=
  mkUser (ID u) v (Surnames u) (Email u) (PasswordHash u) (Claims u)
         (CreatedAt u) (UpdatedAt u).
Definition withSurnames (v : string) (u : User) : User :=
  mkUser (ID u) (Name u) v (Email u) (PasswordHash u) (Claims u)
         (CreatedAt u) (UpdatedAt u).
Definition withEmail (v : string) (u : User) : User :=
  mkUser (ID u) (Name u) (Surnames u) v (PasswordHash u) (Claims u)
         (CreatedAt u) (UpdatedAt u).
Definition withClaims (v : list Z) (u : User) : User :=
  mkUser (ID u) (Name u) (Surnames u) (Email u) (PasswordHash u) v
         (CreatedAt u) (UpdatedAt u).
Definition withUpdatedAt (v : Time) (u : User) : User :=
  mkUser (ID u) (Name u) (Surnames u) (Email u) (PasswordHash u) (Claims u)
         (CreatedAt u) v.

(** The guarded assignment [if p != nil { field = *p }]. *)
Definition assign {A} (p : option A) (set : A -> User -> User) (u : User)
  : User :=
  match p with
  | Some v => set v u
  | None => u
  end.

Definition Update (ctx : Context) (id : string) (u : requests.UpdateUser.t)
  : Go (option error) :=
  '(result, err) ← infrastructure.GetByID ctx id;
  match err with
  | Some e => mret (Some e)
  | None =>
      user ← deref result;
      let user := assign (requests.UpdateUser.Name u) withName user in
      let user := assign (requests.UpdateUser.Surnames u) withSurnames user in
      let user := assign (requests.UpdateUser.Email u) withEmail user in
      '(user, err) ←
        match requests.UpdateUser.NewPassword u with
        | Some newPassword =>
            oldPassword ← deref (requests.UpdateUser.OldPassword u);
            if checkPasswordHash oldPassword (PasswordHash user)
            then
              '(hashed, err) ← hashPassword newPassword;
              match err with
              | Some e => mret (user, Some e)
              | None => mret (withPasswordHash hashed user, None)
              end
            else mret (user, Some (Errorf "old password incorrect"))
        | None => mret (user, None)
        end;
      match err with
      | Some e => mret (Some e)
      | None =>
          let (user, err) :=
            match requests.UpdateUser.Claims u with
            | Some claims =>
                match validateClaims claims with
                | Some e => (user, Some e)
                | None => (withClaims claims user, None)
                end
            | None => (user, None)
            end in
          match err with
          | Some e => mret (Some e)
          | None =>
              t ← time_Now;
              let user := withUpdatedAt (time.UTC t) user in
              infrastructure.Update ctx id user false
          end
      end
  end.

Definition Delete (ctx : Context) (id : string) : Go (option error) :=
  infrastructure.Delete ctx id.

Definition GetClaims (ctx : Context) : Go (gmap Z string * option error) :=
  let claims := entities_GetClaims in
  err ← mongo.Ping;
  mret (claims, err).

Definition entity (oid : ObjectID) (name hash : string) : User :=
  mkUser oid name name name hash [] time.zero time.zero.

(** The closure [callback] of [AtomicTransationProof]; the two hashes are
    the variables it captures. *)
Definition callback (user1Hash user2Hash : string) (sessionContext : Context)
  : Go (option error) :=
  oid ← NewObjectID;
  '(_, err) ← infrastructure.Create sessionContext
                 (entity oid "Entity1" user1Hash);
  match err with
  | Some e => mret (Some e)
  | None =>
      oid ← NewObjectID;
      '(_, err) ← infrastructure.Create sessionContext
                     (entity oid "Entity2" user2Hash);
      match err with
      | Some e => mret (Some e)
      | None => mret None
      end
  end.

Definition AtomicTransationProof (ctx : Context) : Go (option error) :=
  '(session, err) ← mongo.StartSession;
  match err with
  | Some e => mret (Some e)
  | None =>
      defer (mongo.EndSession session)
        ('(user1Hash, err) ← hashPassword "Entity1";
         match err with
         | Some e => mret (Some e)
         | None =>
             '(user2Hash, err) ← hashPassword "Entity2";
             match err with
             | Some e => mret (Some e)
             | None =>
                 mongo.WithTransaction session (callback user1Hash user2Hash)
             end
         end)
  end.

End Service.

(** ** Vocabulary of the properties *)

(** The error of [validateClaims] for a code. *)
Definition invalidClaim (c : Z) : error :=
  Errorf ("not valid claim detected: " ++ fmt_d c).

(** The world after a lookup that was answered: one more tick, one more
    command, the same documents. *)
Definition looked (w : World) : World := record CmdFind (step w).

(** What a context reads is a document with this identifier. *)
Definition storedAt (ctx : Context) (oid : ObjectID) (user : User)
  (w : World) : Prop :=
  List.find (mongo.hasID oid) (mongo.view ctx w) = Some user.

(** The payload [createToken] signs for a user, a reading of the clock
    and a list of claims. *)
Definition payloadOf {entities : Entities} (userid : string) (now : Time)
  (claims : list Z) : jwt.MapClaims :=
  addFlags claims
    (<["exp" := VInt (time.Unix (time.Add (time.UTC now) (time.Hour * 168)))]>
       (<["user_id" := VString userid]>
          (<["authorized" := VBool true]> ∅))).

(** The documents with an email, in the order of the collection. *)
Definition withEmailOf (email : string) (docs : list User) : list User :=
  List.filter (fun u => String.eqb (Email u) email) docs.

(** What the hasher answers to [Create] for the password of its input. *)
Definition hashed {crypto : Bcrypt} (u : User) (w : World)
  : string * option error :=
  GenerateFromPassword (entropy w (tick w)) (PasswordHash u)
    bcrypt.DefaultCost.

(** The collection after the two inserts of [AtomicTransationProof]. *)
Definition twoEntities (before after : list User) : Prop :=
  exists oid1 oid2 hash1 hash2,
    after = (before ++ [entity oid1 "Entity1" hash1;
                        entity oid2 "Entity2" hash2])%list.

(** A hash of the current version and the default cost. *)
Definition fresh (hash salt : list ascii) : bcrypt.hashed :=
  bcrypt.mkHashed hash salt bcrypt.DefaultCost bcrypt.majorVersion
    bcrypt.minorVersion.

(** The bytes of a Go string, and the 18 words the key schedule of
    Blowfish reads from a password: the bytes of the password and a zero
    byte, read cyclically. *)
Definition bytes (s : string) : list ascii := list_ascii_of_string s.

Definition keyOf (password : string) : list Z :=
  blowfish.keyWords 18 (bytes password ++ [zero]) 0.

(** The 22 characters of the salt made of a seed, and the 31 characters
    that bcrypt gives a password under this salt at the default cost. *)
Definition saltOf (seed : N) : list ascii :=
  bcrypt.base64Encode (bcrypt.unencodedSalt seed).

Definition hashOf {tables : blowfish.Tables} (seed : N) (password : string)
  : list ascii :=
  bcrypt.fit 31
    (fst (bcrypt.bcrypt (bytes password) bcrypt.DefaultCost (saltOf seed))).

(** Two worlds with the same documents and the same sessions: what lies
    between them wrote nothing. *)
Definition same (w w1 : World) : Prop :=
  users w1 = users w /\ sessions w1 = sessions w.

(** Between two worlds only commands that do not write were sent. *)
Definition quiet (w w1 : World) : Prop :=
  same w w1 /\
  exists cs, journal w1 = (journal w ++ cs)%list /\ existsb isWrite cs = false.

(** Every stored claim is valid; identifiers are pairwise distinct. *)
Definition claimsValid {entities : Entities} (docs : list User) : Prop :=
  Forall (fun u => Forall (fun c => IsValid c = true) (Claims u)) docs.

Definition uniqueIDs (docs : list User) : Prop :=
  List.NoDup (map ID docs).

(** What a run of [Update] that returned nil has done: the identifier
    parsed, the lookup was answered and found a document, and the
    collection is the old one with this document replaced by one of the
    same identifier, whose claims are the stored ones or validated ones and
    whose password hash is the stored one or the hash made of the new
    password. *)
Definition updated {entities : Entities} {crypto : Bcrypt} (ctx : Context)
  (id : string) (u : requests.UpdateUser.t) (w w1 : World) : Prop :=
  exists oid user patched,
    primitive.ObjectIDFromHex id = (oid, None) /\
    faults w (tick w) = None /\
    List.find (mongo.hasID oid) (mongo.view ctx w) = Some user /\
    mongo.view ctx w1 = mongo.replaceFirst oid patched (mongo.view ctx w) /\
    ID patched = oid /\
    (Claims patched = Claims user \/ validateClaims (Claims patched) = None) /\
    match requests.UpdateUser.NewPassword u with
    | None => PasswordHash patched = PasswordHash user
    | Some np =>
        hashPassword np (looked w)
        = (Returned (PasswordHash patched, None), step (looked w))
    end.

(** What a run of [Create] that returned nil has done: one record has been
    appended, with an identifier that no document had. *)
Definition created {entities : Entities} {crypto : Bcrypt} (ctx : Context)
  (u : User) (w w1 : World) (resp : responses.Creation.t) : Prop :=
  exists rec,
    mongo.view ctx w1 = (mongo.view ctx w ++ [rec])%list /\
    responses.Creation.InsertedID resp = primitive.Hex (ID rec) /\
    (forall old, In old (mongo.view ctx w) -> ID old <> ID rec) /\
    Name rec = Name u /\ Surnames rec = Surnames u /\ Email rec = Email u /\
    Claims rec = Claims u /\
    validateClaims (Claims u) = None /\
    hashPassword (PasswordHash u) w
    = (Returned (PasswordHash rec, None), step w).

(** Two documents without claims appended, with identifiers that are new
    and distinct. *)
Definition appendedTwo (before after : list User) : Prop :=
  exists e1 e2,
    after = (before ++ [e1; e2])%list /\
    Claims e1 = [] /\ Claims e2 = [] /\
    ~ In (ID e1) (map ID before) /\ ~ In (ID e2) (map ID before) /\
    ID e1 <> ID e2.

(** ** A concrete configuration

    Stand-ins for the collaborators, on which the model runs by
    computation. *)
Module sample.

(** Modelled from the spec: the enumeration of the entities package,
    which the service only reaches through [Entities]; the data model
    names the claims [0 = Admin] and [1 = Operator]. *)
Definition claims : Entities := {|
  IsValid := fun c => (c =? 0)%Z || (c =? 1)%Z;
  ClaimString := fun c => if (c =? 0)%Z then "Admin" else "Operator";
  entities_GetClaims := {[ 0 := "Admin"; 1 := "Operator" ]}
|}.

(** A hasher that tags the password instead of hashing it, and refuses
    passwords of more than 72 bytes; it stands in for the library where a
    run at cost 10 would have to be computed. *)
Definition tagging : Bcrypt := {|
  GenerateFromPassword := fun _ password _ =>
    if (72 <? String.length password)%nat
    then ("", Some bcrypt.ErrPasswordTooLong)
    else ("$2a$10$" ++ password, None);
  CompareHashAndPassword := fun hash password =>
    if String.eqb hash ("$2a$10$" ++ password)
    then None
    else Some bcrypt.ErrMismatchedHashAndPassword
|}.

(** A signer that returns the signing key after the method. *)
Definition keyed : Jwt := {|
  SignedString := fun t key => (jwt.Method t ++ "." ++ key, None)
|}.

Definition ann : User :=
  mkUser 1002%N "Ann" "Lee" "ann@example.org" "$2a$10$secret" [0]
         1700000000000000001 1700000000000000001.

Definition annID : string := "0000000000000000000003ea".

(** A world with one user, a clock that advances by a nanosecond per
    reading and a backend that never fails. *)
Definition world : World :=
  mkWorld [ann] [] [] 0
          (fun n => 1700000000000000100 + Z.of_nat n)
          (fun n => (2000 + N.of_nat n)%N)
          (fun _ => Drawn 7%N)
          (fun _ => None)
          3.

(** The same world with a backend that fails every round trip. *)
Definition ErrUnreachable : error :=
  Foreign "mongo" "server selection error" [].
Definition offline : World :=
  mkWorld [ann] [] [] 0 (wallClock world) (objectIDs world) (entropy world)
          (fun _ => Some ErrUnreachable) 3.

(** The sample world with an identifier generator that repeats itself:
    the second insert of a transaction meets the key of the first. *)
Definition stuttering : World :=
  mkWorld [ann] [] [] 0 (wallClock world) (fun _ => 2000%N) (entropy world)
          (fun _ => None) 3.

(** A password of 72 bytes, and the same followed by one more byte. *)
Definition passphrase : string :=
  "aaaaaaaaaaaaaaaaaaaaaaaaaaaaaaaaaaaaaaaaaaaaaaaaaaaaaaaaaaaaaaaaaaaaaaaa".
Definition longer : string := passphrase ++ "b".

(** A password of one byte, and a password of three bytes that repeats it
    after a zero byte. *)
Definition short : string := "a".
Definition cyclic : string := String "a" (String zero "a").

(** A user to be created, and the identifier the sample world gives it. *)
Definition bob : User :=
  mkUser 0%N "Bob" "Ray" "bob@example.org" "hunter2" [1] 0 0.
Definition bobID : string := "0000000000000000000007d2".

(** A world whose only user has a claim outside the enumeration. *)
Definition eve : User :=
  mkUser 7%N "Eve" "Roe" "eve@example.org" "$2a$10$pw" [0; 5; 9] 0 0.
Definition tainted : World :=
  mkWorld [eve] [] [] 0 (wallClock world) (objectIDs world) (entropy world)
          (fun _ => None) 3.

(** A world whose only user has a stored claim far outside the
    enumeration. *)
Definition zed : User :=
  mkUser 9%N "Zed" "Poe" "zed@example.org" "$2a$10$letmein" [0; 99999] 0 0.
Definition spoiled : World :=
  mkWorld [zed] [] [] 0 (wallClock world) (objectIDs world) (entropy world)
          (fun _ => None) 3.


(** An update that asks for a new password and has no old one. *)
Definition newPasswordOnly : requests.UpdateUser.t :=
  requests.UpdateUser.mk None None None None (Some "next") None.

End sample.

(** * Properties *)

(** ** Claim validation *)
Section Validation.

Context {entities : Entities}.

Lemma validateClaims_ok (claims : list Z) :
  validateClaims claims = None <-> Forall (fun c => IsValid c = true) claims.
Proof.
  induction claims as [|c cs IH]; simpl.
  - split; [constructor | reflexivity].
  - destruct (IsValid c) eqn:Hc; simpl.
    + rewrite IH. split.
      * intros Hcs. constructor; assumption.
      * intros Hall. inversion Hall; assumption.
    + split; [discriminate |].
      intros Hall. inversion Hall; congruence.
Qed.

Lemma validateClaims_first (claims : list Z) (e : error) :
  validateClaims claims = Some e ->
  exists pre c post,
    claims = (pre ++ c :: post)%list /\
    Forall (fun c => IsValid c = true) pre /\
    IsValid c = false /\
    e = invalidClaim c.
Proof.
  induction claims as [|c cs IH]; simpl; [discriminate |].
  destruct (IsValid c) eqn:Hc; simpl.
  - intros He. destruct (IH He) as (pre & c' & post & -> & Hpre & Hc' & ->).
    exists (c :: pre), c', post. repeat split; auto.
  - intros [= <-]. exists [], c, cs. repeat split; auto.
Qed.

Lemma validateClaims_invalid (claims : list Z) :
  ~ Forall (fun c => IsValid c = true) claims ->
  exists e, validateClaims claims = Some e.
Proof.
  intros Hnot. destruct (validateClaims claims) as [e|] eqn:Hv; [eauto |].
  apply validateClaims_ok in Hv. contradiction.
Qed.

(** C5.  [validateClaims] accepts a list exactly when each of its codes is
    valid; when it rejects, the error names the first invalid code in
    iteration order, the codes before it being valid; and, 99999 being
    outside the enumeration, the list [[99999]] is rejected with the error
    for 99999. *)
Theorem validateClaims_spec (claims : list Z) :
  (validateClaims claims = None <->
   Forall (fun c => IsValid c = true) claims) /\
  (forall e, validateClaims claims = Some e ->
     exists pre c post,
       claims = (pre ++ c :: post)%list /\
       Forall (fun c => IsValid c = true) pre /\
       IsValid c = false /\
       e = Errorf ("not valid claim detected: " ++ fmt_d c)) /\
  (IsValid 99999 = false ->
   validateClaims [99999]
   = Some (Errorf "not valid claim detected: 99999")).
Proof.
  split; [apply validateClaims_ok |].
  split; [intros e; apply validateClaims_first |].
  intros H99999. simpl. rewrite H99999. reflexivity.
Qed.

End Validation.

Lemma validateClaims_spec_witness :
  (@validateClaims sample.claims [0; 1; 0] = None <->
   Forall (fun c => @IsValid sample.claims c = true) [0; 1; 0]) /\
  @validateClaims sample.claims [99999]
  = Some (Errorf "not valid claim detected: 99999").
Proof.
  split.
  - exact (proj1 (@validateClaims_spec sample.claims [0; 1; 0])).
  - exact (proj2 (proj2 (@validateClaims_spec sample.claims [])) eq_refl).
Defined.

(** ** Running computations *)

Lemma bind_returned {A B} (m : Go A) (f : A -> Go B) (w w1 : World) (a : A) :
  m w = (Returned a, w1) -> (m ≫= f) w = f a w1.
Proof. intros Hm. unfold mbind, Go_bind. rewrite Hm. reflexivity. Qed.

Lemma bind_panicked {A B} (m : Go A) (f : A -> Go B) (w w1 : World) msg :
  m w = (Panicked msg, w1) -> (m ≫= f) w = (Panicked msg, w1).
Proof. intros Hm. unfold mbind, Go_bind. rewrite Hm. reflexivity. Qed.

Lemma view_record ctx c w : mongo.view ctx (record c w) = mongo.view ctx w.
Proof. destruct ctx; reflexivity. Qed.

Lemma view_step ctx w : mongo.view ctx (step w) = mongo.view ctx w.
Proof. destruct ctx; reflexivity. Qed.

(** The lookup by identifier: what it returns, and that it only asks. *)
Lemma GetByID_found ctx id oid user w :
  primitive.ObjectIDFromHex id = (oid, None) ->
  faults w (tick w) = None ->
  List.find (mongo.hasID oid) (mongo.view ctx w) = Some user ->
  infrastructure.GetByID ctx id w
  = (Returned (Some user, None), record CmdFind (step w)).
Proof.
  intros Hid Hup Hfind. unfold infrastructure.GetByID. rewrite Hid.
  unfold mbind, Go_bind, roundTrip, mongo.read. rewrite Hup.
  rewrite view_record, view_step, Hfind. reflexivity.
Qed.

Lemma GetByID_result ctx id w :
  exists r w1,
    infrastructure.GetByID ctx id w = (Returned r, w1) /\
    (w1 = w \/ w1 = record CmdFind (step w)) /\
    ((exists user, r = (Some user, None)) \/ (exists e, r = (None, Some e))).
Proof.
  unfold infrastructure.GetByID.
  destruct (primitive.ObjectIDFromHex id) as [oid [e|]].
  - eexists _, _. split; [reflexivity |]. split; [left; reflexivity |]. eauto.
  - unfold mbind, Go_bind, roundTrip, mongo.read.
    destruct (faults w (tick w)) as [e|].
    + eexists _, _. split; [reflexivity |]. split; [right; reflexivity |]. eauto.
    + destruct (List.find _ _) as [user|];
        eexists _, _; (split; [reflexivity |]); (split; [right; reflexivity |]);
        eauto.
Qed.

(** ** GetClaims *)
Section Claims.

Context {entities : Entities}.

(** C9.  [GetClaims] hands back the enumeration of the entities package
    together with the answer of a ping of the backend: its error is the
    error of the ping, so it fails exactly when the ping fails, and the
    enumeration comes back in both cases.  Nothing but the ping is sent. *)
Theorem GetClaims_ping (ctx : Context) (w : World) :
  exists pingErr w1,
    mongo.Ping w = (Returned pingErr, w1) /\
    GetClaims ctx w = (Returned (entities_GetClaims, pingErr), w1) /\
    (pingErr = None <-> faults w (tick w) = None) /\
    users w1 = users w /\
    journal w1 = (journal w ++ [CmdPing])%list.
Proof.
  exists (faults w (tick w)), (record CmdPing (step w)).
  repeat split; auto.
Qed.

End Claims.

(** ** Reads and writes of a context *)

Lemma view_install ctx docs w : mongo.view ctx (mongo.install ctx docs w) = docs.
Proof.
  destruct ctx as [|h]; simpl; [reflexivity |].
  destruct (sessions w !! h) as [[[v|]|]|] eqn:Hh; simpl; try rewrite Hh;
    try reflexivity.
  rewrite list_lookup_insert_eq; [reflexivity |].
  eapply lookup_lt_Some; eassumption.
Qed.

Lemma find_hasID oid docs (u : User) :
  List.find (mongo.hasID oid) docs = Some u ->
  ID u = oid /\ existsb (mongo.hasID oid) docs = true.
Proof.
  induction docs as [|d ds IH]; simpl; [discriminate |].
  destruct (mongo.hasID oid d) eqn:Hd.
  - intros [= <-]. split; [| reflexivity].
    unfold mongo.hasID in Hd. apply N.eqb_eq in Hd. assumption.
  - intros Hf. destruct (IH Hf) as [-> H]. split; [reflexivity | exact H].
Qed.

Lemma find_replaceFirst oid (e : User) docs :
  ID e = oid ->
  existsb (mongo.hasID oid) docs = true ->
  List.find (mongo.hasID oid) (mongo.replaceFirst oid e docs) = Some e.
Proof.
  intros He. induction docs as [|d ds IH]; simpl; [discriminate |].
  destruct (mongo.hasID oid d) eqn:Hd; simpl.
  - intros _. unfold mongo.hasID. rewrite He, N.eqb_refl. reflexivity.
  - intros Hex. rewrite Hd. auto.
Qed.

(** The replacement of the framework: every path returns, and the only one
    that returns nil has written the entity over the document found. *)
Lemma repo_Update_returns ctx id e upsert w :
  exists r w1, infrastructure.Update ctx id e upsert w = (Returned r, w1).
Proof.
  unfold infrastructure.Update.
  destruct (primitive.ObjectIDFromHex id) as [oid [err|]]; [eauto |].
  unfold mbind, Go_bind, roundTrip, mongo.read, mongo.write, mret, Go_ret.
  destruct (faults w (tick w)); [eauto |].
  destruct (existsb _ _); [destruct (_ =? _)%N; eauto |].
  destruct upsert; eauto.
Qed.

Lemma repo_Update_nil ctx id oid e w w1 :
  primitive.ObjectIDFromHex id = (oid, None) ->
  existsb (mongo.hasID oid) (mongo.view ctx w) = true ->
  infrastructure.Update ctx id e false w = (Returned None, w1) ->
  faults w (tick w) = None /\
  ID e = oid /\
  w1 = mongo.install ctx (mongo.replaceFirst oid e (mongo.view ctx w))
         (record CmdUpdate (step w)).
Proof.
  intros Hid Hex. unfold infrastructure.Update. rewrite Hid.
  unfold mbind, Go_bind, roundTrip, mongo.read, mongo.write, mret, Go_ret.
  destruct (faults w (tick w)); [discriminate |].
  rewrite view_record, view_step, Hex.
  destruct (ID e =? oid)%N eqn:He; [| discriminate].
  intros [= <-]. apply N.eqb_eq in He. auto.
Qed.

Lemma hashPassword_returns {crypto : Bcrypt} password w :
  hashPassword password w
  = (Returned
       (match GenerateFromPassword (entropy w (tick w)) password
                bcrypt.DefaultCost with
        | (_, Some e) => (password, Some e)
        | (bytes, None) => (bytes, None)
        end), step w).
Proof.
  unfold hashPassword, randRead, mbind, Go_bind.
  destruct (GenerateFromPassword _ _ _) as [bytes [e|]]; reflexivity.
Qed.

(** ** Update *)
Section UpdateOfStoredUser.

Context {entities : Entities} {crypto : Bcrypt}.

(** A stored user: the identifier parses, the lookup's round trip is
    answered, and [user] is the document it finds. *)
Variables (ctx : Context) (id : string) (oid : ObjectID) (user : User).
Variable w : World.
Hypothesis Hid : primitive.ObjectIDFromHex id = (oid, None).
Hypothesis Hup : faults w (tick w) = None.
Hypothesis Hstored :
  List.find (mongo.hasID oid) (mongo.view ctx w) = Some user.

Lemma looked_same :
  users (looked w) = users w /\ sessions (looked w) = sessions w /\
  mongo.view ctx (looked w) = mongo.view ctx w /\
  journal (looked w) = (journal w ++ [CmdFind])%list.
Proof. unfold looked. rewrite view_record, view_step. auto. Qed.

Ltac start_update :=
  unfold Update, mbind, Go_bind;
  rewrite (GetByID_found _ _ _ _ _ Hid Hup Hstored);
  fold (looked w); unfold deref, mret, Go_ret; cbn beta iota.

Lemma PasswordHash_assigned (u : requests.UpdateUser.t) :
  PasswordHash
    (assign (requests.UpdateUser.Email u) withEmail
       (assign (requests.UpdateUser.Surnames u) withSurnames
          (assign (requests.UpdateUser.Name u) withName user)))
  = PasswordHash user.
Proof.
  destruct (requests.UpdateUser.Email u), (requests.UpdateUser.Surnames u),
    (requests.UpdateUser.Name u); reflexivity.
Qed.

Lemma Update_wrong_old_password (u : requests.UpdateUser.t) np op :
  requests.UpdateUser.NewPassword u = Some np ->
  requests.UpdateUser.OldPassword u = Some op ->
  checkPasswordHash op (PasswordHash user) = false ->
  Update ctx id u w
  = (Returned (Some (Errorf "old password incorrect")), (looked w)).
Proof.
  intros Hnew Hold Hbad. start_update.
  rewrite Hnew, Hold, PasswordHash_assigned, Hbad. reflexivity.
Qed.

Lemma Update_hash_failure (u : requests.UpdateUser.t) np op e :
  requests.UpdateUser.NewPassword u = Some np ->
  requests.UpdateUser.OldPassword u = Some op ->
  checkPasswordHash op (PasswordHash user) = true ->
  snd (GenerateFromPassword (entropy w (S (tick w))) np
         bcrypt.DefaultCost) = Some e ->
  Update ctx id u w = (Returned (Some e), step (looked w)).
Proof.
  intros Hnew Hold Hgood Hgen. start_update.
  rewrite Hnew, Hold, PasswordHash_assigned, Hgood.
  unfold deref, hashPassword, randRead, mbind, Go_bind, mret, Go_ret.
  change (entropy (looked w) (tick (looked w))) with (entropy w (S (tick w))).
  destruct (GenerateFromPassword _ np _) as [h err]. simpl in Hgen.
  subst err. reflexivity.
Qed.

Lemma Update_invalid_claims_no_password (u : requests.UpdateUser.t) cs e :
  requests.UpdateUser.Claims u = Some cs ->
  validateClaims cs = Some e ->
  requests.UpdateUser.NewPassword u = None ->
  Update ctx id u w = (Returned (Some e), (looked w)).
Proof.
  intros Hcs Hbad Hnew. start_update.
  rewrite Hnew, Hcs, Hbad. reflexivity.
Qed.

Lemma Update_invalid_claims_password (u : requests.UpdateUser.t) cs e np op h :
  requests.UpdateUser.Claims u = Some cs ->
  validateClaims cs = Some e ->
  requests.UpdateUser.NewPassword u = Some np ->
  requests.UpdateUser.OldPassword u = Some op ->
  checkPasswordHash op (PasswordHash user) = true ->
  GenerateFromPassword (entropy w (S (tick w))) np bcrypt.DefaultCost
  = (h, None) ->
  Update ctx id u w = (Returned (Some e), step (looked w)).
Proof.
  intros Hcs Hbad Hnew Hold Hgood Hgen. start_update.
  rewrite Hnew, Hold, PasswordHash_assigned, Hgood.
  unfold deref, hashPassword, randRead, mbind, Go_bind, mret, Go_ret.
  change (entropy (looked w) (tick (looked w))) with (entropy w (S (tick w))).
  rewrite Hgen, Hcs, Hbad. reflexivity.
Qed.

(** C1.  For a stored user, an update that brings a new password with an
    old password that does not verify against the stored hash returns the
    error "old password incorrect" and leaves the world as the lookup left
    it: the collection, the sessions and what the context reads are as
    before, and the only command sent is the lookup.  The same holds when
    the hashing of the new password fails and when the claims of the
    request are rejected: the error comes back and no write is sent. *)
Theorem Update_rejected_without_write (u : requests.UpdateUser.t) :
  (forall np op,
     requests.UpdateUser.NewPassword u = Some np ->
     requests.UpdateUser.OldPassword u = Some op ->
     checkPasswordHash op (PasswordHash user) = false ->
     Update ctx id u w
     = (Returned (Some (Errorf "old password incorrect")), (looked w))) /\
  (forall np op e,
     requests.UpdateUser.NewPassword u = Some np ->
     requests.UpdateUser.OldPassword u = Some op ->
     checkPasswordHash op (PasswordHash user) = true ->
     snd (GenerateFromPassword (entropy w (S (tick w))) np
            bcrypt.DefaultCost) = Some e ->
     Update ctx id u w = (Returned (Some e), step (looked w))) /\
  (forall cs e,
     requests.UpdateUser.Claims u = Some cs ->
     validateClaims cs = Some e ->
     (requests.UpdateUser.NewPassword u = None ->
      Update ctx id u w = (Returned (Some e), (looked w))) /\
     (forall np op h,
        requests.UpdateUser.NewPassword u = Some np ->
        requests.UpdateUser.OldPassword u = Some op ->
        checkPasswordHash op (PasswordHash user) = true ->
        GenerateFromPassword (entropy w (S (tick w))) np
          bcrypt.DefaultCost = (h, None) ->
        Update ctx id u w = (Returned (Some e), step (looked w)))) /\
  (forall w1, w1 = (looked w) \/ w1 = step (looked w) ->
     users w1 = users w /\
     sessions w1 = sessions w /\
     mongo.view ctx w1 = mongo.view ctx w /\
     List.find (mongo.hasID oid) (mongo.view ctx w1) = Some user /\
     journal w1 = (journal w ++ [CmdFind])%list).
Proof.
  split; [intros; eapply Update_wrong_old_password; eauto |].
  split; [intros; eapply Update_hash_failure; eauto |].
  split.
  - intros cs e Hcs Hbad. split.
    + intros. eapply Update_invalid_claims_no_password; eauto.
    + intros. eapply Update_invalid_claims_password; eauto.
  - destruct looked_same as (Hu & Hs & Hv & Hj).
    intros w1 [-> | ->]; rewrite ?view_step, Hv; auto.
Qed.

(** The path of an update is decided by the request and by what the
    hasher answers; [settle] closes the branches that return. *)
Ltac settle :=
  unfold time_Now; cbn beta iota;
  match goal with
  | |- context [infrastructure.Update ?c ?i ?e ?b ?v] =>
      let r := fresh "r" in
      let w2 := fresh "w2" in
      let H := fresh "H" in
      destruct (repo_Update_returns c i e b v) as (r & w2 & H); rewrite H
  end.

Lemma Update_returns_with_old_password (u : requests.UpdateUser.t) :
  (is_Some (requests.UpdateUser.NewPassword u) ->
   is_Some (requests.UpdateUser.OldPassword u)) ->
  exists r w1, Update ctx id u w = (Returned r, w1).
Proof.
  intros Hpre. start_update.
  destruct (requests.UpdateUser.NewPassword u) as [np|].
  - destruct (Hpre (ltac:(eauto))) as [op ->].
    destruct (checkPasswordHash _ _); [| eauto].
    rewrite hashPassword_returns.
    destruct (GenerateFromPassword _ _ _) as [h [e|]]; [eauto |].
    destruct (requests.UpdateUser.Claims u) as [cs|];
      [destruct (validateClaims cs); [eauto |] |]; settle; eauto.
  - destruct (requests.UpdateUser.Claims u) as [cs|];
      [destruct (validateClaims cs); [eauto |] |]; settle; eauto.
Qed.

Lemma Update_panics_without_old_password (u : requests.UpdateUser.t) :
  is_Some (requests.UpdateUser.NewPassword u) ->
  requests.UpdateUser.OldPassword u = None ->
  Update ctx id u w = (Panicked nilDereference, looked w).
Proof.
  intros [np Hnew] Hold. start_update. rewrite Hnew, Hold. reflexivity.
Qed.

(** C3.  For a stored user, an update whose request has a new password
    and a nil old password panics on the nil pointer: it does not return,
    neither an error nor anything else, and nothing is written.  The
    update returns exactly when the old password is present whenever the
    new one is. *)
Theorem Update_nil_OldPassword (u : requests.UpdateUser.t) :
  (is_Some (requests.UpdateUser.NewPassword u) ->
   requests.UpdateUser.OldPassword u = None ->
   Update ctx id u w = (Panicked nilDereference, looked w) /\
   users (looked w) = users w /\
   journal (looked w) = (journal w ++ [CmdFind])%list) /\
  ((exists r w1, Update ctx id u w = (Returned r, w1)) <->
   (is_Some (requests.UpdateUser.NewPassword u) ->
    is_Some (requests.UpdateUser.OldPassword u))).
Proof.
  split.
  - intros Hnew Hold. split; [| split; reflexivity].
    apply Update_panics_without_old_password; assumption.
  - split.
    + intros (r & w1 & Hret) Hnew.
      destruct (requests.UpdateUser.OldPassword u) as [op|] eqn:Hold;
        [eauto |].
      rewrite (Update_panics_without_old_password u Hnew Hold) in Hret.
      discriminate.
    + apply Update_returns_with_old_password.
Qed.

(** The write of a successful update. *)
Lemma Update_tail (merged : User) (w2 w1 : World) :
  ID merged = oid ->
  mongo.view ctx w2 = mongo.view ctx w ->
  (time_Now ≫= fun t : Time =>
     infrastructure.Update ctx id (withUpdatedAt (time.UTC t) merged) false) w2
  = (Returned None, w1) ->
  let patched := withUpdatedAt (wallClock w2 (tick w2)) merged in
  mongo.view ctx w1 = mongo.replaceFirst oid patched (mongo.view ctx w) /\
  storedAt ctx oid patched w1.
Proof.
  intros Hm Hv. unfold mbind, Go_bind, time_Now. cbn beta iota.
  intros Hrun.
  destruct (find_hasID _ _ _ Hstored) as [Hu Hex].
  apply (repo_Update_nil _ _ oid) in Hrun; [| assumption |].
  2:{ rewrite view_step, Hv. exact Hex. }
  destruct Hrun as (_ & _ & ->). cbn zeta.
  rewrite view_install, view_step, Hv. split; [reflexivity |].
  unfold storedAt. rewrite view_install.
  apply find_replaceFirst; [exact Hm | exact Hex].
Qed.

Lemma assigned_fields (u : requests.UpdateUser.t) :
  let merged :=
    assign (requests.UpdateUser.Email u) withEmail
      (assign (requests.UpdateUser.Surnames u) withSurnames
         (assign (requests.UpdateUser.Name u) withName user)) in
  ID merged = ID user /\
  CreatedAt merged = CreatedAt user /\
  Name merged = default (Name user) (requests.UpdateUser.Name u) /\
  Surnames merged = default (Surnames user) (requests.UpdateUser.Surnames u) /\
  Email merged = default (Email user) (requests.UpdateUser.Email u) /\
  Claims merged = Claims user /\
  PasswordHash merged = PasswordHash user.
Proof.
  destruct (requests.UpdateUser.Email u), (requests.UpdateUser.Surnames u),
    (requests.UpdateUser.Name u); simpl; repeat split; reflexivity.
Qed.

(** C2.  An update of a stored user that succeeds writes the merge of the
    request into the stored record: the document at the identifier is
    replaced by one in which each of name, surnames, email and claims has
    the value of the request when the request has one and its stored value
    otherwise; the password hash is the hash of the new password when the
    request has one (its old password having verified) and the stored hash
    otherwise; the identifier and the creation time are the stored ones;
    the time of update is the reading of the clock.  The other documents
    stay as they are.  With only a name in the request, the name and the
    time of update change, and email, claims and password hash do not. *)
Theorem Update_merge_patch (u : requests.UpdateUser.t) (w1 : World)
  (Hok : Update ctx id u w = (Returned None, w1)) :
  exists patched,
    mongo.view ctx w1 = mongo.replaceFirst oid patched (mongo.view ctx w) /\
    storedAt ctx oid patched w1 /\
    ID patched = ID user /\
    CreatedAt patched = CreatedAt user /\
    Name patched = default (Name user) (requests.UpdateUser.Name u) /\
    Surnames patched
    = default (Surnames user) (requests.UpdateUser.Surnames u) /\
    Email patched = default (Email user) (requests.UpdateUser.Email u) /\
    Claims patched = default (Claims user) (requests.UpdateUser.Claims u) /\
    match requests.UpdateUser.NewPassword u with
    | None =>
        PasswordHash patched = PasswordHash user /\
        UpdatedAt patched = time.UTC (wallClock w (1 + tick w)%nat)
    | Some np =>
        GenerateFromPassword (entropy w (S (tick w))) np bcrypt.DefaultCost
        = (PasswordHash patched, None) /\
        (exists op, requests.UpdateUser.OldPassword u = Some op /\
                    checkPasswordHash op (PasswordHash user) = true) /\
        UpdatedAt patched = time.UTC (wallClock w (2 + tick w)%nat)
    end.
Proof.
  destruct (assigned_fields u) as (Hi & Hc & Hn & Hs & He & Hcl & Hp).
  destruct (find_hasID _ _ _ Hstored) as [Hu _].
  revert Hok. start_update.
  destruct (requests.UpdateUser.NewPassword u) as [np|] eqn:Hnew.
  - destruct (requests.UpdateUser.OldPassword u) as [op|] eqn:Hold;
      [| discriminate].
    rewrite Hp.
    destruct (checkPasswordHash op (PasswordHash user)) eqn:Hgood;
      [| discriminate].
    rewrite hashPassword_returns.
    change (entropy (looked w) (tick (looked w))) with (entropy w (S (tick w))).
    destruct (GenerateFromPassword _ np _) as [h [e|]] eqn:Hgen;
      [discriminate |].
    destruct (requests.UpdateUser.Claims u) as [cs|] eqn:Hcs;
      [destruct (validateClaims cs); [discriminate |] |];
      intros Hrun;
      apply Update_tail in Hrun;
      try (simpl; congruence); try (rewrite view_step; apply looked_same);
      destruct Hrun as [Hv Hst];
      eexists; (split; [exact Hv |]); (split; [exact Hst |]);
      simpl; repeat split; eauto.
  - destruct (requests.UpdateUser.Claims u) as [cs|] eqn:Hcs;
      [destruct (validateClaims cs); [discriminate |] |];
      intros Hrun;
      apply Update_tail in Hrun;
      try (simpl; congruence); try apply looked_same;
      destruct Hrun as [Hv Hst];
      eexists; (split; [exact Hv |]); (split; [exact Hst |]);
      simpl; repeat split; eauto.
Qed.

End UpdateOfStoredUser.

(** The three theorems on the sample world: Ann is stored, the backend
    answers. *)
Lemma Update_rejected_without_write_witness :
  @Update sample.claims sample.tagging PlainContext sample.annID
    (requests.UpdateUser.mk (Some "Bob") None None (Some "guess")
       (Some "fresh") None)
    sample.world
  = (Returned (Some (Errorf "old password incorrect")), looked sample.world).
Proof.
  exact (proj1
           (@Update_rejected_without_write sample.claims sample.tagging
              PlainContext sample.annID 1002%N sample.ann sample.world
              eq_refl eq_refl eq_refl
              (requests.UpdateUser.mk (Some "Bob") None None (Some "guess")
                 (Some "fresh") None))
           "fresh" "guess" eq_refl eq_refl eq_refl).
Defined.

Lemma Update_nil_OldPassword_witness :
  @Update sample.claims sample.tagging PlainContext sample.annID
    (requests.UpdateUser.mk None None None None (Some "fresh") None)
    sample.world
  = (Panicked nilDereference, looked sample.world).
Proof.
  exact (proj1
           (proj1
              (@Update_nil_OldPassword sample.claims sample.tagging
                 PlainContext sample.annID 1002%N sample.ann sample.world
                 eq_refl eq_refl eq_refl
                 (requests.UpdateUser.mk None None None None (Some "fresh")
                    None))
              (ex_intro _ "fresh" eq_refl) eq_refl)).
Defined.

Lemma Update_merge_patch_witness :
  exists patched,
    storedAt PlainContext 1002%N patched
      (snd (@Update sample.claims sample.tagging PlainContext sample.annID
              (requests.UpdateUser.mk (Some "Bob") None None None None None)
              sample.world)) /\
    Name patched = "Bob" /\
    Email patched = Email sample.ann /\
    Claims patched = Claims sample.ann /\
    PasswordHash patched = PasswordHash sample.ann /\
    UpdatedAt patched = 1700000000000000101.
Proof.
  destruct (@Update_merge_patch sample.claims sample.tagging PlainContext
              sample.annID 1002%N sample.ann sample.world
              eq_refl eq_refl eq_refl
              (requests.UpdateUser.mk (Some "Bob") None None None None None)
              _ eq_refl)
    as (patched & _ & Hst & _ & _ & Hn & _ & He & Hc & Hp & Ht).
  exists patched. repeat split; assumption.
Defined.

(** ** Token issuance *)
Section Tokens.

Context {entities : Entities} {signer : Jwt}.

Lemma createToken_run (userid jwtSecret : string) (claims : list Z) (w : World) :
  createToken userid jwtSecret claims w
  = (Returned
       (match validateClaims claims with
        | Some e => ("", Some e)
        | None =>
            match SignedString
                    (jwt.NewWithClaims jwt.SigningMethodHS256
                       (payloadOf userid (wallClock w (tick w)) claims))
                    jwtSecret with
            | (_, Some e) => ("", Some e)
            | (token, None) => (token, None)
            end
        end), step w).
Proof.
  unfold createToken, mbind, Go_bind, time_Now. cbn beta iota.
  destruct (validateClaims claims); [reflexivity |].
  unfold payloadOf.
  destruct (SignedString _ _) as [token [e|]]; reflexivity.
Qed.

Lemma addFlags_keeps_flag (claims : list Z) (m : jwt.MapClaims) (k : string) :
  m !! k = Some (VBool true) -> addFlags claims m !! k = Some (VBool true).
Proof.
  unfold addFlags. revert m.
  induction claims as [|d ds IH]; intros m Hk; simpl; [exact Hk |].
  apply IH. destruct (decide (ClaimString d = k)) as [<-|Hne].
  - apply lookup_insert_eq.
  - rewrite lookup_insert_ne by assumption. exact Hk.
Qed.

Lemma addFlags_flag (claims : list Z) (m : jwt.MapClaims) (c : Z) :
  In c claims -> addFlags claims m !! ClaimString c = Some (VBool true).
Proof.
  revert m. induction claims as [|d ds IH]; intros m; [intros [] |].
  intros [-> | Hin].
  - apply (addFlags_keeps_flag ds). apply lookup_insert_eq.
  - apply (IH _ Hin).
Qed.

Lemma addFlags_other (claims : list Z) (m : jwt.MapClaims) (k : string) :
  (forall c, In c claims -> ClaimString c <> k) ->
  addFlags claims m !! k = m !! k.
Proof.
  unfold addFlags. revert m.
  induction claims as [|d ds IH]; intros m Hk; simpl; [reflexivity |].
  rewrite IH by (intros c Hc; apply Hk; right; exact Hc).
  apply lookup_insert_ne. apply Hk. left. reflexivity.
Qed.

Lemma addFlags_keys (claims : list Z) (m : jwt.MapClaims) (k : string) v :
  addFlags claims m !! k = Some v ->
  m !! k = Some v \/
  (exists c, In c claims /\ k = ClaimString c /\ v = VBool true).
Proof.
  unfold addFlags. revert m.
  induction claims as [|d ds IH]; intros m; simpl; [auto |].
  intros Hk. destruct (IH _ Hk) as [Hm | (c & Hc & -> & ->)].
  - destruct (decide (ClaimString d = k)) as [<-|Hne].
    + rewrite lookup_insert_eq in Hm. injection Hm as <-.
      right. exists d. auto.
    + rewrite lookup_insert_ne in Hm by assumption. auto.
  - right. exists c. auto.
Qed.

Lemma exp_after_168_hours (now : Time) :
  time.Unix (time.Add (time.UTC now) (time.Hour * 168))
  = time.Unix now + 168 * 3600.
Proof.
  unfold time.Unix, time.Add, time.UTC, time.Hour, time.Second,
    time.Nanosecond.
  replace (now + 3600 * (1000000000 * 1) * 168)
    with (now + (168 * 3600) * 1000000000) by lia.
  apply Z.div_add. lia.
Qed.

(** C6.  Provided no claim of the list is displayed as [user_id] or [exp]:
    when every claim of the list is valid, the token is what the signer
    makes, with the secret, of a payload in which [authorized] is true,
    [user_id] is the given identifier, [exp] is the Unix time of issuance
    plus 168 hours and the display name of each claim is a true flag, and
    which has no other entry; when some claim is invalid, the result is
    the empty token with the error of the first invalid claim, and nothing
    is signed. *)
Theorem createToken_payload (userid jwtSecret : string) (claims : list Z)
  (w : World)
  (Hreserved : forall c, In c claims ->
     ClaimString c <> "user_id" /\ ClaimString c <> "exp") :
  (Forall (fun c => IsValid c = true) claims ->
   exists payload,
     createToken userid jwtSecret claims w
     = (Returned
          (match SignedString
                   (jwt.NewWithClaims jwt.SigningMethodHS256 payload)
                   jwtSecret with
           | (_, Some e) => ("", Some e)
           | (token, None) => (token, None)
           end), step w) /\
     payload !! "authorized" = Some (VBool true) /\
     payload !! "user_id" = Some (VString userid) /\
     payload !! "exp"
     = Some (VInt (time.Unix (wallClock w (tick w)) + 168 * 3600)) /\
     (forall c, In c claims ->
        payload !! ClaimString c = Some (VBool true)) /\
     (forall k v, payload !! k = Some v ->
        k = "authorized" \/ k = "user_id" \/ k = "exp" \/
        exists c, In c claims /\ k = ClaimString c /\ v = VBool true)) /\
  (~ Forall (fun c => IsValid c = true) claims ->
   exists pre c post,
     claims = (pre ++ c :: post)%list /\
     Forall (fun c => IsValid c = true) pre /\
     IsValid c = false /\
     createToken userid jwtSecret claims w
     = (Returned ("", Some (invalidClaim c)), step w)).
Proof.
  split.
  - intros Hall. exists (payloadOf userid (wallClock w (tick w)) claims).
    rewrite createToken_run.
    rewrite (proj2 (validateClaims_ok claims) Hall).
    split; [reflexivity |]. unfold payloadOf.
    split; [| split; [| split; [| split]]].
    + destruct (in_dec string_dec "authorized" (map ClaimString claims))
        as [Hin|Hout].
      * apply in_map_iff in Hin. destruct Hin as (c & <- & Hc).
        apply addFlags_flag. exact Hc.
      * rewrite addFlags_other.
        -- rewrite !lookup_insert_ne by discriminate. apply lookup_insert_eq.
        -- intros c Hc Heq. apply Hout. apply in_map_iff. eauto.
    + rewrite addFlags_other by (intros c Hc; apply (Hreserved c Hc)).
      rewrite lookup_insert_ne by discriminate. apply lookup_insert_eq.
    + rewrite addFlags_other by (intros c Hc; apply (Hreserved c Hc)).
      rewrite lookup_insert_eq, exp_after_168_hours. reflexivity.
    + intros c Hc. apply addFlags_flag. exact Hc.
    + intros k v Hk. apply addFlags_keys in Hk.
      destruct Hk as [Hk | Hk]; [| auto].
      destruct (decide ("exp" = k)) as [<-|Hne1]; [auto |].
      rewrite lookup_insert_ne in Hk by assumption.
      destruct (decide ("user_id" = k)) as [<-|Hne2]; [auto |].
      rewrite lookup_insert_ne in Hk by assumption.
      destruct (decide ("authorized" = k)) as [<-|Hne3]; [auto |].
      rewrite lookup_insert_ne, lookup_empty in Hk by assumption.
      discriminate.
  - intros Hnot. destruct (validateClaims_invalid claims Hnot) as [e He].
    destruct (validateClaims_first claims e He)
      as (pre & c & post & Hsplit & Hpre & Hc & ->).
    exists pre, c, post. repeat split; try assumption.
    rewrite createToken_run, He. reflexivity.
Qed.

End Tokens.

(** ** Login *)

Lemma repo_Get_answered ctx query w :
  faults w (tick w) = None ->
  infrastructure.Get ctx query w
  = (Returned (List.filter (infrastructure.matches query) (mongo.view ctx w),
               None), looked w).
Proof.
  intros Hup. unfold infrastructure.Get, mbind, Go_bind, roundTrip, mongo.read.
  rewrite Hup, view_record, view_step. reflexivity.
Qed.

Lemma matches_email email docs :
  List.filter (infrastructure.matches [("email", email)]) docs
  = withEmailOf email docs.
Proof.
  unfold withEmailOf. apply List.filter_ext. intros u.
  unfold infrastructure.matches, infrastructure.field. simpl.
  apply andb_true_r.
Qed.

Lemma withEmailOf_nil email docs :
  withEmailOf email docs = [] <-> (forall u, In u docs -> Email u <> email).
Proof.
  unfold withEmailOf. induction docs as [|d ds IH]; simpl.
  - split; [intros _ u [] | reflexivity].
  - destruct (String.eqb_spec (Email d) email) as [Heq|Hne].
    + split; [discriminate |]. intros Hall. exfalso.
      apply (Hall d); auto.
    + rewrite IH. split.
      * intros Hall u [<- | Hin]; auto.
      * intros Hall u Hin. apply Hall. auto.
Qed.

Section LoginOutcomes.

Context {entities : Entities} {crypto : Bcrypt} {signer : Jwt}.

Variables (cfg : config.Config) (ctx : Context).
Variables (email password : string).
Variable w : World.
Hypothesis Hup : faults w (tick w) = None.

Ltac start_login :=
  unfold Login, mbind, Go_bind; rewrite (repo_Get_answered _ _ _ Hup);
  cbn [requests.LoginUser.Email requests.LoginUser.Password];
  rewrite matches_email; cbn beta iota.

Lemma Login_unknown_email :
  (forall u, In u (mongo.view ctx w) -> Email u <> email) ->
  Login cfg ctx (requests.LoginUser.mk email password) w
  = (Returned (responses.LoginUser.zero, Some (Errorf "email not found")),
     looked w).
Proof.
  intros Hnone. apply withEmailOf_nil in Hnone. start_login.
  rewrite Hnone. reflexivity.
Qed.

Lemma Login_wrong_password user rest :
  withEmailOf email (mongo.view ctx w) = user :: rest ->
  checkPasswordHash password (PasswordHash user) = false ->
  Login cfg ctx (requests.LoginUser.mk email password) w
  = (Returned (responses.LoginUser.zero, Some (Errorf "incorrect password")),
     looked w).
Proof.
  intros Hfound Hbad. start_login. rewrite Hfound. simpl.
  unfold mret, Go_ret. rewrite Hbad. reflexivity.
Qed.

Lemma Login_verified user rest :
  withEmailOf email (mongo.view ctx w) = user :: rest ->
  checkPasswordHash password (PasswordHash user) = true ->
  Login cfg ctx (requests.LoginUser.mk email password) w
  = (Returned
       (match fst (createToken (primitive.Hex (ID user))
                     (config.JWTSecret cfg) (Claims user) (looked w)) with
        | Returned (token, None) => (responses.LoginUser.mk user token, None)
        | Returned (_, Some e) => (responses.LoginUser.zero, Some e)
        | Panicked _ => (responses.LoginUser.zero, None)
        end), step (looked w)).
Proof.
  intros Hfound Hgood. start_login. rewrite Hfound. simpl.
  unfold mret, Go_ret. rewrite Hgood, createToken_run.
  destruct (validateClaims (Claims user)); [reflexivity |].
  destruct (SignedString _ _) as [token [e|]]; reflexivity.
Qed.

(** C4.  With the backend answering: when no stored user has the email,
    [Login] returns the error "email not found" with the zero response,
    whose token is empty; when the user found for the email has a hash
    against which the password does not verify, it returns the error
    "incorrect password" with the zero response.  When the password
    verifies, the outcome is that of [createToken] for the user's
    identifier and stored claims: when it issues a token, [Login] returns
    that user with the token; when it fails, [Login] returns its error
    with the zero response, and it fails whenever a stored claim is not
    valid, with the error of the first such claim.  Nothing is written. *)
Theorem Login_outcomes :
  ((forall u, In u (mongo.view ctx w) -> Email u <> email) ->
   Login cfg ctx (requests.LoginUser.mk email password) w
   = (Returned (responses.LoginUser.zero, Some (Errorf "email not found")),
      looked w)) /\
  (forall user rest,
     withEmailOf email (mongo.view ctx w) = user :: rest ->
     checkPasswordHash password (PasswordHash user) = false ->
     Login cfg ctx (requests.LoginUser.mk email password) w
     = (Returned (responses.LoginUser.zero,
                  Some (Errorf "incorrect password")), looked w)) /\
  (forall user rest token,
     withEmailOf email (mongo.view ctx w) = user :: rest ->
     checkPasswordHash password (PasswordHash user) = true ->
     createToken (primitive.Hex (ID user)) (config.JWTSecret cfg)
       (Claims user) (looked w)
     = (Returned (token, None), step (looked w)) ->
     Login cfg ctx (requests.LoginUser.mk email password) w
     = (Returned (responses.LoginUser.mk user token, None),
        step (looked w))) /\
  (forall user rest token e,
     withEmailOf email (mongo.view ctx w) = user :: rest ->
     checkPasswordHash password (PasswordHash user) = true ->
     createToken (primitive.Hex (ID user)) (config.JWTSecret cfg)
       (Claims user) (looked w)
     = (Returned (token, Some e), step (looked w)) ->
     Login cfg ctx (requests.LoginUser.mk email password) w
     = (Returned (responses.LoginUser.zero, Some e), step (looked w))) /\
  (forall user rest e,
     withEmailOf email (mongo.view ctx w) = user :: rest ->
     checkPasswordHash password (PasswordHash user) = true ->
     validateClaims (Claims user) = Some e ->
     Login cfg ctx (requests.LoginUser.mk email password) w
     = (Returned (responses.LoginUser.zero, Some e), step (looked w))) /\
  responses.LoginUser.Token responses.LoginUser.zero = "" /\
  users (step (looked w)) = users w /\
  journal (step (looked w)) = (journal w ++ [CmdFind])%list.
Proof.
  split; [apply Login_unknown_email |].
  split; [apply Login_wrong_password |].
  split; [| split; [| split; [| repeat split]]].
  - intros user rest token Hfound Hgood Htoken.
    rewrite (Login_verified user rest Hfound Hgood), Htoken. reflexivity.
  - intros user rest token e Hfound Hgood Htoken.
    rewrite (Login_verified user rest Hfound Hgood), Htoken. reflexivity.
  - intros user rest e Hfound Hgood Hinvalid.
    rewrite (Login_verified user rest Hfound Hgood), createToken_run,
      Hinvalid.
    reflexivity.
Qed.

End LoginOutcomes.

Lemma createToken_payload_witness :
  exists payload : jwt.MapClaims,
    @createToken sample.claims sample.keyed "abc" "key" [0] sample.world
    = (Returned ("HS256.key", None), step sample.world) /\
    payload !! "authorized" = Some (VBool true) /\
    payload !! "user_id" = Some (VString "abc") /\
    payload !! "exp" = Some (VInt (1700000000 + 604800)) /\
    payload !! "Admin" = Some (VBool true).
Proof.
  assert (Hreserved : forall c, In c [0] ->
            @ClaimString sample.claims c <> "user_id" /\
            @ClaimString sample.claims c <> "exp").
  { intros c [<- | []]. split; discriminate. }
  assert (Hvalid : Forall (fun c => @IsValid sample.claims c = true) [0]).
  { repeat constructor. }
  destruct (proj1 (@createToken_payload sample.claims sample.keyed "abc" "key"
                     [0] sample.world Hreserved) Hvalid)
    as (payload & Hrun & Ha & Hu & He & Hf & _).
  exists payload. repeat split; try assumption.
  apply (Hf 0). left. reflexivity.
Defined.

Lemma Login_outcomes_witness :
  @Login sample.claims sample.tagging sample.keyed (config.mkConfig "key")
    PlainContext (requests.LoginUser.mk "bob@example.org" "secret")
    sample.world
  = (Returned (responses.LoginUser.zero, Some (Errorf "email not found")),
     looked sample.world) /\
  @Login sample.claims sample.tagging sample.keyed (config.mkConfig "key")
    PlainContext (requests.LoginUser.mk "ann@example.org" "guess")
    sample.world
  = (Returned (responses.LoginUser.zero, Some (Errorf "incorrect password")),
     looked sample.world) /\
  @Login sample.claims sample.tagging sample.keyed (config.mkConfig "key")
    PlainContext (requests.LoginUser.mk "ann@example.org" "secret")
    sample.world
  = (Returned (responses.LoginUser.mk sample.ann "HS256.key", None),
     step (looked sample.world)) /\
  @Login sample.claims sample.tagging sample.keyed (config.mkConfig "key")
    PlainContext (requests.LoginUser.mk "zed@example.org" "letmein")
    sample.spoiled
  = (Returned (responses.LoginUser.zero, Some (invalidClaim 99999)),
     step (looked sample.spoiled)).
Proof.
  split; [| split; [| split]].
  - apply (@Login_outcomes sample.claims sample.tagging sample.keyed
             (config.mkConfig "key") PlainContext "bob@example.org" "secret"
             sample.world eq_refl).
    intros u [<- | []]. discriminate.
  - apply (proj1 (proj2
             (@Login_outcomes sample.claims sample.tagging sample.keyed
                (config.mkConfig "key") PlainContext "ann@example.org" "guess"
                sample.world eq_refl)) sample.ann []); reflexivity.
  - apply (proj1 (proj2 (proj2
             (@Login_outcomes sample.claims sample.tagging sample.keyed
                (config.mkConfig "key") PlainContext "ann@example.org"
                "secret" sample.world eq_refl))) sample.ann []); reflexivity.
  - apply (proj1 (proj2 (proj2 (proj2 (proj2
             (@Login_outcomes sample.claims sample.tagging sample.keyed
                (config.mkConfig "key") PlainContext "zed@example.org"
                "letmein" sample.spoiled eq_refl))))) sample.zed []);
      reflexivity.
Defined.

(** The claim at a stored user one of whose claims is not valid: the
    password verifies against the stored hash, and [Login] returns an
    error, no user and no token. *)
Lemma Login_verified_without_token :
  withEmailOf "zed@example.org" (mongo.view PlainContext sample.spoiled)
  = [sample.zed] /\
  @checkPasswordHash sample.tagging "letmein" (PasswordHash sample.zed)
  = true /\
  @Login sample.claims sample.tagging sample.keyed (config.mkConfig "key")
    PlainContext (requests.LoginUser.mk "zed@example.org" "letmein")
    sample.spoiled
  = (Returned (responses.LoginUser.zero, Some (invalidClaim 99999)),
     step (looked sample.spoiled)) /\
  responses.LoginUser.Token responses.LoginUser.zero = "".
Proof. repeat split. Qed.

(** ** Identifiers and their hexadecimal form *)





Lemma length_string_of_list_ascii (cs : list ascii) :
  String.length (string_of_list_ascii cs) = length cs.
Proof. induction cs as [|c cs IH]; simpl; congruence. Qed.



(** ** Create *)
Section CreateOutcomes.

Context {entities : Entities} {crypto : Bcrypt}.

Variables (ctx : Context) (u : User) (w : World).





End CreateOutcomes.

(** ** Transactions *)

Lemma lookup_last_session (S0 : list Session) (s : Session) :
  ((S0 ++ [s])%list : list Session) !! length S0 = Some s.
Proof. apply list_lookup_middle. reflexivity. Qed.

Lemma insert_last_session (S0 : list Session) (s s' : Session) :
  <[length S0 := s']> (S0 ++ [s])%list = (S0 ++ [s'])%list.
Proof.
  rewrite insert_app_r_alt by lia. rewrite Nat.sub_diag. reflexivity.
Qed.

Section Coordinator.

Local Open Scope list_scope.

(** The sessions before the one at hand, whose handle is their number. *)
Variable S0 : list Session.
#[local] Abbreviation h := (length S0).

Lemma StartTransaction_idle w :
  sessions w = S0 ++ [Active None] ->
  exists w1,
    mongo.StartTransaction h w = (Returned None, w1) /\
    users w1 = users w /\
    sessions w1 = S0 ++ [Active (Some (users w))].
Proof.
  intros Hs. unfold mongo.StartTransaction.
  rewrite Hs, lookup_last_session, insert_last_session.
  eexists. split; [reflexivity |]. split; reflexivity.
Qed.

Lemma AbortTransaction_running w v :
  sessions w = S0 ++ [Active (Some v)] ->
  exists r w1,
    mongo.AbortTransaction h w = (Returned r, w1) /\
    users w1 = users w /\
    sessions w1 = S0 ++ [Active None].
Proof.
  intros Hs. unfold mongo.AbortTransaction, mbind, Go_bind, roundTrip.
  cbn [sessions record step]. rewrite Hs, lookup_last_session.
  rewrite insert_last_session.
  eexists _, _. split; [reflexivity |]. split; reflexivity.
Qed.

Lemma CommitTransaction_running w v :
  sessions w = S0 ++ [Active (Some v)] ->
  exists r w1,
    mongo.CommitTransaction h w = (Returned r, w1) /\
    match r with
    | None => users w1 = v /\ sessions w1 = S0 ++ [Active None]
    | Some e =>
        users w1 = users w /\
        sessions w1
        = S0 ++ [if mongo.hasLabel e mongo.UnknownTransactionCommitResult
                 then Active (Some v) else Active None]
    end.
Proof.
  intros Hs. unfold mongo.CommitTransaction.
  rewrite Hs, lookup_last_session, insert_last_session.
  destruct (faults w (tick w)) as [e|].
  - destruct (mongo.hasLabel e mongo.UnknownTransactionCommitResult) eqn:Hl;
      eexists (Some e), _; (split; [reflexivity |]); rewrite Hl;
      (split; [reflexivity |]); [exact Hs | reflexivity].
  - eexists None, _. split; [reflexivity |]. split; reflexivity.
Qed.

(** The commit loop either publishes the view, or gives up with an error
    and the collection as it was, or asks for a new run with the
    transaction closed and the collection as it was. *)
Lemma commitLoop_running (budget : nat) w v :
  sessions w = S0 ++ [Active (Some v)] ->
  exists r w1 s,
    mongo.commitLoop budget h w = (Returned r, w1) /\
    sessions w1 = S0 ++ [s] /\
    match r with
    | Some None => users w1 = v
    | Some (Some _) => users w1 = users w
    | None => users w1 = users w /\ s = Active None
    end.
Proof.
  revert w. induction budget as [|b IH]; intros w Hs;
    destruct (CommitTransaction_running w v Hs) as ([e|] & w1 & Hc & Hr);
    cbn [mongo.commitLoop]; rewrite (bind_returned _ _ _ _ _ Hc).
  - destruct Hr as [Hu Hs1]. eexists _, _, _.
    split; [reflexivity |]. split; [exact Hs1 | exact Hu].
  - destruct Hr as [Hu Hs1]. eexists _, _, _.
    split; [reflexivity |]. split; [exact Hs1 | exact Hu].
  - destruct Hr as [Hu Hs1].
    destruct (mongo.hasLabel e mongo.UnknownTransactionCommitResult).
    + destruct (IH w1 Hs1) as (r & w2 & s & Hrun & Hs2 & Hres).
      exists r, w2, s. split; [exact Hrun |]. split; [exact Hs2 |].
      rewrite <- Hu. exact Hres.
    + destruct (mongo.hasLabel e mongo.TransientTransactionError);
        eexists _, _, _; (split; [reflexivity |]); (split; [exact Hs1 |]);
        auto.
  - destruct Hr as [Hu Hs1]. eexists _, _, _.
    split; [reflexivity |]. split; [exact Hs1 | exact Hu].
Qed.

Lemma TransactionRunning_running w v :
  sessions w = S0 ++ [Active (Some v)] ->
  mongo.TransactionRunning h w = (Returned true, w).
Proof.
  intros Hs. unfold mongo.TransactionRunning.
  rewrite Hs, lookup_last_session. reflexivity.
Qed.

(** A callback that keeps to its session: it returns, leaves the
    collection alone and its transaction open, and when it succeeds its
    view has grown as [grown] says. *)
Variable fn : Context -> Go (option error).
Variable grown : list User -> list User -> Prop.
Hypothesis fn_keeps : forall w v,
  sessions w = S0 ++ [Active (Some v)] ->
  exists err w1 v1,
    fn (SessionContext h) w = (Returned err, w1) /\
    users w1 = users w /\
    sessions w1 = S0 ++ [Active (Some v1)] /\
    (err = None -> grown v v1).

(** [withTransaction] publishes the whole of what the callback did when it
    returns nil, and nothing when it returns an error. *)
Lemma withTransaction_atomic (budget : nat) w :
  sessions w = S0 ++ [Active None] ->
  exists r w1 s,
    mongo.withTransaction budget h fn w = (Returned r, w1) /\
    sessions w1 = S0 ++ [s] /\
    match r with
    | None => grown (users w) (users w1)
    | Some _ => users w1 = users w
    end.
Proof.
  revert w. induction budget as [|b IH]; intros w Hs;
    destruct (StartTransaction_idle w Hs) as (w1 & Hstart & Hu1 & Hs1);
    destruct (fn_keeps w1 _ Hs1) as (err & w2 & v2 & Hfn & Hu2 & Hs2 & Hg);
    cbn [mongo.withTransaction];
    rewrite (bind_returned _ _ _ _ _ Hstart); cbn beta iota;
    rewrite (bind_returned _ _ _ _ _ Hfn);
    destruct err as [e|].
  - rewrite (bind_returned _ _ _ _ _ (TransactionRunning_running w2 v2 Hs2)).
    destruct (AbortTransaction_running w2 v2 Hs2) as (ra & w3 & Ha & Hu3 & Hs3).
    rewrite (bind_returned _ _ _ _ _ Ha).
    eexists _, _, _. split; [reflexivity |]. split; [exact Hs3 |]. congruence.
  - destruct (CommitTransaction_running w2 v2 Hs2) as ([e|] & w3 & Hc & Hr);
      rewrite Hc; destruct Hr as [Hu3 Hs3]; eexists _, _, _;
      (split; [reflexivity |]); (split; [exact Hs3 |]).
    + congruence.
    + rewrite Hu3. apply Hg. reflexivity.
  - rewrite (bind_returned _ _ _ _ _ (TransactionRunning_running w2 v2 Hs2)).
    destruct (AbortTransaction_running w2 v2 Hs2) as (ra & w3 & Ha & Hu3 & Hs3).
    rewrite (bind_returned _ _ _ _ _ Ha).
    destruct (mongo.hasLabel e mongo.TransientTransactionError).
    + destruct (IH w3 Hs3) as (r & w4 & s & Hrun & Hs4 & Hres).
      exists r, w4, s. split; [exact Hrun |]. split; [exact Hs4 |].
      replace (users w) with (users w3) by congruence. exact Hres.
    + eexists _, _, _. split; [reflexivity |]. split; [exact Hs3 |].
      congruence.
  - destruct (commitLoop_running (S b) w2 v2 Hs2)
      as (r & w3 & s & Hloop & Hs3 & Hres).
    rewrite (bind_returned _ _ _ _ _ Hloop).
    destruct r as [[e|]|].
    + eexists _, _, _. split; [reflexivity |]. split; [exact Hs3 |].
      congruence.
    + eexists _, _, _. split; [reflexivity |]. split; [exact Hs3 |].
      rewrite Hres. apply Hg. reflexivity.
    + destruct Hres as [Hu3 ->].
      destruct (IH w3 Hs3) as (r & w4 & s & Hrun & Hs4 & Hres).
      exists r, w4, s. split; [exact Hrun |]. split; [exact Hs4 |].
      replace (users w) with (users w3) by congruence. exact Hres.
Qed.

End Coordinator.

Section AtomicDemo.

Local Open Scope list_scope.

Context {crypto : Bcrypt}.

Lemma repo_Create_in_transaction (S0 : list Session) (e : User) w v :
  sessions w = S0 ++ [Active (Some v)] ->
  exists r w1 v1,
    infrastructure.Create (SessionContext (length S0)) e w = (Returned r, w1) /\
    users w1 = users w /\
    sessions w1 = S0 ++ [Active (Some v1)] /\
    match snd r with
    | None => v1 = v ++ [e]
    | Some _ => v1 = v
    end.
Proof.
  intros Hs.
  unfold infrastructure.Create, mbind, Go_bind, roundTrip, mongo.read,
    mongo.write, mret, Go_ret.
  destruct (faults w (tick w)) as [err|].
  - eexists _, _, _. split; [reflexivity |]. split; [reflexivity |].
    split; [exact Hs | reflexivity].
  - cbn [mongo.view sessions record step]. rewrite Hs, lookup_last_session.
    destruct (existsb _ v).
    + eexists _, _, _. split; [reflexivity |]. split; [reflexivity |].
      split; [exact Hs | reflexivity].
    + unfold mongo.install. cbn [sessions record step].
      rewrite Hs, lookup_last_session, insert_last_session.
      eexists _, _, _. split; [reflexivity |]. split; [reflexivity |].
      split; reflexivity.
Qed.

Lemma NewObjectID_run w :
  NewObjectID w
  = (Returned (objectIDs w (tick w) mod primitive.modulus)%N, step w).
Proof. reflexivity. Qed.

(** The callback of the demo. *)
Lemma callback_keeps (S0 : list Session) (user1Hash user2Hash : string) w v :
  sessions w = S0 ++ [Active (Some v)] ->
  exists err w1 v1,
    callback user1Hash user2Hash (SessionContext (length S0)) w
    = (Returned err, w1) /\
    users w1 = users w /\
    sessions w1 = S0 ++ [Active (Some v1)] /\
    (err = None -> twoEntities v v1).
Proof.
  intros Hs. unfold callback.
  rewrite (bind_returned _ _ _ _ _ (NewObjectID_run w)). cbn beta.
  match goal with
  | |- context [infrastructure.Create _ ?e] =>
      destruct (repo_Create_in_transaction S0 e (step w) v Hs)
        as ([id1 err1] & w1 & v1 & Hc1 & Hu1 & Hs1 & Hv1)
  end.
  rewrite (bind_returned _ _ _ _ _ Hc1). simpl in Hv1.
  destruct err1 as [e1|].
  - eexists _, _, _. split; [reflexivity |]. split; [exact Hu1 |].
    split; [exact Hs1 | discriminate].
  - rewrite (bind_returned _ _ _ _ _ (NewObjectID_run w1)). cbn beta.
    match goal with
    | |- context [infrastructure.Create _ ?e] =>
        destruct (repo_Create_in_transaction S0 e (step w1) v1 Hs1)
          as ([id2 err2] & w2 & v2 & Hc2 & Hu2 & Hs2 & Hv2)
    end.
    rewrite (bind_returned _ _ _ _ _ Hc2). simpl in Hv2.
    destruct err2 as [e2|]; eexists _, _, _; (split; [reflexivity |]);
      (split; [rewrite Hu2; exact Hu1 |]); (split; [exact Hs2 |]);
      [discriminate |].
    intros _. subst v2 v1. rewrite <- app_assoc. simpl.
    eexists _, _, _, _. reflexivity.
Qed.

(** The runs of the demo when the backend answers and the hashing
    succeeds: the exact worlds, step by step. *)
Ltac world :=
  cbv [step record setSessions setUsers users sessions journal tick wallClock
       objectIDs entropy faults attempts].

Lemma callback_both (S0 : list Session) (h1 h2 : string) (w : World)
  (v : list User) :
  sessions w = S0 ++ [Active (Some v)] ->
  faults w (1 + tick w) = None ->
  faults w (3 + tick w) = None ->
  let oid1 := (objectIDs w (tick w) mod primitive.modulus)%N in
  let oid2 := (objectIDs w (2 + tick w) mod primitive.modulus)%N in
  existsb (mongo.hasID oid1) v = false ->
  existsb (mongo.hasID oid2) (v ++ [entity oid1 "Entity1" h1]) = false ->
  callback h1 h2 (SessionContext (length S0)) w
  = (Returned None,
     mkWorld (users w)
       (S0 ++ [Active (Some (v ++ [entity oid1 "Entity1" h1;
                                   entity oid2 "Entity2" h2]))])
       (journal w ++ [CmdInsert; CmdInsert]) (4 + tick w) (wallClock w)
       (objectIDs w) (entropy w) (faults w) (attempts w)).
Proof.
  destruct w as [us ss j t wc oi en fa budget]. world.
  intros -> Hup1 Hup2 Hfresh1 Hfresh2.
  unfold callback, NewObjectID, infrastructure.Create, roundTrip, mongo.read,
    mongo.write, mongo.install, mongo.view, mbind, Go_bind, mret, Go_ret.
  cbn [Nat.add ID entity] in *.
  world. rewrite Hup1. cbn beta iota. rewrite lookup_last_session.
  cbn [ID entity]. rewrite Hfresh1. cbn beta iota. world.
  rewrite lookup_last_session, insert_last_session.
  rewrite Hup2. cbn beta iota. rewrite lookup_last_session.
  cbn [ID entity]. rewrite Hfresh2. cbn beta iota. world.
  rewrite lookup_last_session, insert_last_session, <- !app_assoc.
  reflexivity.
Qed.

Lemma callback_second_refused (S0 : list Session) (h1 h2 : string) (w : World)
  (v : list User) :
  sessions w = S0 ++ [Active (Some v)] ->
  faults w (1 + tick w) = None ->
  faults w (3 + tick w) = None ->
  let oid1 := (objectIDs w (tick w) mod primitive.modulus)%N in
  let oid2 := (objectIDs w (2 + tick w) mod primitive.modulus)%N in
  existsb (mongo.hasID oid1) v = false ->
  existsb (mongo.hasID oid2) (v ++ [entity oid1 "Entity1" h1]) = true ->
  callback h1 h2 (SessionContext (length S0)) w
  = (Returned (Some mongo.ErrDuplicateKey),
     mkWorld (users w)
       (S0 ++ [Active (Some (v ++ [entity oid1 "Entity1" h1]))])
       (journal w ++ [CmdInsert; CmdInsert]) (4 + tick w) (wallClock w)
       (objectIDs w) (entropy w) (faults w) (attempts w)).
Proof.
  destruct w as [us ss j t wc oi en fa budget]. world.
  intros -> Hup1 Hup2 Hfresh1 Hdup.
  unfold callback, NewObjectID, infrastructure.Create, roundTrip, mongo.read,
    mongo.write, mongo.install, mongo.view, mbind, Go_bind, mret, Go_ret.
  cbn [Nat.add ID entity] in *.
  world. rewrite Hup1. cbn beta iota. rewrite lookup_last_session.
  cbn [ID entity]. rewrite Hfresh1. cbn beta iota. world.
  rewrite lookup_last_session, insert_last_session.
  rewrite Hup2. cbn beta iota. rewrite lookup_last_session.
  cbn [ID entity]. rewrite Hdup. cbn beta iota. rewrite <- !app_assoc.
  reflexivity.
Qed.

Lemma withTransaction_commits (budget : nat) (S0 : list Session)
  (fn : Context -> Go (option error)) (w w' : World) (v' : list User) :
  sessions w = S0 ++ [Active None] ->
  fn (SessionContext (length S0))
     (setSessions (S0 ++ [Active (Some (users w))]) w)
  = (Returned None, w') ->
  sessions w' = S0 ++ [Active (Some v')] ->
  faults w' (tick w') = None ->
  mongo.withTransaction budget (length S0) fn w
  = (Returned None,
     setUsers v' (setSessions (S0 ++ [Active None])
                    (record CmdCommit (step w')))).
Proof.
  intros Hs Hfn Hs' Hup.
  assert (Hcommit : mongo.CommitTransaction (length S0) w'
                    = (Returned None,
                       setUsers v' (setSessions (S0 ++ [Active None])
                                      (record CmdCommit (step w'))))).
  { unfold mongo.CommitTransaction.
    rewrite Hs', lookup_last_session, Hup, insert_last_session.
    reflexivity. }
  destruct budget as [|budget]; cbn [mongo.withTransaction];
    unfold mbind, Go_bind, mongo.StartTransaction;
    rewrite Hs, lookup_last_session, insert_last_session, Hfn;
    cbn beta iota.
  - exact Hcommit.
  - cbn [mongo.commitLoop]. unfold mbind, Go_bind. rewrite Hcommit.
    reflexivity.
Qed.

Lemma withTransaction_aborts (budget : nat) (S0 : list Session)
  (fn : Context -> Go (option error)) (w w' : World) (v' : list User)
  (e : error) :
  sessions w = S0 ++ [Active None] ->
  fn (SessionContext (length S0))
     (setSessions (S0 ++ [Active (Some (users w))]) w)
  = (Returned (Some e), w') ->
  sessions w' = S0 ++ [Active (Some v')] ->
  mongo.hasLabel e mongo.TransientTransactionError = false ->
  mongo.withTransaction budget (length S0) fn w
  = (Returned (Some e),
     setSessions (S0 ++ [Active None]) (record CmdAbort (step w'))).
Proof.
  intros Hs Hfn Hs' Hlabel.
  destruct budget as [|budget]; cbn [mongo.withTransaction];
    unfold mbind, Go_bind, mongo.StartTransaction;
    rewrite Hs, lookup_last_session, insert_last_session, Hfn;
    cbn beta iota;
    unfold mongo.TransactionRunning, mongo.AbortTransaction, mbind, Go_bind,
      roundTrip;
    rewrite Hs', lookup_last_session; cbn beta iota;
    cbn [sessions record step]; rewrite Hs', lookup_last_session,
      insert_last_session; cbn beta iota; rewrite ?Hlabel; reflexivity.
Qed.

Lemma AtomicTransationProof_both (ctx : Context) (w : World) (h1 h2 : string) :
  (forall n, faults w n = None) ->
  GenerateFromPassword (entropy w (1 + tick w)) "Entity1" bcrypt.DefaultCost
  = (h1, None) ->
  GenerateFromPassword (entropy w (2 + tick w)) "Entity2" bcrypt.DefaultCost
  = (h2, None) ->
  let oid1 := (objectIDs w (3 + tick w) mod primitive.modulus)%N in
  let oid2 := (objectIDs w (5 + tick w) mod primitive.modulus)%N in
  existsb (mongo.hasID oid1) (users w) = false ->
  existsb (mongo.hasID oid2) (users w ++ [entity oid1 "Entity1" h1]) = false ->
  exists w1,
    AtomicTransationProof ctx w = (Returned None, w1) /\
    users w1 = users w ++ [entity oid1 "Entity1" h1; entity oid2 "Entity2" h2] /\
    sessions w1 = sessions w ++ [Ended] /\
    journal w1
    = journal w ++ [CmdStartSession; CmdInsert; CmdInsert; CmdCommit].
Proof.
  intros Hup Hhash1 Hhash2 oid1 oid2 Hfresh1 Hfresh2.
  unfold AtomicTransationProof, mongo.StartSession, defer, mongo.EndSession,
    mongo.WithTransaction, mbind, Go_bind, roundTrip.
  rewrite Hup. cbn beta iota.
  rewrite !hashPassword_returns.
  cbn [entropy tick step record setSessions].
  cbn [Nat.add] in Hhash1, Hhash2. rewrite Hhash1. cbn beta iota.
  rewrite hashPassword_returns.
  cbn [entropy tick step record setSessions]. rewrite Hhash2. cbn beta iota.
  set (w0 := step (step (setSessions (sessions w ++ [Active None])
                           (record CmdStartSession (step w))))).
  pose proof (callback_both (sessions w) h1 h2
                (setSessions (sessions w ++ [Active (Some (users w0))]) w0)
                (users w) eq_refl (Hup _) (Hup _) Hfresh1 Hfresh2) as Hcb.
  rewrite (withTransaction_commits _ (sessions w) (callback h1 h2) w0 _ _
             eq_refl Hcb eq_refl (Hup _)).
  eexists. split; [reflexivity |].
  cbn [users sessions journal setUsers setSessions record step].
  rewrite insert_last_session.
  unfold w0. cbn [users sessions journal setUsers setSessions record step].
  rewrite <- !app_assoc. repeat split.
Qed.

Lemma AtomicTransationProof_second_refused (ctx : Context) (w : World)
  (h1 h2 : string) :
  (forall n, faults w n = None) ->
  GenerateFromPassword (entropy w (1 + tick w)) "Entity1" bcrypt.DefaultCost
  = (h1, None) ->
  GenerateFromPassword (entropy w (2 + tick w)) "Entity2" bcrypt.DefaultCost
  = (h2, None) ->
  let oid1 := (objectIDs w (3 + tick w) mod primitive.modulus)%N in
  let oid2 := (objectIDs w (5 + tick w) mod primitive.modulus)%N in
  existsb (mongo.hasID oid1) (users w) = false ->
  existsb (mongo.hasID oid2) (users w ++ [entity oid1 "Entity1" h1]) = true ->
  exists w1,
    AtomicTransationProof ctx w = (Returned (Some mongo.ErrDuplicateKey), w1) /\
    users w1 = users w /\
    sessions w1 = sessions w ++ [Ended] /\
    journal w1
    = journal w ++ [CmdStartSession; CmdInsert; CmdInsert; CmdAbort].
Proof.
  intros Hup Hhash1 Hhash2 oid1 oid2 Hfresh1 Hdup.
  unfold AtomicTransationProof, mongo.StartSession, defer, mongo.EndSession,
    mongo.WithTransaction, mbind, Go_bind, roundTrip.
  rewrite Hup. cbn beta iota.
  rewrite !hashPassword_returns.
  cbn [entropy tick step record setSessions].
  cbn [Nat.add] in Hhash1, Hhash2. rewrite Hhash1. cbn beta iota.
  rewrite hashPassword_returns.
  cbn [entropy tick step record setSessions]. rewrite Hhash2. cbn beta iota.
  set (w0 := step (step (setSessions (sessions w ++ [Active None])
                           (record CmdStartSession (step w))))).
  pose proof (callback_second_refused (sessions w) h1 h2
                (setSessions (sessions w ++ [Active (Some (users w0))]) w0)
                (users w) eq_refl (Hup _) (Hup _) Hfresh1 Hdup) as Hcb.
  rewrite (withTransaction_aborts _ (sessions w) (callback h1 h2) w0 _ _ _
             eq_refl Hcb eq_refl eq_refl).
  eexists. split; [reflexivity |].
  cbn [users sessions journal setUsers setSessions record step].
  rewrite insert_last_session.
  unfold w0. cbn [users sessions journal setUsers setSessions record step].
  rewrite <- !app_assoc. repeat split.
Qed.

(** C8.  Every run of [AtomicTransationProof] returns, and either it
    returns nil and the collection has grown by the two entities, or it
    returns an error and the collection is as it was.  When the session
    could be started it is ended on return, on success and on failure
    alike; when it could not, there is none to end and the error is the
    one of the start.  When the backend answers every round trip, the two
    hashings succeed and the identifier generated for the first entity is
    new: if the identifier generated for the second is new as well, the
    run sends the two inserts and the commit and returns nil, and the
    collection is the old one followed by the two entities; if the second
    identifier is taken, by a document or by the first entity, the run
    sends the two inserts and the abort and returns the duplicate-key
    error, and the collection is the old one: the first insert, which had
    succeeded in the transaction, is not in it. *)
Theorem AtomicTransationProof_all_or_nothing (ctx : Context) (w : World) :
  (exists r w1,
     AtomicTransationProof ctx w = (Returned r, w1) /\
     match r with
     | None => twoEntities (users w) (users w1)
     | Some _ => users w1 = users w
     end /\
     match faults w (tick w) with
     | None => sessions w1 = sessions w ++ [Ended]
     | Some e => sessions w1 = sessions w /\ r = Some e
     end) /\
  (forall h1 h2,
     (forall n, faults w n = None) ->
     GenerateFromPassword (entropy w (1 + tick w)) "Entity1"
       bcrypt.DefaultCost = (h1, None) ->
     GenerateFromPassword (entropy w (2 + tick w)) "Entity2"
       bcrypt.DefaultCost = (h2, None) ->
     let oid1 := (objectIDs w (3 + tick w) mod primitive.modulus)%N in
     let oid2 := (objectIDs w (5 + tick w) mod primitive.modulus)%N in
     existsb (mongo.hasID oid1) (users w) = false ->
     (existsb (mongo.hasID oid2) (users w ++ [entity oid1 "Entity1" h1])
      = false ->
      exists w1,
        AtomicTransationProof ctx w = (Returned None, w1) /\
        users w1
        = users w ++ [entity oid1 "Entity1" h1; entity oid2 "Entity2" h2] /\
        sessions w1 = sessions w ++ [Ended] /\
        journal w1
        = journal w ++ [CmdStartSession; CmdInsert; CmdInsert; CmdCommit]) /\
     (existsb (mongo.hasID oid2) (users w ++ [entity oid1 "Entity1" h1])
      = true ->
      exists w1,
        AtomicTransationProof ctx w
        = (Returned (Some mongo.ErrDuplicateKey), w1) /\
        users w1 = users w /\
        sessions w1 = sessions w ++ [Ended] /\
        journal w1
        = journal w ++ [CmdStartSession; CmdInsert; CmdInsert; CmdAbort])).
Proof.
  split.
  2:{ intros h1 h2 Hup Hhash1 Hhash2 oid1 oid2 Hfresh1. split.
      - intros Hfresh2.
        apply (AtomicTransationProof_both ctx w h1 h2); assumption.
      - intros Hdup.
        apply (AtomicTransationProof_second_refused ctx w h1 h2);
          assumption. }
  unfold AtomicTransationProof.
  destruct (faults w (tick w)) as [e|] eqn:Hf.
  - assert (Hstart : mongo.StartSession w
                     = (Returned (O, Some e), record CmdStartSession (step w))).
    { unfold mongo.StartSession, mbind, Go_bind, roundTrip. rewrite Hf.
      reflexivity. }
    rewrite (bind_returned _ _ _ _ _ Hstart).
    eexists _, _. split; [reflexivity |]. repeat split.
  - set (S0 := sessions w).
    set (w1 := setSessions (S0 ++ [Active None])
                 (record CmdStartSession (step w))).
    assert (Hstart : mongo.StartSession w = (Returned (length S0, None), w1)).
    { unfold mongo.StartSession, mbind, Go_bind, roundTrip. rewrite Hf.
      reflexivity. }
    assert (Hs1 : sessions w1 = S0 ++ [Active None]) by reflexivity.
    assert (Hu1 : users w1 = users w) by reflexivity.
    clearbody w1.
    rewrite (bind_returned _ _ _ _ _ Hstart). cbn beta iota.
    unfold defer, mongo.EndSession.
    rewrite (bind_returned _ _ _ _ _ (hashPassword_returns _ _)).
    destruct (GenerateFromPassword _ "Entity1" _) as [h1 [e1|]].
    { eexists _, _. split; [reflexivity |].
      cbn [sessions users setSessions step].
      rewrite Hs1, insert_last_session. auto. }
    cbn beta iota.
    rewrite (bind_returned _ _ _ _ _ (hashPassword_returns _ _)).
    destruct (GenerateFromPassword _ "Entity2" _) as [h2 [e2|]].
    { eexists _, _. split; [reflexivity |].
      cbn [sessions users setSessions step].
      rewrite Hs1, insert_last_session. auto. }
    cbn beta iota zeta. unfold mongo.WithTransaction.
    destruct (withTransaction_atomic S0 (callback h1 h2) twoEntities
                (fun w v => callback_keeps S0 h1 h2 w v)
                (attempts (step (step w1))) (step (step w1)) Hs1)
      as (r & w2 & s & Hrun & Hs2 & Hres).
    rewrite Hrun. eexists _, _. split; [reflexivity |].
    cbn [sessions users setSessions]. rewrite Hs2, insert_last_session.
    split; [| reflexivity].
    cbn [users step] in Hres. rewrite Hu1 in Hres. exact Hres.
Qed.

End AtomicDemo.

Lemma AtomicTransationProof_all_or_nothing_witness :
  (exists w1,
     @AtomicTransationProof sample.tagging PlainContext sample.world
     = (Returned None, w1) /\
     users w1
     = [sample.ann; entity 2003%N "Entity1" "$2a$10$Entity1";
        entity 2005%N "Entity2" "$2a$10$Entity2"] /\
     sessions w1 = [Ended] /\
     journal w1 = [CmdStartSession; CmdInsert; CmdInsert; CmdCommit]) /\
  (exists w1,
     @AtomicTransationProof sample.tagging PlainContext sample.stuttering
     = (Returned (Some mongo.ErrDuplicateKey), w1) /\
     users w1 = [sample.ann] /\
     sessions w1 = [Ended] /\
     journal w1 = [CmdStartSession; CmdInsert; CmdInsert; CmdAbort]).
Proof.
  split.
  - apply (proj1 (proj2 (@AtomicTransationProof_all_or_nothing sample.tagging
                           PlainContext sample.world)
                    "$2a$10$Entity1" "$2a$10$Entity2" (fun _ => eq_refl)
                    eq_refl eq_refl eq_refl)).
    reflexivity.
  - apply (proj2 (proj2 (@AtomicTransationProof_all_or_nothing sample.tagging
                           PlainContext sample.stuttering)
                    "$2a$10$Entity1" "$2a$10$Entity2" (fun _ => eq_refl)
                    eq_refl eq_refl eq_refl)).
    reflexivity.
Defined.

(** On the sample world the demo commits both entities; when the second
    insert fails on a duplicate key the transaction is aborted and the
    collection is the one before the call. *)
Example AtomicTransationProof_commits :
  let run := @AtomicTransationProof sample.tagging PlainContext sample.world in
  fst run = Returned None /\
  map Name (users (snd run)) = ["Ann"; "Entity1"; "Entity2"] /\
  sessions (snd run) = [Ended] /\
  journal (snd run) = [CmdStartSession; CmdInsert; CmdInsert; CmdCommit].
Proof. repeat split. Qed.

Example AtomicTransationProof_second_insert_fails :
  let run :=
    @AtomicTransationProof sample.tagging PlainContext sample.stuttering in
  fst run = Returned (Some mongo.ErrDuplicateKey) /\
  users (snd run) = users sample.stuttering /\
  sessions (snd run) = [Ended] /\
  journal (snd run) = [CmdStartSession; CmdInsert; CmdInsert; CmdAbort].
Proof. repeat split. Qed.

(** ** The hasher *)

Section Base64.

Local Open Scope list_scope.

Lemma length_fit (n : nat) (src : list ascii) : length (bcrypt.fit n src) = n.
Proof.
  unfold bcrypt.fit. rewrite length_take, length_app, repeat_length. lia.
Qed.

Lemma fit_exact (n : nat) (src : list ascii) :
  length src = n -> bcrypt.fit n src = src.
Proof.
  intros <-. unfold bcrypt.fit. rewrite take_app_length. reflexivity.
Qed.

Lemma fit_fit (n : nat) (src : list ascii) :
  bcrypt.fit n (bcrypt.fit n src) = bcrypt.fit n src.
Proof. apply fit_exact, length_fit. Qed.

Lemma take_fit_app (n : nat) (a b : list ascii) :
  take n (bcrypt.fit n a ++ b) = bcrypt.fit n a.
Proof.
  rewrite <- (length_fit n a) at 1. apply take_app_length.
Qed.

Lemma drop_fit_app (n : nat) (a b : list ascii) :
  drop n (bcrypt.fit n a ++ b) = b.
Proof.
  rewrite <- (length_fit n a) at 1. apply drop_app_length.
Qed.

(** The characters of the alphabet decode to their rank and are not line
    ends. *)
Lemma alphabet_rank (n : nat) :
  (n < 64)%nat ->
  bcrypt.dec6 (nth n bcrypt.alphabet zero) = Some (Z.of_nat n) /\
  bcrypt.isNewline (nth n bcrypt.alphabet zero) = false.
Proof.
  intros Hn.
  do 64 (destruct n as [|n]; [split; reflexivity |]). lia.
Qed.

Lemma dec6_enc6 (v : Z) : bcrypt.dec6 (bcrypt.enc6 v) = Some (v mod 64).
Proof.
  unfold bcrypt.enc6.
  assert (Hv : 0 <= v mod 64 < 64) by (apply Z.mod_pos_bound; lia).
  rewrite (proj1 (alphabet_rank (Z.to_nat (v mod 64)) ltac:(lia))).
  f_equal. lia.
Qed.

Lemma isNewline_enc6 (v : Z) : bcrypt.isNewline (bcrypt.enc6 v) = false.
Proof.
  unfold bcrypt.enc6.
  assert (Hv : 0 <= v mod 64 < 64) by (apply Z.mod_pos_bound; lia).
  apply (alphabet_rank (Z.to_nat (v mod 64))). lia.
Qed.

Lemma values_enc6 (vs : list Z) :
  bcrypt.values (map bcrypt.enc6 vs) = Some (map (fun v => v mod 64) vs).
Proof.
  induction vs as [|v vs IH]; simpl; [reflexivity |].
  rewrite dec6_enc6, IH. reflexivity.
Qed.

Lemma filter_enc6 (vs : list Z) :
  List.filter (fun c => negb (bcrypt.isNewline c)) (map bcrypt.enc6 vs)
  = map bcrypt.enc6 vs.
Proof.
  induction vs as [|v vs IH]; simpl; [reflexivity |].
  rewrite isNewline_enc6, IH. reflexivity.
Qed.

Lemma base64Encode_enc6 (src : list ascii) :
  exists vs, bcrypt.base64Encode src = map bcrypt.enc6 vs.
Proof.
  assert (H : forall n src, (length src <= n)%nat ->
                exists vs, bcrypt.base64Encode src = map bcrypt.enc6 vs).
  { clear src. induction n as [|n IH]; intros src Hn;
      destruct src as [|a [|b [|c rest]]]; simpl in Hn; try lia.
    - exists []. reflexivity.
    - exists []. reflexivity.
    - eexists [_; _]. reflexivity.
    - eexists [_; _; _]. reflexivity.
    - destruct (IH rest) as [vs Hvs]; [lia |].
      eexists (_ :: _ :: _ :: _ :: vs). cbn [bcrypt.base64Encode map].
      rewrite Hvs. reflexivity. }
  apply (H (length src)). lia.
Qed.

(** The salt of a new hash: 22 characters that decode to 16 bytes. *)
Lemma salt_decodes (seed : N) :
  let salt := bcrypt.base64Encode (bcrypt.unencodedSalt seed) in
  length salt = 22%nat /\
  exists csalt,
    bcrypt.base64Decode salt = (Some csalt, None) /\ length csalt = 16%nat.
Proof.
  cbn zeta.
  assert (Hlen : length (bcrypt.base64Encode (bcrypt.unencodedSalt seed))
                 = 22%nat) by reflexivity.
  split; [exact Hlen |].
  destruct (base64Encode_enc6 (bcrypt.unencodedSalt seed)) as [vs Hvs].
  rewrite Hvs in *. rewrite length_map in Hlen.
  unfold bcrypt.base64Decode.
  rewrite filter_enc6, values_enc6, !length_map, Hlen.
  cbn [Nat.modulo Nat.divmod Nat.sub Nat.eqb andb orb fst snd].
  eexists. split; [reflexivity |].
  do 23 (destruct vs as [|? vs]; try discriminate Hlen). reflexivity.
Qed.

End Base64.

Section KeySchedule.

Local Open Scope list_scope.

Context {tables : blowfish.Tables} {release : bcrypt.Release}.

(** The 72 bytes the key schedule reads from a password: 18 words of the
    password followed by a zero byte, read cyclically. *)
Lemma iter_ext {A} (f g : A -> A) (n : nat) (a : A) :
  (forall x, f x = g x) -> Nat.iter n f a = Nat.iter n g a.
Proof.
  intros Hfg. induction n as [|n IH]; simpl; [reflexivity |].
  rewrite IH. apply Hfg.
Qed.

Lemma ExpandKey_words (k1 k2 : list ascii) (c : blowfish.Cipher) :
  blowfish.keyWords 18 k1 0 = blowfish.keyWords 18 k2 0 ->
  blowfish.ExpandKey k1 c = blowfish.ExpandKey k2 c.
Proof.
  intros Hw. unfold blowfish.ExpandKey, blowfish.xorKey. rewrite Hw.
  reflexivity.
Qed.

Lemma expandKeyWithSalt_words (k1 k2 salt : list ascii) (c : blowfish.Cipher) :
  blowfish.keyWords 18 k1 0 = blowfish.keyWords 18 k2 0 ->
  blowfish.expandKeyWithSalt k1 salt c = blowfish.expandKeyWithSalt k2 salt c.
Proof.
  intros Hw. unfold blowfish.expandKeyWithSalt, blowfish.xorKey. rewrite Hw.
  reflexivity.
Qed.

Lemma key_not_empty (password : list ascii) :
  (length (password ++ [zero]) <? 1)%nat = false.
Proof. rewrite length_app. simpl. apply Nat.ltb_ge. lia. Qed.

Lemma salt_not_empty (csalt : list ascii) :
  length csalt = 16%nat -> (length csalt =? 0)%nat = false.
Proof. intros ->. reflexivity. Qed.

(** Passwords with the same 18 key words have the same hash under a salt
    of 16 bytes. *)
Lemma setup_words (p1 p2 : list ascii) (cost : Z) (salt csalt : list ascii) :
  bcrypt.base64Decode salt = (Some csalt, None) ->
  length csalt = 16%nat ->
  blowfish.keyWords 18 (p1 ++ [zero]) 0 = blowfish.keyWords 18 (p2 ++ [zero]) 0 ->
  bcrypt.expensiveBlowfishSetup p1 cost salt
  = bcrypt.expensiveBlowfishSetup p2 cost salt.
Proof.
  intros Hdec Hlen Hw.
  unfold bcrypt.expensiveBlowfishSetup. rewrite Hdec.
  unfold blowfish.NewSaltedCipher.
  rewrite (salt_not_empty csalt Hlen), !key_not_empty.
  rewrite (expandKeyWithSalt_words _ _ csalt _ Hw).
  match goal with
  | |- (Some (Nat.iter ?n ?f ?c), _) = (Some (Nat.iter _ ?g _), _) =>
      rewrite (iter_ext f g n c)
  end; [reflexivity |].
  intros c. rewrite (ExpandKey_words _ _ c Hw). reflexivity.
Qed.

Lemma bcrypt_words (p1 p2 : list ascii) (cost : Z) (salt csalt : list ascii) :
  bcrypt.base64Decode salt = (Some csalt, None) ->
  length csalt = 16%nat ->
  blowfish.keyWords 18 (p1 ++ [zero]) 0 = blowfish.keyWords 18 (p2 ++ [zero]) 0 ->
  bcrypt.bcrypt p1 cost salt = bcrypt.bcrypt p2 cost salt.
Proof.
  intros Hdec Hlen Hw. unfold bcrypt.bcrypt.
  rewrite (setup_words p1 p2 cost salt csalt Hdec Hlen Hw). reflexivity.
Qed.

(** With a salt of 16 bytes the hashing does not fail. *)
Lemma bcrypt_succeeds (password : list ascii) (cost : Z)
  (salt csalt : list ascii) :
  bcrypt.base64Decode salt = (Some csalt, None) ->
  length csalt = 16%nat ->
  exists hash, bcrypt.bcrypt password cost salt = (hash, None).
Proof.
  intros Hdec Hlen.
  unfold bcrypt.bcrypt, bcrypt.expensiveBlowfishSetup. rewrite Hdec.
  unfold blowfish.NewSaltedCipher.
  rewrite (salt_not_empty csalt Hlen), key_not_empty.
  eexists. reflexivity.
Qed.

Lemma Hash_fresh (hash salt : list ascii) :
  bcrypt.Hash (fresh hash salt)
  = list_ascii_of_string "$2a$10$"
    ++ bcrypt.fit 22 salt ++ bcrypt.fit 31 hash.
Proof. reflexivity. Qed.

Lemma decodeVersion_2a (rest : list ascii) :
  bcrypt.decodeVersion ("$"%char :: "2"%char :: "a"%char :: rest)
  = (("2"%char, "a"%char, 4%nat), None).
Proof. reflexivity. Qed.

Lemma decodeCost_10 (rest : list ascii) :
  bcrypt.decodeCost ("1"%char :: "0"%char :: rest) = ((10, 3%nat), None).
Proof. reflexivity. Qed.

Lemma newFromHash_fresh (hash salt : list ascii) :
  bcrypt.newFromHash (bcrypt.Hash (fresh hash salt))
  = (Some (fresh (bcrypt.fit 31 hash) (bcrypt.fit 22 salt)), None).
Proof.
  rewrite Hash_fresh. unfold bcrypt.newFromHash.
  assert (Hlen : (length (list_ascii_of_string "$2a$10$"
                          ++ bcrypt.fit 22 salt ++ bcrypt.fit 31 hash)
                  <? bcrypt.minHashSize)%nat = false).
  { rewrite !length_app, !length_fit. reflexivity. }
  rewrite Hlen.
  cbn [list_ascii_of_string app].
  rewrite decodeVersion_2a. cbn [drop]. rewrite decodeCost_10. cbn [drop].
  unfold bcrypt.encodedSaltSize.
  rewrite !drop_0, take_fit_app, drop_fit_app, fit_fit. reflexivity.
Qed.

End KeySchedule.

Section Hasher.

Local Open Scope list_scope.

Context {tables : blowfish.Tables} {release : bcrypt.Release}.

Lemma Generate_fresh (rand : draw) (password h : list ascii) :
  bcrypt.GenerateFromPassword rand password bcrypt.DefaultCost = (h, None) ->
  exists seed hash,
    rand = Drawn seed /\
    bcrypt.bcrypt password bcrypt.DefaultCost
      (bcrypt.base64Encode (bcrypt.unencodedSalt seed)) = (hash, None) /\
    h = bcrypt.Hash (fresh hash (bcrypt.base64Encode (bcrypt.unencodedSalt seed))).
Proof.
  unfold bcrypt.GenerateFromPassword, bcrypt.newFromPassword.
  destruct (bcrypt.rejectsLongPasswords && (72 <? length password)%nat);
    [discriminate |].
  change (bcrypt.DefaultCost <? bcrypt.MinCost)%Z with false.
  change (bcrypt.checkCost bcrypt.DefaultCost) with (@None error).
  cbn beta iota. destruct rand as [seed | e]; [| discriminate].
  destruct (bcrypt.bcrypt password bcrypt.DefaultCost _) as [hash [e|]]
    eqn:Hrun; [discriminate |].
  intros [= <-]. exists seed, hash. split; [reflexivity |].
  split; [exact Hrun | reflexivity].
Qed.

Lemma Generate_succeeds (seed : N) (password : list ascii) :
  (length password <= 72)%nat ->
  exists h,
    bcrypt.GenerateFromPassword (Drawn seed) password bcrypt.DefaultCost
    = (h, None).
Proof.
  intros Hlen.
  destruct (salt_decodes seed) as (_ & csalt & Hdec & Hc).
  destruct (bcrypt_succeeds password bcrypt.DefaultCost _ csalt Hdec Hc)
    as [hash Hhash].
  unfold bcrypt.GenerateFromPassword, bcrypt.newFromPassword.
  apply Nat.ltb_ge in Hlen. rewrite Hlen, andb_false_r.
  change (bcrypt.DefaultCost <? bcrypt.MinCost)%Z with false.
  change (bcrypt.checkCost bcrypt.DefaultCost) with (@None error).
  cbn beta iota. rewrite Hhash. eexists. reflexivity.
Qed.

Lemma Compare_fresh (hash salt hash2 password2 : list ascii) :
  length salt = 22%nat ->
  bcrypt.bcrypt password2 bcrypt.DefaultCost salt = (hash2, None) ->
  bcrypt.fit 31 hash2 = bcrypt.fit 31 hash ->
  bcrypt.CompareHashAndPassword (bcrypt.Hash (fresh hash salt)) password2
  = None.
Proof.
  intros Hsalt Hrun Heq. unfold bcrypt.CompareHashAndPassword.
  rewrite newFromHash_fresh.
  cbn [bcrypt.cost bcrypt.salt bcrypt.major bcrypt.minor fresh].
  rewrite (fit_exact 22 salt Hsalt), Hrun.
  change (bcrypt.mkHashed hash2 salt bcrypt.DefaultCost bcrypt.majorVersion
            bcrypt.minorVersion) with (fresh hash2 salt).
  change (bcrypt.mkHashed (bcrypt.fit 31 hash) salt bcrypt.DefaultCost
            bcrypt.majorVersion bcrypt.minorVersion)
    with (fresh (bcrypt.fit 31 hash) salt).
  rewrite !Hash_fresh, fit_fit, Heq.
  destruct (decide _) as [_|Hne]; [reflexivity | contradiction].
Qed.

Lemma length_bytes (s : string) : length (bytes s) = String.length s.
Proof. induction s as [|c s IH]; simpl; congruence. Qed.

(** A failure of the library at the default cost: the password is too
    long for a release that refuses it, or the read of the entropy has
    failed. *)
Lemma Generate_fails (rand : draw) (password h : list ascii) (e : error) :
  bcrypt.GenerateFromPassword rand password bcrypt.DefaultCost = (h, Some e) ->
  h = [] /\
  ((bcrypt.rejectsLongPasswords = true /\ (72 < length password)%nat /\
    e = bcrypt.ErrPasswordTooLong) \/
   ((bcrypt.rejectsLongPasswords = false \/ (length password <= 72)%nat) /\
    rand = Failed e)).
Proof.
  unfold bcrypt.GenerateFromPassword.
  destruct (bcrypt.rejectsLongPasswords && (72 <? length password)%nat)
    eqn:Hlong.
  - intros [= <- <-]. split; [reflexivity |]. left.
    apply andb_true_iff in Hlong. destruct Hlong as [Hr Hl].
    apply Nat.ltb_lt in Hl. auto.
  - assert (Hwhy : bcrypt.rejectsLongPasswords = false \/
                   (length password <= 72)%nat).
    { apply andb_false_iff in Hlong. destruct Hlong as [Hr | Hl];
        [left; exact Hr | right; apply Nat.ltb_ge, Hl]. }
    unfold bcrypt.newFromPassword.
    change (bcrypt.DefaultCost <? bcrypt.MinCost)%Z with false.
    change (bcrypt.checkCost bcrypt.DefaultCost) with (@None error).
    cbn beta iota. destruct rand as [seed | e'].
    + destruct (salt_decodes seed) as (_ & csalt & Hdec & Hc).
      destruct (bcrypt_succeeds password bcrypt.DefaultCost _ csalt Hdec Hc)
        as [hash Hhash].
      rewrite Hhash. intros Hno. discriminate Hno.
    + intros [= <- <-]. split; [reflexivity |]. right. auto.
Qed.

Lemma hashPassword_xcrypto (password h : string) (w w1 : World) :
  hashPassword (crypto := xcrypto) password w = (Returned (h, None), w1) ->
  exists seed hash,
    entropy w (tick w) = Drawn seed /\
    let salt := bcrypt.base64Encode (bcrypt.unencodedSalt seed) in
    bcrypt.bcrypt (bytes password) bcrypt.DefaultCost salt = (hash, None) /\
    bytes h = bcrypt.Hash (fresh hash salt).
Proof.
  rewrite hashPassword_returns. cbn [GenerateFromPassword xcrypto].
  destruct (bcrypt.GenerateFromPassword _ _ _) as [bs [e|]] eqn:Hgen;
    [discriminate |].
  intros [= <- _].
  destruct (Generate_fresh _ _ _ Hgen) as (seed & hash & Hseed & Hrun & ->).
  exists seed, hash. split; [exact Hseed |]. split; [exact Hrun |].
  unfold bytes. apply list_ascii_of_string_of_list_ascii.
Qed.

(** A hash has 60 bytes: a password of another length is not its hash. *)
Lemma hashPassword_hash_length (password h : string) (w w1 : World) :
  hashPassword (crypto := xcrypto) password w = (Returned (h, None), w1) ->
  String.length h = 60%nat.
Proof.
  intros Hrun.
  destruct (hashPassword_xcrypto _ _ _ _ Hrun) as (seed & hash & _ & _ & Hh).
  rewrite <- length_bytes, Hh, Hash_fresh, !length_app, !length_fit.
  reflexivity.
Qed.

Lemma verifies_with_same_key (password p2 h : string) (w w1 : World) :
  hashPassword (crypto := xcrypto) password w = (Returned (h, None), w1) ->
  keyOf p2 = keyOf password ->
  checkPasswordHash (crypto := xcrypto) p2 h = true.
Proof.
  intros Hrun Hkey.
  destruct (hashPassword_xcrypto _ _ _ _ Hrun)
    as (seed & hash & _ & Hhash & Hh).
  destruct (salt_decodes seed) as (Hlen & csalt & Hdec & Hc).
  cbn zeta in Hhash, Hh, Hlen.
  unfold checkPasswordHash. cbn [CompareHashAndPassword xcrypto].
  fold (bytes h). fold (bytes p2). rewrite Hh.
  rewrite (Compare_fresh hash _ hash (bytes p2) Hlen); [reflexivity | | reflexivity].
  rewrite <- Hhash. apply (bcrypt_words _ _ _ _ csalt Hdec Hc). exact Hkey.
Qed.

Lemma newFromHash_trailing (hash salt junk : list ascii) :
  bcrypt.newFromHash (bcrypt.Hash (fresh hash salt) ++ junk)
  = (Some (fresh (bcrypt.fit 31 hash ++ junk) (bcrypt.fit 22 salt)), None).
Proof.
  rewrite Hash_fresh. unfold bcrypt.newFromHash.
  assert (Hlen : (length ((list_ascii_of_string "$2a$10$"
                           ++ bcrypt.fit 22 salt ++ bcrypt.fit 31 hash)
                          ++ junk)
                  <? bcrypt.minHashSize)%nat = false).
  { rewrite !length_app, !length_fit. apply Nat.ltb_ge.
    unfold bcrypt.minHashSize. simpl. lia. }
  rewrite Hlen. rewrite <- !app_assoc.
  cbn [list_ascii_of_string app].
  rewrite decodeVersion_2a. cbn [drop]. rewrite decodeCost_10. cbn [drop].
  unfold bcrypt.encodedSaltSize.
  rewrite !drop_0, take_fit_app, drop_fit_app, fit_fit. reflexivity.
Qed.

Lemma fit_fit_app (n : nat) (a b : list ascii) :
  bcrypt.fit n (bcrypt.fit n a ++ b) = bcrypt.fit n a.
Proof.
  unfold bcrypt.fit at 1. rewrite <- app_assoc. apply take_fit_app.
Qed.

(** The comparison against a hash of the current version and the default
    cost, whatever follows its 60 bytes: it reports no error exactly when
    the recomputation gives the 31 characters of the hash. *)
Lemma Compare_fresh_iff (hash salt hash2 password2 junk : list ascii) :
  length salt = 22%nat ->
  bcrypt.bcrypt password2 bcrypt.DefaultCost salt = (hash2, None) ->
  bcrypt.CompareHashAndPassword (bcrypt.Hash (fresh hash salt) ++ junk)
    password2 = None
  <-> bcrypt.fit 31 hash2 = bcrypt.fit 31 hash.
Proof.
  intros Hsalt Hrun. unfold bcrypt.CompareHashAndPassword.
  rewrite newFromHash_trailing.
  cbn [bcrypt.cost bcrypt.salt bcrypt.major bcrypt.minor fresh].
  rewrite (fit_exact 22 salt Hsalt), Hrun.
  change (bcrypt.mkHashed hash2 salt bcrypt.DefaultCost bcrypt.majorVersion
            bcrypt.minorVersion) with (fresh hash2 salt).
  change (bcrypt.mkHashed (bcrypt.fit 31 hash ++ junk) salt bcrypt.DefaultCost
            bcrypt.majorVersion bcrypt.minorVersion)
    with (fresh (bcrypt.fit 31 hash ++ junk) salt).
  rewrite !Hash_fresh, fit_fit_app.
  destruct (decide _) as [Heq | Hne].
  - split; [| reflexivity]. intros _.
    apply app_inv_head in Heq. apply app_inv_head in Heq. congruence.
  - split; [discriminate |]. intros Heq. destruct Hne. rewrite Heq.
    reflexivity.
Qed.

Lemma bytes_app (a b : string) : bytes (a ++ b)%string = bytes a ++ bytes b.
Proof. induction a as [|c a IH]; simpl; [reflexivity |]. rewrite IH. reflexivity. Qed.

Lemma string_of_list_ascii_app (a b : list ascii) :
  string_of_list_ascii (a ++ b)
  = (string_of_list_ascii a ++ string_of_list_ascii b)%string.
Proof. induction a as [|c a IH]; simpl; [reflexivity |]. rewrite IH. reflexivity. Qed.

(** What [hashPassword] makes of a password: the version and the cost, the
    22 characters of the salt it drew, and 31 characters. *)
Lemma hashPassword_made (password h : string) (w w1 : World) :
  hashPassword (crypto := xcrypto) password w = (Returned (h, None), w1) ->
  exists seed tail,
    entropy w (tick w) = Drawn seed /\
    h = ("$2a$10$" ++ string_of_list_ascii (saltOf seed) ++ tail)%string /\
    String.length tail = 31%nat.
Proof.
  intros Hrun.
  destruct (hashPassword_xcrypto _ _ _ _ Hrun)
    as (seed & hash & Hseed & _ & Hh).
  destruct (salt_decodes seed) as (Hlen & _).
  cbn zeta in Hh, Hlen. rewrite Hash_fresh, (fit_exact 22 _ Hlen) in Hh.
  exists seed, (string_of_list_ascii (bcrypt.fit 31 hash)).
  split; [exact Hseed |]. split.
  - rewrite <- (string_of_list_ascii_of_string h). fold (bytes h).
    rewrite Hh, !string_of_list_ascii_app. reflexivity.
  - rewrite length_string_of_list_ascii. apply length_fit.
Qed.

(** Against a hash that [hashPassword] made, with or without bytes after
    it, a password verifies exactly when bcrypt gives it, under the salt
    of the hash, the 31 characters it gave the hashed password. *)
Lemma verifies_iff_same_hash (password p2 h junk : string) (w w1 : World) :
  hashPassword (crypto := xcrypto) password w = (Returned (h, None), w1) ->
  exists seed,
    entropy w (tick w) = Drawn seed /\
    (checkPasswordHash (crypto := xcrypto) p2 (h ++ junk)%string = true
     <-> hashOf seed p2 = hashOf seed password).
Proof.
  intros Hrun.
  destruct (hashPassword_xcrypto _ _ _ _ Hrun)
    as (seed & hash & Hseed & Hhash & Hh).
  destruct (salt_decodes seed) as (Hlen & csalt & Hdec & Hc).
  cbn zeta in Hhash, Hh, Hlen.
  destruct (bcrypt_succeeds (bytes p2) bcrypt.DefaultCost _ csalt Hdec Hc)
    as [hash2 Hhash2].
  exists seed. split; [exact Hseed |].
  unfold checkPasswordHash. cbn [CompareHashAndPassword xcrypto].
  fold (bytes (h ++ junk)%string). fold (bytes p2).
  rewrite bytes_app, Hh.
  pose proof (Compare_fresh_iff hash _ hash2 (bytes p2) (bytes junk) Hlen
                Hhash2) as Hiff.
  unfold hashOf, saltOf. rewrite Hhash, Hhash2. cbn [fst].
  destruct (bcrypt.CompareHashAndPassword _ _) as [e|].
  - split; [discriminate |]. intros Heq. apply Hiff in Heq. discriminate.
  - split; [| reflexivity]. intros _. apply Hiff. reflexivity.
Qed.

Lemma same_key_same_hash (seed : N) (password p2 : string) :
  keyOf p2 = keyOf password -> hashOf seed p2 = hashOf seed password.
Proof.
  intros Hkey. destruct (salt_decodes seed) as (_ & csalt & Hdec & Hc).
  unfold hashOf, saltOf.
  rewrite (bcrypt_words (bytes p2) (bytes password) bcrypt.DefaultCost _ csalt
             Hdec Hc Hkey).
  reflexivity.
Qed.

End Hasher.

Section Verification.

Context {tables : blowfish.Tables} {release : bcrypt.Release}.

Lemma hashPassword_too_long (password : string) (w : World) :
  bcrypt.rejectsLongPasswords = true ->
  (72 < String.length password)%nat ->
  hashPassword (crypto := xcrypto) password w
  = (Returned (password, Some bcrypt.ErrPasswordTooLong), step w).
Proof.
  intros Hstrict Hlen. rewrite hashPassword_returns.
  cbn [GenerateFromPassword xcrypto]. unfold bcrypt.GenerateFromPassword.
  fold (bytes password). rewrite length_bytes.
  apply Nat.ltb_lt in Hlen. rewrite Hlen, Hstrict. reflexivity.
Qed.

Lemma hashPassword_accepts (password : string) (w : World) (seed : N) :
  entropy w (tick w) = Drawn seed ->
  (String.length password <= 72)%nat ->
  exists h,
    hashPassword (crypto := xcrypto) password w
    = (Returned (h, None), step w).
Proof.
  intros Hseed Hlen. rewrite hashPassword_returns, Hseed.
  cbn [GenerateFromPassword xcrypto].
  destruct (Generate_succeeds seed (bytes password))
    as [h Hh]; [rewrite length_bytes; exact Hlen |].
  fold (bytes password). rewrite Hh. eexists. reflexivity.
Qed.

Lemma checkPasswordHash_short (password hash : string) :
  (String.length hash < 59)%nat ->
  checkPasswordHash (crypto := xcrypto) password hash = false.
Proof.
  intros Hlen. unfold checkPasswordHash.
  cbn [CompareHashAndPassword xcrypto].
  unfold bcrypt.CompareHashAndPassword, bcrypt.newFromHash.
  fold (bytes hash). rewrite length_bytes.
  apply Nat.ltb_lt in Hlen. unfold bcrypt.minHashSize. rewrite Hlen.
  reflexivity.
Qed.

Lemma checkPasswordHash_bad_prefix (password : string) (c : ascii)
  (rest : string) :
  c <> "$"%char ->
  checkPasswordHash (crypto := xcrypto) password (String c rest) = false.
Proof.
  intros Hc. unfold checkPasswordHash.
  cbn [CompareHashAndPassword xcrypto].
  unfold bcrypt.CompareHashAndPassword, bcrypt.newFromHash.
  destruct (_ <? _)%nat; [reflexivity |].
  unfold bcrypt.decodeVersion. cbn [list_ascii_of_string nth].
  apply Ascii.eqb_neq in Hc. rewrite Hc. reflexivity.
Qed.

Lemma checkPasswordHash_version_too_new (password : string) (v : ascii)
  (rest : string) :
  (N_of_ascii bcrypt.majorVersion < N_of_ascii v)%N ->
  checkPasswordHash (crypto := xcrypto) password (String "$" (String v rest))
  = false.
Proof.
  intros Hv. unfold checkPasswordHash.
  cbn [CompareHashAndPassword xcrypto].
  unfold bcrypt.CompareHashAndPassword, bcrypt.newFromHash.
  destruct (_ <? _)%nat; [reflexivity |].
  unfold bcrypt.decodeVersion. cbn [list_ascii_of_string nth].
  change (negb (Ascii.eqb "$" "$")) with false. cbn iota.
  apply N.ltb_lt in Hv. rewrite Hv. reflexivity.
Qed.

Lemma checkPasswordHash_bad_cost (password : string) (a b : ascii)
  (rest : string) (e : error) :
  snd (bcrypt.decodeCost [a; b]) = Some e ->
  checkPasswordHash (crypto := xcrypto) password
    ("$2a$" ++ String a (String b rest)) = false.
Proof.
  intros Hcost. unfold checkPasswordHash.
  cbn [CompareHashAndPassword xcrypto].
  unfold bcrypt.CompareHashAndPassword, bcrypt.newFromHash.
  destruct (_ <? _)%nat; [reflexivity |].
  change (list_ascii_of_string ("$2a$" ++ String a (String b rest)))
    with ("$"%char :: "2"%char :: "a"%char :: "$"%char :: a :: b
          :: list_ascii_of_string rest)%list.
  rewrite decodeVersion_2a. cbn [drop].
  unfold bcrypt.decodeCost in *. cbn [nth] in *.
  destruct (bcrypt.Atoi2 a b) as [cost [e1|]]; [reflexivity |].
  destruct (bcrypt.checkCost cost) as [e2|]; [reflexivity | discriminate].
Qed.

(** C10, as the hasher has it.  [hashPassword] hashes every password of
    at most 72 bytes for which the read of the entropy succeeds; when it
    fails, the password is left as it was, and either the password is
    longer than 72 bytes and the release refuses it, or the read of the
    entropy has failed with this error.  A password verifies against the
    hash made of it.  Against this hash, with or without bytes after its
    60, a password verifies exactly when bcrypt gives it, under the salt
    of the hash, the 31 characters it gave the hashed password; every
    password that gives the key schedule the same 18 words does, whether
    it is the hashed password or another one.  The verification is a
    boolean, and it is false for a hash of less than 59 bytes, for one
    that does not start with a dollar sign, for one of a version above 2,
    and for one of the version 2a whose cost does not read as a number
    between 4 and 31. *)
Theorem checkPasswordHash_hashPassword (password : string) (w : World) :
  (forall seed,
     entropy w (tick w) = Drawn seed ->
     (String.length password <= 72)%nat ->
     exists h,
       hashPassword (crypto := xcrypto) password w
       = (Returned (h, None), step w)) /\
  (forall p e w1,
     hashPassword (crypto := xcrypto) password w = (Returned (p, Some e), w1) ->
     p = password /\
     ((bcrypt.rejectsLongPasswords = true /\
       (72 < String.length password)%nat /\ e = bcrypt.ErrPasswordTooLong) \/
      entropy w (tick w) = Failed e)) /\
  (forall h w1,
     hashPassword (crypto := xcrypto) password w = (Returned (h, None), w1) ->
     checkPasswordHash (crypto := xcrypto) password h = true /\
     exists seed,
       entropy w (tick w) = Drawn seed /\
       (forall p2 junk,
          checkPasswordHash (crypto := xcrypto) p2 (h ++ junk) = true
          <-> hashOf seed p2 = hashOf seed password) /\
       (forall p2, keyOf p2 = keyOf password ->
          hashOf seed p2 = hashOf seed password)) /\
  (forall p hash, (String.length hash < 59)%nat ->
     checkPasswordHash (crypto := xcrypto) p hash = false) /\
  (forall p c rest, c <> "$"%char ->
     checkPasswordHash (crypto := xcrypto) p (String c rest) = false) /\
  (forall p v rest, (N_of_ascii bcrypt.majorVersion < N_of_ascii v)%N ->
     checkPasswordHash (crypto := xcrypto) p (String "$" (String v rest))
     = false) /\
  (forall p a b rest e, snd (bcrypt.decodeCost [a; b]) = Some e ->
     checkPasswordHash (crypto := xcrypto) p
       ("$2a$" ++ String a (String b rest)) = false).
Proof.
  split; [intros seed; apply hashPassword_accepts |].
  split; [| split; [| split; [| split; [| split]]]].
  - intros p e w1. rewrite hashPassword_returns.
    cbn [GenerateFromPassword xcrypto]. fold (bytes password).
    destruct (bcrypt.GenerateFromPassword _ _ _) as [bs [e'|]] eqn:Hgen;
      [| discriminate].
    intros [= <- <- _]. split; [reflexivity |].
    destruct (Generate_fails _ _ _ _ Hgen) as [_ [Hlong | [_ Hfail]]].
    + left. rewrite length_bytes in Hlong. exact Hlong.
    + right. exact Hfail.
  - intros h w1 Hh. split.
    + apply (verifies_with_same_key password password h w w1 Hh). reflexivity.
    + destruct (verifies_iff_same_hash password password h "" w w1 Hh)
        as (seed & Hseed & _).
      exists seed. split; [exact Hseed |]. split.
      * intros p2 junk.
        destruct (verifies_iff_same_hash password p2 h junk w w1 Hh)
          as (seed' & Hseed' & Hiff).
        assert (seed' = seed) by congruence. subst seed'. exact Hiff.
      * intros p2. apply same_key_same_hash.
  - intros p hash. apply checkPasswordHash_short.
  - intros p c rest. apply checkPasswordHash_bad_prefix.
  - intros p v rest. apply checkPasswordHash_version_too_new.
  - intros p a b rest e. apply checkPasswordHash_bad_cost.
Qed.

End Verification.

Lemma checkPasswordHash_hashPassword_witness :
  (exists h,
     @hashPassword (@xcrypto pi.tables strict) "hunter2" sample.world
     = (Returned (h, None), step sample.world) /\
     @checkPasswordHash (@xcrypto pi.tables strict) "hunter2" h = true) /\
  @checkPasswordHash (@xcrypto pi.tables strict) "hunter2" "hunter2" = false /\
  @checkPasswordHash (@xcrypto pi.tables strict) "hunter2"
    "$2a$03$abcdefghijklmnopqrstuu01234567890123456789012345678901"
  = false.
Proof.
  destruct (@checkPasswordHash_hashPassword pi.tables strict "hunter2"
              sample.world) as (Hhash & _ & Hverify & Hshort & _ & _ & Hcost).
  split; [| split].
  - destruct (Hhash 7%N eq_refl) as [h Hh]; [simpl; lia |].
    exists h. split; [exact Hh |].
    exact (proj1 (Hverify h _ Hh)).
  - apply Hshort. simpl. lia.
  - apply (Hcost "hunter2" "0"%char "3"%char
             "$abcdefghijklmnopqrstuu01234567890123456789012345678901"
             (bcrypt.InvalidCostError 3)).
    reflexivity.
Defined.

Lemma other_password_verifies {tables : blowfish.Tables}
  {release : bcrypt.Release} (p p2 : string) (w : World) (seed : N) :
  entropy w (tick w) = Drawn seed ->
  (String.length p <= 72)%nat ->
  keyOf p2 = keyOf p ->
  exists h,
    hashPassword (crypto := xcrypto) p w = (Returned (h, None), step w) /\
    checkPasswordHash (crypto := xcrypto) p2 h = true.
Proof.
  intros Hseed Hlen Hkey.
  destruct (hashPassword_accepts p w seed Hseed Hlen) as [h Hh].
  exists h. split; [exact Hh |].
  exact (verifies_with_same_key p p2 h w _ Hh Hkey).
Qed.

(** Two passwords: 72 bytes, and the same 72 bytes followed by one more.
    The second is not the first, and it verifies against the hash of the
    first, with a release of the library of either kind.  Likewise the
    password [a] and the three bytes [a], zero, [a]. *)
Lemma longer_password_verifies :
  (sample.longer <> sample.passphrase /\
   (exists h,
      @hashPassword (@xcrypto pi.tables strict) sample.passphrase sample.world
      = (Returned (h, None), step sample.world) /\
      @checkPasswordHash (@xcrypto pi.tables strict) sample.longer h = true) /\
   (exists h,
      @hashPassword (@xcrypto pi.tables lenient) sample.passphrase sample.world
      = (Returned (h, None), step sample.world) /\
      @checkPasswordHash (@xcrypto pi.tables lenient) sample.longer h = true)) /\
  (sample.cyclic <> sample.short /\
   exists h,
     @hashPassword (@xcrypto pi.tables strict) sample.short sample.world
     = (Returned (h, None), step sample.world) /\
     @checkPasswordHash (@xcrypto pi.tables strict) sample.cyclic h = true).
Proof.
  split; [split; [discriminate | split] | split; [discriminate |]];
    (apply (other_password_verifies _ _ _ 7%N);
     [reflexivity | simpl; lia | vm_compute; reflexivity]).
Qed.

(** The tables and the cipher against a known answer of Blowfish: the
    block of eight zero bytes under the key of eight zero bytes. *)
Example blowfish_known_answer :
  let zeros := repeat zero 8 in
  option_map (fun c => map N_of_ascii (blowfish.Encrypt c zeros))
             (fst (@blowfish.NewCipher pi.tables zeros))
  = Some [0x4E; 0xF9; 0x97; 0x45; 0x61; 0x98; 0xDD; 0x78]%N.
Proof. vm_compute. reflexivity. Qed.

(** ** Creation over the library *)

Section CreateOverLibrary.

Context {entities : Entities}.
Context {tables : blowfish.Tables} {release : bcrypt.Release}.


End CreateOverLibrary.


(** * Further properties of the service *)

(** ** Worlds that differ by no write *)

Lemma same_refl w : same w w.
Proof. split; reflexivity. Qed.

Lemma same_step w w1 : same w w1 -> same w (step w1).
Proof. intros [Hu Hs]. split; assumption. Qed.

Lemma same_record w w1 c : same w w1 -> same w (record c w1).
Proof. intros [Hu Hs]. split; assumption. Qed.

Lemma same_looked w : same w (looked w).
Proof. apply same_record, same_step, same_refl. Qed.

Lemma same_trans w w1 w2 : same w w1 -> same w1 w2 -> same w w2.
Proof. intros [Hu Hs] [Hu' Hs']. split; congruence. Qed.

Lemma same_view ctx w w1 : same w w1 -> mongo.view ctx w1 = mongo.view ctx w.
Proof.
  intros [Hu Hs]. destruct ctx as [|h]; simpl; [exact Hu |].
  rewrite Hs, Hu. reflexivity.
Qed.

(** ** The repository, call by call *)

Lemma repo_Get_run ctx query w :
  infrastructure.Get ctx query w
  = (Returned
       (match faults w (tick w) with
        | Some e => ([], Some e)
        | None =>
            (List.filter (infrastructure.matches query) (mongo.view ctx w),
             None)
        end), looked w).
Proof.
  unfold infrastructure.Get, mbind, Go_bind, roundTrip, mongo.read.
  destruct (faults w (tick w)); [reflexivity |].
  rewrite view_record, view_step. reflexivity.
Qed.

Lemma repo_GetByID_run ctx id w :
  infrastructure.GetByID ctx id w
  = match primitive.ObjectIDFromHex id with
    | (_, Some e) => (Returned (None, Some e), w)
    | (oid, None) =>
        (Returned
           (match faults w (tick w) with
            | Some e => (None, Some e)
            | None =>
                match List.find (mongo.hasID oid) (mongo.view ctx w) with
                | Some u => (Some u, None)
                | None => (None, Some mongo.ErrNoDocuments)
                end
            end), looked w)
    end.
Proof.
  unfold infrastructure.GetByID.
  destruct (primitive.ObjectIDFromHex id) as [oid [e|]]; [reflexivity |].
  unfold mbind, Go_bind, roundTrip, mongo.read.
  destruct (faults w (tick w)); [reflexivity |].
  rewrite view_record, view_step.
  destruct (List.find _ _); reflexivity.
Qed.

Lemma repo_Update_run ctx id e w :
  infrastructure.Update ctx id e false w
  = match primitive.ObjectIDFromHex id with
    | (_, Some err) => (Returned (Some err), w)
    | (oid, None) =>
        let w1 := record CmdUpdate (step w) in
        match faults w (tick w) with
        | Some err => (Returned (Some err), w1)
        | None =>
            if existsb (mongo.hasID oid) (mongo.view ctx w) then
              if (ID e =? oid)%N
              then (Returned None,
                    mongo.install ctx
                      (mongo.replaceFirst oid e (mongo.view ctx w)) w1)
              else (Returned (Some mongo.ErrImmutableID), w1)
            else (Returned (Some mongo.ErrNoDocuments), w1)
        end
    end.
Proof.
  unfold infrastructure.Update.
  destruct (primitive.ObjectIDFromHex id) as [oid [err|]]; [reflexivity |].
  unfold mbind, Go_bind, roundTrip, mongo.read, mongo.write, mret, Go_ret.
  destruct (faults w (tick w)); [reflexivity |].
  cbn zeta. rewrite view_record, view_step.
  destruct (existsb _ _); [destruct (_ =? _)%N |]; reflexivity.
Qed.

Lemma repo_Delete_run ctx id w :
  infrastructure.Delete ctx id w
  = match primitive.ObjectIDFromHex id with
    | (_, Some err) => (Returned (Some err), w)
    | (oid, None) =>
        let w1 := record CmdDelete (step w) in
        match faults w (tick w) with
        | Some err => (Returned (Some err), w1)
        | None =>
            if existsb (mongo.hasID oid) (mongo.view ctx w)
            then (Returned None,
                  mongo.install ctx (mongo.removeFirst oid (mongo.view ctx w))
                    w1)
            else (Returned (Some mongo.ErrNoDocuments), w1)
        end
    end.
Proof.
  unfold infrastructure.Delete.
  destruct (primitive.ObjectIDFromHex id) as [oid [err|]]; [reflexivity |].
  unfold mbind, Go_bind, roundTrip, mongo.read, mongo.write, mret, Go_ret.
  destruct (faults w (tick w)); [reflexivity |].
  cbn zeta. rewrite view_record, view_step.
  destruct (existsb _ _); reflexivity.
Qed.

Lemma repo_Create_run ctx e w :
  infrastructure.Create ctx e w
  = let w1 := record CmdInsert (step w) in
    match faults w (tick w) with
    | Some err => (Returned ("", Some err), w1)
    | None =>
        if existsb (mongo.hasID (ID e)) (mongo.view ctx w)
        then (Returned ("", Some mongo.ErrDuplicateKey), w1)
        else (Returned (primitive.Hex (ID e), None),
              mongo.install ctx (mongo.view ctx w ++ [e]) w1)
    end.
Proof.
  unfold infrastructure.Create, mbind, Go_bind, roundTrip, mongo.read,
    mongo.write, mret, Go_ret.
  destruct (faults w (tick w)); [reflexivity |].
  cbn zeta. rewrite view_record, view_step.
  destruct (existsb _ _); reflexivity.
Qed.

(** ** The writes of the service, case by case *)

(** Reads the run of a computation off a hypothesis about it. *)
Ltac run_of H r w1 :=
  match type of H with
  | (let (_, _) := ?run in _) =>
      match goal with
      | |- (let (_, _) := ?run' in _) => change run' with run
      end;
      destruct run as [r w1]
  end.

Section Writes.

Context {entities : Entities} {crypto : Bcrypt}.

Local Open Scope list_scope.

Lemma Update_cases (ctx : Context) (id : string) (u : requests.UpdateUser.t)
  (w : World) :
  let (r, w1) := Update ctx id u w in
  (r = Returned None /\ updated ctx id u w w1) \/
  (r <> Returned None /\ same w w1).
Proof.
  unfold Update, mbind, Go_bind. rewrite repo_GetByID_run.
  destruct (primitive.ObjectIDFromHex id) as [oid [err|]] eqn:Hid.
  { right. split; [discriminate | apply same_refl]. }
  destruct (faults w (tick w)) as [err|] eqn:Hup.
  { right. split; [discriminate | apply same_looked]. }
  destruct (List.find _ _) as [user|] eqn:Hfind;
    [| right; split; [discriminate | apply same_looked]].
  unfold deref, mret, Go_ret. cbn beta iota.
  set (merged := assign _ withEmail _).
  assert (Hmerged : ID merged = ID user /\ Claims merged = Claims user /\
                    PasswordHash merged = PasswordHash user).
  { unfold merged.
    destruct (requests.UpdateUser.Email u), (requests.UpdateUser.Surnames u),
      (requests.UpdateUser.Name u); repeat split. }
  destruct Hmerged as (Hmi & Hmc & Hmp).
  destruct (find_hasID _ _ _ Hfind) as [Hu Hex].
  assert (Htail : forall m w2, same w w2 -> ID m = ID user ->
            let (r, w1) :=
              (time_Now ≫= fun t : Time =>
                 infrastructure.Update ctx id (withUpdatedAt (time.UTC t) m)
                   false) w2 in
            (r = Returned None /\
             mongo.view ctx w1
             = mongo.replaceFirst oid
                 (withUpdatedAt (time.UTC (wallClock w2 (tick w2))) m)
                 (mongo.view ctx w)) \/
            (r <> Returned None /\ same w w1)).
  { intros m w2 Hs Hm. unfold mbind, Go_bind, time_Now. cbn beta iota.
    rewrite repo_Update_run, Hid. cbn zeta.
    assert (Hs' : same w (record CmdUpdate (step (step w2)))).
    { apply same_record, same_step, same_step, Hs. }
    cbn beta iota.
    destruct (faults (step w2) _);
      [right; split; [discriminate | exact Hs'] |].
    assert (Hidm : forall t, (ID (withUpdatedAt t m) =? oid)%N = true).
    { intros t. cbn. rewrite Hm, Hu. apply N.eqb_refl. }
    rewrite view_step, (same_view ctx w w2 Hs), Hex, Hidm. left.
    split; [reflexivity |].
    rewrite view_install. reflexivity. }
  assert (Hclaims : forall m w2, same w w2 -> ID m = ID user ->
            Claims m = Claims user ->
            let (r, w1) :=
              (let (user0, err0) :=
                 match requests.UpdateUser.Claims u with
                 | Some claims =>
                     match validateClaims claims with
                     | Some e => (m, Some e)
                     | None => (withClaims claims m, None)
                     end
                 | None => (m, None)
                 end in
               match err0 with
               | Some e => mret (Some e)
               | None =>
                   time_Now ≫= fun t : Time =>
                     infrastructure.Update ctx id
                       (withUpdatedAt (time.UTC t) user0) false
               end) w2 in
            (r = Returned None /\
             exists patched,
               mongo.view ctx w1
               = mongo.replaceFirst oid patched (mongo.view ctx w) /\
               ID patched = oid /\
               (Claims patched = Claims user \/
                validateClaims (Claims patched) = None) /\
               PasswordHash patched = PasswordHash m) \/
            (r <> Returned None /\ same w w1)).
  { intros m w2 Hs Hm Hc.
    destruct (requests.UpdateUser.Claims u) as [cs|];
      [destruct (validateClaims cs) as [e|] eqn:Hcs |].
    - right. split; [discriminate | exact Hs].
    - pose proof (Htail (withClaims cs m) w2 Hs Hm) as Ht.
      run_of Ht r w1. destruct Ht as [[-> Hv] | Hfail]; [| auto].
      left. split; [reflexivity |]. eexists. split; [exact Hv |].
      cbn. rewrite Hm. auto.
    - pose proof (Htail m w2 Hs Hm) as Ht.
      run_of Ht r w1. destruct Ht as [[-> Hv] | Hfail]; [| auto].
      left. split; [reflexivity |]. eexists. split; [exact Hv |].
      cbn. rewrite Hm. auto. }
  unfold updated.
  destruct (requests.UpdateUser.NewPassword u) as [np|].
  - destruct (requests.UpdateUser.OldPassword u) as [op|];
      [| right; split; [discriminate | apply same_looked]].
    cbn beta iota.
    destruct (checkPasswordHash op (PasswordHash merged));
      [| right; split; [discriminate | apply same_looked]].
    fold (looked w). rewrite hashPassword_returns.
    destruct (GenerateFromPassword _ np _) as [h [e|]].
    + right. split; [discriminate | apply same_step, same_looked].
    + pose proof (Hclaims (withPasswordHash h merged) (step (looked w))
                    (same_step _ _ (same_looked w)) Hmi Hmc) as Ht.
      run_of Ht r w1.
      destruct Ht as [[-> (patched & Hv & Hp & Hc & Hh)] | Hfail]; [| auto].
      left. split; [reflexivity |]. exists oid, user, patched.
      rewrite Hh. cbn. auto 10.
  - fold (looked w).
    pose proof (Hclaims merged (looked w) (same_looked w) Hmi Hmc) as Ht.
    run_of Ht r w1.
    destruct Ht as [[-> (patched & Hv & Hp & Hc & Hh)] | Hfail]; [| auto].
    left. split; [reflexivity |]. exists oid, user, patched.
    rewrite Hh, Hmp. auto 10.
Qed.

Lemma Create_cases (ctx : Context) (u : User) (w : World) :
  let (r, w1) := Create ctx u w in
  match r with
  | Returned (resp, None) => created ctx u w w1 resp
  | Returned (resp, Some e) => resp = responses.Creation.zero /\ same w w1
  | Panicked _ => False
  end.
Proof.
  unfold Create, mbind, Go_bind. rewrite hashPassword_returns.
  destruct (GenerateFromPassword _ _ _) as [h [e|]] eqn:Hgen.
  { split; [reflexivity | apply same_step, same_refl]. }
  cbn beta iota. unfold withPasswordHash at 1. cbn [Claims].
  destruct (validateClaims (Claims u)) as [e|] eqn:Hvalid.
  { split; [reflexivity | apply same_step, same_refl]. }
  unfold time_Now. cbn beta iota. rewrite NewObjectID_run.
  rewrite repo_Create_run. cbn zeta.
  set (w3 := step (step (step w))).
  assert (Hsame : same w (record CmdInsert (step w3))).
  { apply same_record, same_step. unfold w3.
    apply same_step, same_step, same_step, same_refl. }
  assert (Hview : mongo.view ctx w3 = mongo.view ctx w).
  { unfold w3. rewrite !view_step. reflexivity. }
  destruct (faults w3 (tick w3)) as [e|].
  { split; [reflexivity | exact Hsame]. }
  cbn [ID]. rewrite Hview.
  destruct (existsb _ _) eqn:Hex.
  { split; [reflexivity | exact Hsame]. }
  eexists. rewrite view_install. split; [reflexivity |].
  split; [reflexivity |]. split.
  { cbn [ID]. intros old Hin Heq.
    assert (existsb (mongo.hasID
                       (objectIDs (step (step w)) (tick (step (step w)))
                        mod primitive.modulus)%N) (mongo.view ctx w) = true);
      [| congruence].
    apply existsb_exists. exists old. split; [exact Hin |].
    apply N.eqb_eq. exact Heq. }
  cbn [Name Surnames Email Claims PasswordHash withPasswordHash].
  rewrite hashPassword_returns, Hgen.
  repeat split; solve [reflexivity | assumption].
Qed.

Lemma ObjectIDFromHex_length (id : string) :
  String.length id <> 24%nat ->
  primitive.ObjectIDFromHex id = (0%N, Some primitive.ErrInvalidHex).
Proof.
  intros Hlen. unfold primitive.ObjectIDFromHex.
  destruct (Nat.eqb_spec (String.length id) 24); [contradiction | reflexivity].
Qed.

(** X1.  [Update] looks the identifier up before it reads anything of the
    request.  When the identifier is not 24 characters long, or does not
    parse, the error of the parse comes back and the world is untouched:
    no command was sent.  When the backend fails the lookup, its error
    comes back; when no document has the identifier, the error is
    [mongo.ErrNoDocuments].  This holds for every request, also for one
    with a new password and no old one: the nil pointer is not reached. *)
Theorem Update_unknown_identifier (ctx : Context) (id : string)
  (u : requests.UpdateUser.t) (w : World) :
  (String.length id <> 24%nat ->
   Update ctx id u w = (Returned (Some primitive.ErrInvalidHex), w)) /\
  (forall oid e,
     primitive.ObjectIDFromHex id = (oid, Some e) ->
     Update ctx id u w = (Returned (Some e), w)) /\
  (forall oid e,
     primitive.ObjectIDFromHex id = (oid, None) ->
     faults w (tick w) = Some e ->
     Update ctx id u w = (Returned (Some e), looked w)) /\
  (forall oid,
     primitive.ObjectIDFromHex id = (oid, None) ->
     faults w (tick w) = None ->
     (forall user, In user (mongo.view ctx w) -> ID user <> oid) ->
     Update ctx id u w = (Returned (Some mongo.ErrNoDocuments), looked w)).
Proof.
  unfold Update, mbind, Go_bind. rewrite repo_GetByID_run.
  repeat split.
  - intros Hlen. rewrite (ObjectIDFromHex_length id Hlen). reflexivity.
  - intros oid e ->. reflexivity.
  - intros oid e -> ->. reflexivity.
  - intros oid -> -> Hnone.
    destruct (List.find _ _) as [user|] eqn:Hfind; [| reflexivity].
    apply find_some in Hfind. destruct Hfind as [Hin Hid].
    apply N.eqb_eq in Hid. destruct (Hnone user Hin Hid).
Qed.

(** X2.  Whatever [Update] comes to other than nil (an error of the
    lookup, a wrong old password, a failed hashing, a rejected claim, an
    error of the repository's update, or the panic on a nil old password),
    the documents and the sessions are what they were, and so is the
    collection the context reads. *)
Theorem Update_failure_changes_nothing (ctx : Context) (id : string)
  (u : requests.UpdateUser.t) (w : World) :
  let (r, w1) := Update ctx id u w in
  r = Returned None \/
  (users w1 = users w /\ sessions w1 = sessions w /\
   mongo.view ctx w1 = mongo.view ctx w).
Proof.
  pose proof (Update_cases ctx id u w) as Hcases.
  destruct (Update ctx id u w) as [r w1].
  destruct Hcases as [[-> _] | [_ Hsame]]; [left; reflexivity |].
  right. destruct Hsame as [Hu Hs]. repeat split; try assumption.
  apply same_view. split; assumption.
Qed.

(** X3.  [Create] never panics, and it inserts all or nothing.  When it
    returns an error, the response is the zero one and the documents and
    the sessions are what they were: this includes the insert that the
    backend fails and the insert that meets a duplicate key.  When it
    returns nil, the collection is the old one followed by one record,
    whose identifier no old document had and whose hex form is the
    [InsertedID] of the response. *)
Theorem Create_all_or_nothing (ctx : Context) (u : User) (w : World) :
  let (r, w1) := Create ctx u w in
  match r with
  | Returned (resp, None) =>
      exists rec,
        mongo.view ctx w1 = mongo.view ctx w ++ [rec] /\
        responses.Creation.InsertedID resp = primitive.Hex (ID rec) /\
        (forall old, In old (mongo.view ctx w) -> ID old <> ID rec)
  | Returned (resp, Some e) =>
      resp = responses.Creation.zero /\
      users w1 = users w /\ sessions w1 = sessions w /\
      mongo.view ctx w1 = mongo.view ctx w
  | Panicked _ => False
  end.
Proof.
  pose proof (Create_cases ctx u w) as Hcases.
  destruct (Create ctx u w) as [[[resp [e|]]|msg] w1]; [| | exact Hcases].
  - destruct Hcases as [-> Hsame]. split; [reflexivity |].
    pose proof (same_view ctx _ _ Hsame). destruct Hsame. auto.
  - destruct Hcases as (rec & Hv & Hi & Hfresh & _). exists rec. auto.
Qed.

(** *** Invariants of the collection *)

Lemma claimsValid_replaceFirst (oid : ObjectID) (e : User) (docs : list User) :
  claimsValid docs ->
  Forall (fun c => IsValid c = true) (Claims e) ->
  claimsValid (mongo.replaceFirst oid e docs).
Proof.
  unfold claimsValid. intros Hdocs He.
  induction Hdocs as [|d ds Hd Hds IH]; simpl; [constructor |].
  destruct (mongo.hasID oid d); constructor; assumption.
Qed.

Lemma claimsValid_removeFirst (oid : ObjectID) (docs : list User) :
  claimsValid docs -> claimsValid (mongo.removeFirst oid docs).
Proof.
  unfold claimsValid. intros Hdocs.
  induction Hdocs as [|d ds Hd Hds IH]; simpl; [constructor |].
  destruct (mongo.hasID oid d); [assumption | constructor; assumption].
Qed.

Lemma map_ID_replaceFirst (oid : ObjectID) (e : User) (docs : list User) :
  ID e = oid -> map ID (mongo.replaceFirst oid e docs) = map ID docs.
Proof.
  intros He. induction docs as [|d ds IH]; simpl; [reflexivity |].
  unfold mongo.hasID at 1. destruct (N.eqb_spec (ID d) oid) as [Hd | Hd]; simpl.
  - congruence.
  - rewrite IH. reflexivity.
Qed.

Lemma uniqueIDs_removeFirst (oid : ObjectID) (docs : list User) :
  uniqueIDs docs -> uniqueIDs (mongo.removeFirst oid docs).
Proof.
  unfold uniqueIDs. induction docs as [|d ds IH]; simpl; [auto |].
  intros Hnd. apply List.NoDup_cons_iff in Hnd. destruct Hnd as [Hnot Hnd].
  destruct (mongo.hasID oid d); [exact Hnd |].
  simpl. apply List.NoDup_cons; [| apply IH, Hnd].
  intros Hin. apply Hnot. apply in_map_iff in Hin.
  destruct Hin as (x & Hx & Hin). apply in_map_iff. exists x.
  split; [exact Hx |]. clear - Hin.
  induction ds as [|a l IHl]; simpl in *; [contradiction |].
  destruct (mongo.hasID oid a); [right; exact Hin |].
  destruct Hin as [-> | Hin]; [left; reflexivity | right; apply IHl, Hin].
Qed.

Lemma uniqueIDs_appended (docs : list User) (r : User) :
  uniqueIDs docs ->
  (forall old, In old docs -> ID old <> ID r) ->
  uniqueIDs (docs ++ [r]).
Proof.
  unfold uniqueIDs. intros Hnd Hfresh. rewrite map_app. simpl.
  apply List.NoDup_app; [exact Hnd | | ].
  - apply List.NoDup_cons; [intros [] | constructor].
  - intros x Hx [<- | []]. apply in_map_iff in Hx.
    destruct Hx as (old & Hid & Hin). exact (Hfresh old Hin Hid).
Qed.

(** X5.  When every claim of every document is valid, it stays so through
    every run of [Create], [Update] and [Delete], whatever the input and
    whatever the outcome: a claim outside the enumeration never reaches
    the collection through the service. *)
Theorem writes_keep_claims_valid (ctx : Context) (w : World) :
  claimsValid (mongo.view ctx w) ->
  (forall u, claimsValid (mongo.view ctx (snd (Create ctx u w)))) /\
  (forall id u, claimsValid (mongo.view ctx (snd (Update ctx id u w)))) /\
  (forall id, claimsValid (mongo.view ctx (snd (Delete ctx id w)))).
Proof.
  intros Hvalid. repeat split.
  - intros u. pose proof (Create_cases ctx u w) as Hcases.
    destruct (Create ctx u w) as [[[resp [e|]]|msg] w1]; [| | destruct Hcases].
    + destruct Hcases as [_ Hsame]. simpl.
      rewrite (same_view ctx _ _ Hsame). exact Hvalid.
    + destruct Hcases as (rec & Hv & _ & _ & _ & _ & _ & Hc & Hok & _).
      simpl. rewrite Hv. apply List.Forall_app. split; [exact Hvalid |].
      constructor; [| constructor]. rewrite Hc. apply validateClaims_ok, Hok.
  - intros id u. pose proof (Update_cases ctx id u w) as Hcases.
    destruct (Update ctx id u w) as [r w1]. simpl.
    destruct Hcases as [[_ Hup] | [_ Hsame]].
    + destruct Hup as (oid & user & patched & _ & _ & Hfind & Hv & _ & Hc & _).
      rewrite Hv. apply claimsValid_replaceFirst; [exact Hvalid |].
      destruct Hc as [-> | Hok]; [| apply validateClaims_ok, Hok].
      apply find_some in Hfind. destruct Hfind as [Hin _].
      unfold claimsValid in Hvalid. rewrite List.Forall_forall in Hvalid.
      apply Hvalid, Hin.
    + rewrite (same_view ctx _ _ Hsame). exact Hvalid.
  - intros id. unfold Delete. rewrite repo_Delete_run.
    destruct (primitive.ObjectIDFromHex id) as [oid [err|]]; [exact Hvalid |].
    cbn zeta. destruct (faults w (tick w)) as [err|]; simpl.
    { rewrite view_record, view_step. exact Hvalid. }
    destruct (existsb _ _); simpl.
    + rewrite view_install. apply claimsValid_removeFirst, Hvalid.
    + rewrite view_record, view_step. exact Hvalid.
Qed.

(** X6.  When the identifiers of the documents are pairwise distinct,
    they stay so through every run of [Create], [Update] and [Delete]:
    [Create] inserts under an identifier that no document has, [Update]
    writes the document back under the identifier it was found with, and
    [Delete] only removes. *)
Theorem writes_keep_ids_unique (ctx : Context) (w : World) :
  uniqueIDs (mongo.view ctx w) ->
  (forall u, uniqueIDs (mongo.view ctx (snd (Create ctx u w)))) /\
  (forall id u, uniqueIDs (mongo.view ctx (snd (Update ctx id u w)))) /\
  (forall id, uniqueIDs (mongo.view ctx (snd (Delete ctx id w)))).
Proof.
  intros Huniq. repeat split.
  - intros u. pose proof (Create_cases ctx u w) as Hcases.
    destruct (Create ctx u w) as [[[resp [e|]]|msg] w1]; [| | destruct Hcases].
    + destruct Hcases as [_ Hsame]. simpl.
      rewrite (same_view ctx _ _ Hsame). exact Huniq.
    + destruct Hcases as (rec & Hv & _ & Hfresh & _).
      simpl. rewrite Hv. apply uniqueIDs_appended; assumption.
  - intros id u. pose proof (Update_cases ctx id u w) as Hcases.
    destruct (Update ctx id u w) as [r w1]. simpl.
    destruct Hcases as [[_ Hup] | [_ Hsame]].
    + destruct Hup as (oid & user & patched & _ & _ & _ & Hv & Hid & _).
      rewrite Hv. unfold uniqueIDs.
      rewrite (map_ID_replaceFirst oid patched _ Hid). exact Huniq.
    + rewrite (same_view ctx _ _ Hsame). exact Huniq.
  - intros id. unfold Delete. rewrite repo_Delete_run.
    destruct (primitive.ObjectIDFromHex id) as [oid [err|]]; [exact Huniq |].
    cbn zeta. destruct (faults w (tick w)) as [err|]; simpl.
    { rewrite view_record, view_step. exact Huniq. }
    destruct (existsb _ _); simpl.
    + rewrite view_install. apply uniqueIDs_removeFirst, Huniq.
    + rewrite view_record, view_step. exact Huniq.
Qed.

End Writes.

Lemma Update_unknown_identifier_witness :
  @Update sample.claims sample.tagging PlainContext "42"
    sample.newPasswordOnly sample.world
  = (Returned (Some primitive.ErrInvalidHex), sample.world) /\
  @Update sample.claims sample.tagging PlainContext sample.annID
    sample.newPasswordOnly sample.offline
  = (Returned (Some sample.ErrUnreachable), looked sample.offline) /\
  @Update sample.claims sample.tagging PlainContext sample.bobID
    sample.newPasswordOnly sample.world
  = (Returned (Some mongo.ErrNoDocuments), looked sample.world).
Proof.
  split; [| split].
  - apply (@Update_unknown_identifier sample.claims sample.tagging
             PlainContext "42"). simpl. lia.
  - apply (proj1 (proj2 (proj2
             (@Update_unknown_identifier sample.claims sample.tagging
                PlainContext sample.annID sample.newPasswordOnly
                sample.offline))) 1002%N);
      reflexivity.
  - apply (proj2 (proj2 (proj2
             (@Update_unknown_identifier sample.claims sample.tagging
                PlainContext sample.bobID sample.newPasswordOnly
                sample.world)))
             2002%N); [reflexivity | reflexivity |].
    intros user [<- | []]. discriminate.
Defined.

Lemma writes_keep_claims_valid_witness :
  (forall u,
     @claimsValid sample.claims
       (mongo.view PlainContext
          (snd (@Create sample.claims sample.tagging PlainContext u
                  sample.world)))) /\
  (forall id u,
     @claimsValid sample.claims
       (mongo.view PlainContext
          (snd (@Update sample.claims sample.tagging PlainContext id u
                  sample.world)))) /\
  (forall id,
     @claimsValid sample.claims
       (mongo.view PlainContext (snd (Delete PlainContext id sample.world)))).
Proof.
  apply (@writes_keep_claims_valid sample.claims sample.tagging PlainContext
           sample.world).
  repeat constructor.
Defined.

Lemma writes_keep_ids_unique_witness :
  (forall u,
     uniqueIDs
       (mongo.view PlainContext
          (snd (@Create sample.claims sample.tagging PlainContext u
                  sample.world)))) /\
  (forall id u,
     uniqueIDs
       (mongo.view PlainContext
          (snd (@Update sample.claims sample.tagging PlainContext id u
                  sample.world)))) /\
  (forall id,
     uniqueIDs
       (mongo.view PlainContext (snd (Delete PlainContext id sample.world)))).
Proof.
  apply (@writes_keep_ids_unique sample.claims sample.tagging PlainContext
           sample.world).
  unfold uniqueIDs. simpl. constructor; [intros [] | constructor].
Defined.

(** ** The queries *)

Section Queries.

Context {entities : Entities} {crypto : Bcrypt} {signer : Jwt}.

Local Open Scope list_scope.

Lemma quiet_refl w : quiet w w.
Proof.
  split; [apply same_refl |]. exists []. rewrite app_nil_r. auto.
Qed.

Lemma quiet_step w w1 : quiet w w1 -> quiet w (step w1).
Proof. intros [Hs Hj]. split; [apply same_step, Hs | exact Hj]. Qed.

Lemma quiet_record w w1 c :
  isWrite c = false -> quiet w w1 -> quiet w (record c w1).
Proof.
  intros Hc [Hs (cs & Hj & Hw)]. split; [apply same_record, Hs |].
  exists (cs ++ [c]). simpl. rewrite Hj, <- app_assoc. split; [reflexivity |].
  rewrite existsb_app, Hw. simpl. rewrite Hc. reflexivity.
Qed.

Lemma quiet_looked w : quiet w (looked w).
Proof. apply quiet_record; [reflexivity | apply quiet_step, quiet_refl]. Qed.

(** X7.  [Login], [GetAll], [GetByEmail], [GetByID] and [GetClaims]
    return in every world: the first element of a result is only read
    after the length was checked, and a looked-up pointer only after the
    error was.  None of them writes: the documents and the sessions are
    what they were, and no insert, update or delete was sent.  And with an
    error the first four return the zero value: no user, no token, an
    empty list. *)
Theorem queries_never_write (cfg : config.Config) (ctx : Context) (w : World) :
  (forall credentials, exists r w1,
     Login cfg ctx credentials w = (Returned r, w1) /\ quiet w w1 /\
     (snd r <> None -> fst r = responses.LoginUser.zero)) /\
  (exists r w1,
     GetAll ctx w = (Returned r, w1) /\ quiet w w1 /\
     (snd r <> None -> fst r = [])) /\
  (forall email, exists r w1,
     GetByEmail ctx email w = (Returned r, w1) /\ quiet w w1 /\
     (snd r <> None -> fst r = zeroUser)) /\
  (forall id, exists r w1,
     GetByID ctx id w = (Returned r, w1) /\ quiet w w1 /\
     (snd r <> None -> fst r = zeroUser)) /\
  (exists r w1, GetClaims ctx w = (Returned r, w1) /\ quiet w w1).
Proof.
  repeat apply conj.
  - intros credentials. unfold Login, mbind, Go_bind. rewrite repo_Get_run.
    destruct (faults w (tick w)) as [e|].
    { eexists _, _. split; [reflexivity |]. split; [apply quiet_looked | auto]. }
    destruct (List.filter _ _) as [|user rest].
    { eexists _, _. split; [reflexivity |]. split; [apply quiet_looked | auto]. }
    cbn. destruct (checkPasswordHash _ _).
    + rewrite createToken_run.
      destruct (validateClaims _) as [e|];
        [| destruct (SignedString _ _) as [token [e|]]];
        eexists _, _; (split; [reflexivity |]);
        (split; [apply quiet_step, quiet_looked |]); cbn; congruence.
    + eexists _, _. split; [reflexivity |]. split; [apply quiet_looked | auto].
  - unfold GetAll, mbind, Go_bind. rewrite repo_Get_run.
    destruct (faults w (tick w)) as [e|];
      eexists _, _; (split; [reflexivity |]);
      (split; [apply quiet_looked |]); cbn; congruence.
  - intros email. unfold GetByEmail, mbind, Go_bind. rewrite repo_Get_run.
    destruct (faults w (tick w)) as [e|].
    { eexists _, _. split; [reflexivity |]. split; [apply quiet_looked | auto]. }
    destruct (List.filter _ _) as [|user rest];
      eexists _, _; (split; [reflexivity |]);
      (split; [apply quiet_looked |]); cbn; congruence.
  - intros id. unfold GetByID, mbind, Go_bind. rewrite repo_GetByID_run.
    destruct (primitive.ObjectIDFromHex id) as [oid [e|]].
    { eexists _, _. split; [reflexivity |]. split; [apply quiet_refl | auto]. }
    destruct (faults w (tick w)) as [e|].
    { eexists _, _. split; [reflexivity |]. split; [apply quiet_looked | auto]. }
    destruct (List.find _ _) as [user|];
      eexists _, _; (split; [reflexivity |]);
      (split; [apply quiet_looked |]); cbn; congruence.
  - unfold GetClaims, mbind, Go_bind, mongo.Ping, roundTrip.
    eexists _, _. split; [reflexivity |].
    apply quiet_record; [reflexivity | apply quiet_step, quiet_refl].
Qed.



Lemma filter_first {A} (f : A -> bool) (l : list A) :
  match List.filter f l with
  | [] => Forall (fun a => f a = false) l
  | x :: _ =>
      exists before after,
        l = before ++ x :: after /\ f x = true /\
        Forall (fun a => f a = false) before
  end.
Proof.
  induction l as [|a l IH]; simpl; [constructor |].
  destruct (f a) eqn:Ha.
  - exists [], l. repeat split; auto.
  - destruct (List.filter f l) as [|x rest].
    + constructor; assumption.
    + destruct IH as (b & c & -> & Hx & Hb).
      exists (a :: b), c. repeat split; auto.
Qed.

(** X9.  With the backend answering, [GetByEmail] returns the first
    document of the collection that has the email: the document has this
    email and no document before it has.  When no document has the email
    it returns the zero user and the error "email not found". *)
Theorem GetByEmail_first_match (ctx : Context) (email : string) (w : World) :
  faults w (tick w) = None ->
  exists r,
    GetByEmail ctx email w = (Returned r, looked w) /\
    match r with
    | (user, None) =>
        exists before after,
          mongo.view ctx w = before ++ user :: after /\
          Email user = email /\
          Forall (fun d => Email d <> email) before
    | (user, Some e) =>
        user = zeroUser /\ e = Errorf "email not found" /\
        Forall (fun d => Email d <> email) (mongo.view ctx w)
    end.
Proof.
  intros Hup. unfold GetByEmail, mbind, Go_bind.
  rewrite repo_Get_run, Hup, matches_email. unfold withEmailOf.
  pose proof (filter_first (fun u => String.eqb (Email u) email)
                (mongo.view ctx w)) as Hfirst.
  destruct (List.filter _ _) as [|user rest]; cbn.
  - eexists. split; [reflexivity |]. cbn. repeat split.
    eapply List.Forall_impl; [| exact Hfirst].
    intros d Hd. apply String.eqb_neq. exact Hd.
  - destruct Hfirst as (b & a & Hv & Hu & Hb).
    eexists. split; [reflexivity |]. cbn. exists b, a.
    split; [exact Hv |]. split; [apply String.eqb_eq, Hu |].
    eapply List.Forall_impl; [| exact Hb].
    intros d Hd. apply String.eqb_neq. exact Hd.
Qed.

(** X10.  A [Login] that succeeds returns the user that [GetByEmail]
    returns for the email of the credentials in the same world; the
    password of the credentials verifies against the hash of this user, and
    every claim of this user is valid.  The clock has been read once after
    the lookup. *)
Theorem Login_returns_GetByEmail (cfg : config.Config) (ctx : Context)
  (credentials : requests.LoginUser.t) (w w1 : World)
  (resp : responses.LoginUser.t) :
  Login cfg ctx credentials w = (Returned (resp, None), w1) ->
  GetByEmail ctx (requests.LoginUser.Email credentials) w
  = (Returned (responses.LoginUser.User resp, None), looked w) /\
  checkPasswordHash (requests.LoginUser.Password credentials)
    (PasswordHash (responses.LoginUser.User resp)) = true /\
  validateClaims (Claims (responses.LoginUser.User resp)) = None /\
  w1 = step (looked w).
Proof.
  unfold Login, GetByEmail, mbind, Go_bind. rewrite repo_Get_run.
  destruct (faults w (tick w)) as [e|]; [discriminate |].
  destruct (List.filter _ _) as [|user rest]; [discriminate |].
  cbn. destruct (checkPasswordHash _ _) eqn:Hgood; [| discriminate].
  rewrite createToken_run.
  destruct (validateClaims _) as [e|] eqn:Hvalid; [discriminate |].
  destruct (SignedString _ _) as [token [e|]]; [discriminate |].
  intros [= <- <-]. cbn. auto.
Qed.

(** *** Tokens and logins *)

Lemma addFlags_same_set (l1 l2 : list Z) (m : jwt.MapClaims) :
  (forall c, In c l1 <-> In c l2) ->
  addFlags l1 m = addFlags l2 m.
Proof.
  intros Hset. apply map_eq. intros k.
  destruct (existsb (fun c => String.eqb (ClaimString c) k) l1) eqn:Hk.
  - apply existsb_exists in Hk. destruct Hk as (c & Hin & Hc).
    apply String.eqb_eq in Hc. subst k.
    rewrite (addFlags_flag l1 m c Hin).
    rewrite (addFlags_flag l2 m c (proj1 (Hset c) Hin)). reflexivity.
  - assert (Hnone : forall c, In c l1 -> ClaimString c <> k).
    { intros c Hin Hc.
      assert (existsb (fun c => String.eqb (ClaimString c) k) l1 = true);
        [| congruence].
      apply existsb_exists. exists c. split; [exact Hin |].
      apply String.eqb_eq, Hc. }
    rewrite (addFlags_other l1 m k Hnone).
    rewrite (addFlags_other l2 m k); [reflexivity |].
    intros c Hin. apply Hnone, Hset, Hin.
Qed.

(** X13.  [createToken] depends on the claims as a set.  Two lists with
    the same elements, in whatever order and with whatever repetitions, are
    both accepted or both rejected; when they are accepted, the run of
    [createToken] on the one is the run on the other: the same payload is
    signed and the same token returned. *)
Theorem createToken_same_claim_set (userid jwtSecret : string)
  (l1 l2 : list Z) (w : World) :
  (forall c, In c l1 <-> In c l2) ->
  (validateClaims l1 = None <-> validateClaims l2 = None) /\
  (validateClaims l1 = None ->
   createToken userid jwtSecret l2 w = createToken userid jwtSecret l1 w).
Proof.
  intros Hset.
  assert (Hboth : validateClaims l1 = None <-> validateClaims l2 = None).
  { rewrite !validateClaims_ok, !List.Forall_forall. split.
    - intros H c Hin. apply H, Hset, Hin.
    - intros H c Hin. apply H, Hset, Hin. }
  split; [exact Hboth |]. intros Hvalid.
  rewrite !createToken_run, Hvalid, (proj1 Hboth Hvalid).
  unfold payloadOf. rewrite (addFlags_same_set l1 l2 _ Hset). reflexivity.
Qed.

(** X14.  What [Login] does with the failures it meets.  When the backend
    fails the lookup, its error comes back with the zero response.  When
    the user is found and the password verifies, the login still fails if
    the token cannot be issued: a stored claim outside the enumeration
    makes it fail with the error that names the first such claim, and an
    error of the signing comes back as it is; in both cases the response
    is the zero one, without the user. *)
Theorem Login_propagates_failures (cfg : config.Config) (ctx : Context)
  (email password : string) (w : World) :
  (forall e, faults w (tick w) = Some e ->
     Login cfg ctx (requests.LoginUser.mk email password) w
     = (Returned (responses.LoginUser.zero, Some e), looked w)) /\
  (forall user rest,
     faults w (tick w) = None ->
     withEmailOf email (mongo.view ctx w) = user :: rest ->
     checkPasswordHash password (PasswordHash user) = true ->
     (forall pre c post,
        Claims user = pre ++ c :: post ->
        Forall (fun c => IsValid c = true) pre ->
        IsValid c = false ->
        Login cfg ctx (requests.LoginUser.mk email password) w
        = (Returned (responses.LoginUser.zero, Some (invalidClaim c)),
           step (looked w))) /\
     (forall token e,
        validateClaims (Claims user) = None ->
        SignedString
          (jwt.NewWithClaims jwt.SigningMethodHS256
             (payloadOf (primitive.Hex (ID user))
                (wallClock w (S (tick w))) (Claims user)))
          (config.JWTSecret cfg) = (token, Some e) ->
        Login cfg ctx (requests.LoginUser.mk email password) w
        = (Returned (responses.LoginUser.zero, Some e), step (looked w)))).
Proof.
  split.
  - intros e Hdown. unfold Login, mbind, Go_bind.
    rewrite repo_Get_run, Hdown. reflexivity.
  - intros user rest Hup Hfound Hgood.
    rewrite (Login_verified cfg ctx email password w Hup user rest Hfound
               Hgood), createToken_run.
    split.
    + intros pre c post Hc Hpre Hbad.
      destruct (validateClaims (Claims user)) as [e|] eqn:Hv.
      * destruct (validateClaims_first _ _ Hv)
          as (pre' & c' & post' & Hc' & Hpre' & Hbad' & ->).
        cbn. repeat f_equal.
        rewrite Hc in Hc'. clear - Hc' Hpre Hpre' Hbad Hbad'.
        revert pre' Hc' Hpre'. induction Hpre as [|a pre Ha Hpre IH];
          intros [|a' pre'] Heq Hpre'; simpl in Heq.
        -- congruence.
        -- inversion Hpre'; subst. congruence.
        -- injection Heq as -> _. congruence.
        -- injection Heq as _ Heq. inversion Hpre'; subst. eauto.
      * apply validateClaims_ok in Hv. rewrite Hc in Hv.
        apply List.Forall_app in Hv. destruct Hv as [_ Hv].
        inversion Hv; subst. congruence.
    + intros token e Hv Hsign. rewrite Hv.
      change (wallClock (looked w) (tick (looked w)))
        with (wallClock w (S (tick w))).
      rewrite Hsign. reflexivity.
Qed.

(** X15.  A user who has been created can log in.  Let the hasher verify
    the password of the input against the hash it made of it here (the
    library does so for every password: [verifies_what_it_hashed]), let the
    signer not fail with the configured secret, and let no document have
    the email of the input.  Then after a [Create] that returned nil, with
    the backend answering, [Login] with the email and the password given
    to [Create] returns nil, a token, and the very record that was
    inserted: its identifier is the [InsertedID] of [Create], and its name,
    surnames, email and claims are those of the input.  The validation of
    the claims in [Create] is what lets the token be issued. *)
Theorem Create_then_Login (cfg : config.Config) (ctx : Context) (u : User)
  (w w1 : World) (resp : responses.Creation.t) :
  (forall h, hashed u w = (h, None) ->
     checkPasswordHash (PasswordHash u) h = true) ->
  (forall t, snd (SignedString t (config.JWTSecret cfg)) = None) ->
  Forall (fun d => Email d <> Email u) (mongo.view ctx w) ->
  Create ctx u w = (Returned (resp, None), w1) ->
  faults w1 (tick w1) = None ->
  exists rec token,
    Login cfg ctx (requests.LoginUser.mk (Email u) (PasswordHash u)) w1
    = (Returned (responses.LoginUser.mk rec token, None), step (looked w1)) /\
    primitive.Hex (ID rec) = responses.Creation.InsertedID resp /\
    Name rec = Name u /\ Surnames rec = Surnames u /\
    Email rec = Email u /\ Claims rec = Claims u.
Proof.
  intros Hlaw Hsign Hnew Hrun Hup.
  pose proof (Create_cases ctx u w) as Hcases. rewrite Hrun in Hcases.
  destruct Hcases
    as (rec & Hv & Hi & _ & Hn & Hs & He & Hc & Hvalid & Hh).
  assert (Hfound : withEmailOf (Email u) (mongo.view ctx w1) = [rec]).
  { rewrite Hv. unfold withEmailOf. rewrite List.filter_app. simpl.
    rewrite He, String.eqb_refl.
    replace (List.filter _ (mongo.view ctx w)) with (@nil User);
      [reflexivity |].
    symmetry. clear - Hnew. induction Hnew as [|d ds Hd Hds IH];
      simpl; [reflexivity |].
    apply String.eqb_neq in Hd. rewrite Hd. exact IH. }
  assert (Hgood : checkPasswordHash (PasswordHash u) (PasswordHash rec) = true).
  { apply Hlaw. rewrite hashPassword_returns in Hh. unfold hashed.
    destruct (GenerateFromPassword _ _ _) as [h [e|]]; [discriminate |].
    injection Hh as ->. reflexivity. }
  rewrite (Login_verified cfg ctx (Email u) (PasswordHash u) w1 Hup rec []
             Hfound Hgood), createToken_run, Hc, Hvalid.
  pose proof (Hsign (jwt.NewWithClaims jwt.SigningMethodHS256
                (payloadOf (primitive.Hex (ID rec))
                   (wallClock (looked w1) (tick (looked w1)))
                   (Claims u)))) as Hs1.
  destruct (SignedString _ _) as [token [e|]]; [discriminate |].
  exists rec, token. cbn. auto 10.
Qed.

End Queries.

Lemma GetByEmail_first_match_witness :
  exists r,
    GetByEmail PlainContext "ann@example.org" sample.world
    = (Returned r, looked sample.world) /\
    match r with
    | (user, None) =>
        exists before after,
          mongo.view PlainContext sample.world = (before ++ user :: after)%list /\
          Email user = "ann@example.org" /\
          Forall (fun d => Email d <> "ann@example.org") before
    | (user, Some e) =>
        user = zeroUser /\ e = Errorf "email not found" /\
        Forall (fun d => Email d <> "ann@example.org")
          (mongo.view PlainContext sample.world)
    end.
Proof.
  exact (GetByEmail_first_match PlainContext "ann@example.org" sample.world
           eq_refl).
Defined.

Lemma Login_returns_GetByEmail_witness :
  GetByEmail PlainContext "ann@example.org" sample.world
  = (Returned (sample.ann, None), looked sample.world) /\
  @checkPasswordHash sample.tagging "secret" (PasswordHash sample.ann) = true /\
  @validateClaims sample.claims (Claims sample.ann) = None /\
  step (looked sample.world) = step (looked sample.world).
Proof.
  exact (@Login_returns_GetByEmail sample.claims sample.tagging sample.keyed
           (config.mkConfig "key") PlainContext
           (requests.LoginUser.mk "ann@example.org" "secret") sample.world
           (step (looked sample.world))
           (responses.LoginUser.mk sample.ann "HS256.key") eq_refl).
Defined.

Lemma createToken_same_claim_set_witness :
  (@validateClaims sample.claims [0; 1; 0] = None <->
   @validateClaims sample.claims [1; 0] = None) /\
  (@validateClaims sample.claims [0; 1; 0] = None ->
   @createToken sample.claims sample.keyed "abc" "key" [1; 0] sample.world
   = @createToken sample.claims sample.keyed "abc" "key" [0; 1; 0]
       sample.world).
Proof.
  apply (@createToken_same_claim_set sample.claims sample.keyed "abc" "key"
           [0; 1; 0] [1; 0] sample.world).
  intros c. simpl. tauto.
Defined.

Lemma Login_propagates_failures_witness :
  @Login sample.claims sample.tagging sample.keyed (config.mkConfig "key")
    PlainContext (requests.LoginUser.mk "ann@example.org" "secret")
    sample.offline
  = (Returned (responses.LoginUser.zero, Some sample.ErrUnreachable),
     looked sample.offline) /\
  @Login sample.claims sample.tagging sample.keyed (config.mkConfig "key")
    PlainContext (requests.LoginUser.mk "eve@example.org" "pw") sample.tainted
  = (Returned (responses.LoginUser.zero, Some (invalidClaim 5)),
     step (looked sample.tainted)).
Proof.
  split.
  - apply (proj1 (@Login_propagates_failures sample.claims sample.tagging
                    sample.keyed (config.mkConfig "key") PlainContext
                    "ann@example.org" "secret" sample.offline)).
    reflexivity.
  - apply (proj1 (proj2 (@Login_propagates_failures sample.claims
                           sample.tagging sample.keyed (config.mkConfig "key")
                           PlainContext "eve@example.org" "pw" sample.tainted)
                    sample.eve [] eq_refl eq_refl eq_refl) [0] 5 [9]).
    + reflexivity.
    + repeat constructor.
    + reflexivity.
Defined.

Lemma Create_then_Login_witness :
  exists rec token,
    @Login sample.claims sample.tagging sample.keyed (config.mkConfig "key")
      PlainContext (requests.LoginUser.mk "bob@example.org" "hunter2")
      (snd (@Create sample.claims sample.tagging PlainContext sample.bob
              sample.world))
    = (Returned (responses.LoginUser.mk rec token, None),
       step (looked (snd (@Create sample.claims sample.tagging PlainContext
                            sample.bob sample.world)))) /\
    primitive.Hex (ID rec) = sample.bobID /\
    Name rec = "Bob" /\ Surnames rec = "Ray" /\
    Email rec = "bob@example.org" /\ Claims rec = [1].
Proof.
  apply (@Create_then_Login sample.claims sample.tagging sample.keyed
           (config.mkConfig "key") PlainContext sample.bob sample.world
           (snd (@Create sample.claims sample.tagging PlainContext sample.bob
                   sample.world))
           (responses.Creation.mk sample.bobID)).
  - intros h [= <-]. reflexivity.
  - intros t. reflexivity.
  - constructor; [discriminate | constructor].
  - reflexivity.
  - reflexivity.
Defined.

(** ** The service over the library *)

Section Library.

Context {entities : Entities} {signer : Jwt}.
Context {tables : blowfish.Tables} {release : bcrypt.Release}.

Local Open Scope list_scope.

(** The library verifies a password against the hash it made of it. *)
Lemma verifies_what_it_hashed (u : User) (w : World) (h : string) :
  hashed (crypto := xcrypto) u w = (h, None) ->
  checkPasswordHash (crypto := xcrypto) (PasswordHash u) h = true.
Proof.
  intros Hh.
  apply (verifies_with_same_key (PasswordHash u) (PasswordHash u) h w (step w));
    [| reflexivity].
  rewrite hashPassword_returns. unfold hashed in Hh. rewrite Hh. reflexivity.
Qed.

(** X16.  A record whose password field holds less than 59 bytes, such as
    a password stored as it is, cannot be logged into: with the library as
    the hasher, [Login] answers "incorrect password" to every password, the
    stored string itself included. *)
Theorem Login_unhashed_record (cfg : config.Config) (ctx : Context)
  (email password : string) (w : World) (user : User) (rest : list User) :
  faults w (tick w) = None ->
  withEmailOf email (mongo.view ctx w) = user :: rest ->
  (String.length (PasswordHash user) < 59)%nat ->
  Login (crypto := xcrypto) cfg ctx (requests.LoginUser.mk email password) w
  = (Returned (responses.LoginUser.zero, Some (Errorf "incorrect password")),
     looked w).
Proof.
  intros Hup Hfound Hshort.
  apply (Login_wrong_password cfg ctx email password w Hup user rest Hfound).
  apply checkPasswordHash_short. exact Hshort.
Qed.

(** X17.  With the library as the hasher, [hashPassword] returns in
    every world, which moves to the next slot of the environment.  When it
    returns nil, the entropy was read and the password has been replaced
    by a string of 60 bytes: the version and the cost, "$2a$10$", the 22
    characters of the salt that was drawn, and 31 characters; it differs
    from every password that is not 60 bytes long.  When it returns an
    error, the password is left as it was, and either it is longer than
    72 bytes and the release refuses it, or the read of the entropy has
    failed and the error is the one of the reader. *)
Theorem hashPassword_format (password : string) (w : World) :
  exists r,
    hashPassword (crypto := xcrypto) password w = (Returned r, step w) /\
    match r with
    | (h, None) =>
        (exists seed tail,
           entropy w (tick w) = Drawn seed /\
           h = ("$2a$10$" ++ string_of_list_ascii (saltOf seed) ++ tail)%string
           /\ String.length tail = 31%nat) /\
        String.length h = 60%nat /\
        (String.length password <> 60%nat -> h <> password)
    | (h, Some e) =>
        h = password /\
        ((bcrypt.rejectsLongPasswords = true /\
          (72 < String.length password)%nat /\
          e = bcrypt.ErrPasswordTooLong) \/
         entropy w (tick w) = Failed e)
    end.
Proof.
  destruct (hashPassword (crypto := xcrypto) password w) as [r w1] eqn:Hrun.
  pose proof Hrun as Hrun'. rewrite hashPassword_returns in Hrun'.
  injection Hrun' as Hr <-.
  destruct r as [[h [e|]]|msg].
  - exists (h, Some e). split; [reflexivity |].
    cbn [GenerateFromPassword xcrypto] in Hr. fold (bytes password) in Hr.
    destruct (bcrypt.GenerateFromPassword _ _ _) as [bs [e'|]] eqn:Hgen;
      [| discriminate].
    injection Hr as <- <-. split; [reflexivity |].
    destruct (Generate_fails _ _ _ _ Hgen) as [_ [Hlong | [_ Hfail]]].
    + left. rewrite length_bytes in Hlong. exact Hlong.
    + right. exact Hfail.
  - exists (h, None). split; [reflexivity |].
    pose proof (hashPassword_hash_length _ _ _ _ Hrun) as Hlen.
    split; [exact (hashPassword_made _ _ _ _ Hrun) |].
    split; [exact Hlen |]. intros Hp ->. contradiction.
  - destruct (GenerateFromPassword (Bcrypt := xcrypto) (entropy w (tick w))
                password bcrypt.DefaultCost) as [b [e'|]]; discriminate.
Qed.

End Library.

Lemma Login_unhashed_record_witness :
  @Login sample.claims (@xcrypto pi.tables strict) sample.keyed
    (config.mkConfig "key") PlainContext
    (requests.LoginUser.mk "ann@example.org" "$2a$10$secret") sample.world
  = (Returned (responses.LoginUser.zero, Some (Errorf "incorrect password")),
     looked sample.world).
Proof.
  apply (@Login_unhashed_record sample.claims sample.keyed pi.tables strict
           (config.mkConfig "key") PlainContext "ann@example.org"
           "$2a$10$secret" sample.world sample.ann []).
  - reflexivity.
  - reflexivity.
  - simpl. lia.
Defined.

(** ** The demo and the invariants *)

Section DemoInvariants.

Context {entities : Entities} {crypto : Bcrypt}.

Local Open Scope list_scope.

Lemma repo_Create_in_transaction_fresh (S0 : list Session) (e : User) w v :
  sessions w = S0 ++ [Active (Some v)] ->
  exists r w1 v1,
    infrastructure.Create (SessionContext (length S0)) e w = (Returned r, w1) /\
    users w1 = users w /\
    sessions w1 = S0 ++ [Active (Some v1)] /\
    match snd r with
    | None => v1 = v ++ [e] /\ ~ In (ID e) (map ID v)
    | Some _ => v1 = v
    end.
Proof.
  intros Hs. rewrite repo_Create_run. cbn zeta.
  assert (Hview : mongo.view (SessionContext (length S0)) w = v).
  { cbn [mongo.view]. rewrite Hs, lookup_last_session. reflexivity. }
  rewrite Hview.
  destruct (faults w (tick w)) as [err|].
  { eexists _, _, _. split; [reflexivity |]. split; [reflexivity |].
    split; [exact Hs | reflexivity]. }
  destruct (existsb _ v) eqn:Hex.
  { eexists _, _, _. split; [reflexivity |]. split; [reflexivity |].
    split; [exact Hs | reflexivity]. }
  unfold mongo.install. cbn [sessions record step].
  rewrite Hs, lookup_last_session, insert_last_session.
  eexists _, _, _. split; [reflexivity |]. split; [reflexivity |].
  split; [reflexivity |]. split; [reflexivity |]. cbn [snd].
  intros Hin. apply in_map_iff in Hin. destruct Hin as (d & Hd & Hin).
  assert (existsb (mongo.hasID (ID e)) v = true); [| congruence].
  apply existsb_exists. exists d. split; [exact Hin | apply N.eqb_eq, Hd].
Qed.

Lemma callback_appends (S0 : list Session) (user1Hash user2Hash : string)
  w v :
  sessions w = S0 ++ [Active (Some v)] ->
  exists err w1 v1,
    callback user1Hash user2Hash (SessionContext (length S0)) w
    = (Returned err, w1) /\
    users w1 = users w /\
    sessions w1 = S0 ++ [Active (Some v1)] /\
    (err = None -> appendedTwo v v1).
Proof.
  intros Hs. unfold callback.
  rewrite (bind_returned _ _ _ _ _ (NewObjectID_run w)). cbn beta.
  match goal with
  | |- context [infrastructure.Create _ ?e] =>
      destruct (repo_Create_in_transaction_fresh S0 e (step w) v Hs)
        as ([id1 err1] & w1 & v1 & Hc1 & Hu1 & Hs1 & Hv1)
  end.
  rewrite (bind_returned _ _ _ _ _ Hc1). simpl in Hv1.
  destruct err1 as [e1|].
  - eexists _, _, _. split; [reflexivity |]. split; [exact Hu1 |].
    split; [exact Hs1 | discriminate].
  - rewrite (bind_returned _ _ _ _ _ (NewObjectID_run w1)). cbn beta.
    match goal with
    | |- context [infrastructure.Create _ ?e] =>
        destruct (repo_Create_in_transaction_fresh S0 e (step w1) v1 Hs1)
          as ([id2 err2] & w2 & v2 & Hc2 & Hu2 & Hs2 & Hv2)
    end.
    rewrite (bind_returned _ _ _ _ _ Hc2). simpl in Hv2.
    destruct err2 as [e2|]; eexists _, _, _; (split; [reflexivity |]);
      (split; [rewrite Hu2; exact Hu1 |]); (split; [exact Hs2 |]);
      [discriminate |].
    intros _. destruct Hv1 as [-> Hf1]. destruct Hv2 as [-> Hf2].
    rewrite <- app_assoc. simpl.
    eexists _, _. split; [reflexivity |].
    split; [reflexivity |]. split; [reflexivity |].
    split; [exact Hf1 |].
    rewrite map_app, in_app_iff in Hf2. simpl in Hf2. cbn [ID entity] in *.
    split; [tauto |]. intros Heq. apply Hf2. right. left. exact Heq.
Qed.

Lemma AtomicTransationProof_run (ctx : Context) (w : World) :
  exists r w1,
    AtomicTransationProof ctx w = (Returned r, w1) /\
    match r with
    | None => appendedTwo (users w) (users w1)
    | Some _ => users w1 = users w
    end.
Proof.
  unfold AtomicTransationProof.
  destruct (faults w (tick w)) as [e|] eqn:Hf.
  - assert (Hstart : mongo.StartSession w
                     = (Returned (O, Some e), record CmdStartSession (step w))).
    { unfold mongo.StartSession, mbind, Go_bind, roundTrip. rewrite Hf.
      reflexivity. }
    rewrite (bind_returned _ _ _ _ _ Hstart).
    eexists _, _. split; reflexivity.
  - set (S0 := sessions w).
    set (w1 := setSessions (S0 ++ [Active None])
                 (record CmdStartSession (step w))).
    assert (Hstart : mongo.StartSession w = (Returned (length S0, None), w1)).
    { unfold mongo.StartSession, mbind, Go_bind, roundTrip. rewrite Hf.
      reflexivity. }
    assert (Hs1 : sessions w1 = S0 ++ [Active None]) by reflexivity.
    assert (Hu1 : users w1 = users w) by reflexivity.
    clearbody w1.
    rewrite (bind_returned _ _ _ _ _ Hstart). cbn beta iota.
    unfold defer, mongo.EndSession.
    rewrite (bind_returned _ _ _ _ _ (hashPassword_returns _ _)).
    destruct (GenerateFromPassword _ "Entity1" _) as [h1 [e1|]].
    { eexists _, _. split; [reflexivity |]. exact Hu1. }
    cbn beta iota.
    rewrite (bind_returned _ _ _ _ _ (hashPassword_returns _ _)).
    destruct (GenerateFromPassword _ "Entity2" _) as [h2 [e2|]].
    { eexists _, _. split; [reflexivity |]. exact Hu1. }
    cbn beta iota zeta. unfold mongo.WithTransaction.
    destruct (withTransaction_atomic S0 (callback h1 h2) appendedTwo
                (fun w v => callback_appends S0 h1 h2 w v)
                (attempts (step (step w1))) (step (step w1)) Hs1)
      as (r & w2 & s & Hrun & Hs2 & Hres).
    rewrite Hrun. eexists _, _. split; [reflexivity |].
    cbn [sessions users setSessions].
    cbn [users step] in Hres. rewrite Hu1 in Hres. exact Hres.
Qed.

(** X18.  [AtomicTransationProof] keeps the two invariants of the
    collection, whatever its outcome: the entities it inserts have no
    claims, and their identifiers are distinct from each other and from
    those of the documents that were there, the backend refusing a
    duplicate key. *)
Theorem AtomicTransationProof_keeps_invariants (ctx : Context) (w : World) :
  let w1 := snd (AtomicTransationProof ctx w) in
  (claimsValid (users w) -> claimsValid (users w1)) /\
  (uniqueIDs (users w) -> uniqueIDs (users w1)).
Proof.
  destruct (AtomicTransationProof_run ctx w) as (r & w1 & Hrun & Hres).
  rewrite Hrun. cbn [snd]. cbn zeta.
  destruct r as [e|]; [rewrite Hres; auto |].
  destruct Hres as (e1 & e2 & -> & Hc1 & Hc2 & Hf1 & Hf2 & Hne).
  split.
  - intros Hvalid. apply List.Forall_app. split; [exact Hvalid |].
    constructor; [rewrite Hc1; constructor |].
    constructor; [rewrite Hc2; constructor | constructor].
  - unfold uniqueIDs. intros Huniq. rewrite map_app. simpl.
    apply List.NoDup_app; [exact Huniq | |].
    + apply List.NoDup_cons; [intros [Heq | []]; congruence |].
      apply List.NoDup_cons; [intros [] | constructor].
    + intros x Hx [<- | [<- | []]]; contradiction.
Qed.

End DemoInvariants.

(** ** The round trips *)

Section Traffic.

Context {entities : Entities} {crypto : Bcrypt}.

Local Open Scope list_scope.

Lemma journal_install (ctx : Context) (docs : list User) (w : World) :
  journal (mongo.install ctx docs w) = journal w.
Proof.
  destruct ctx as [|h]; [reflexivity |]. unfold mongo.install.
  destruct (sessions w !! h) as [[[v|]|]|]; reflexivity.
Qed.

(** X19.  The round trips of the writes.  [Create] sends nothing or one
    insert.  [Update] sends nothing (the identifier did not parse), one
    find, or one find followed by one update: it never writes without
    having read, and never writes twice.  [Delete] sends nothing or one
    delete. *)
Theorem commands_sent (ctx : Context) (w : World) :
  (forall u,
     let (_, w1) := Create ctx u w in
     journal w1 = journal w \/ journal w1 = journal w ++ [CmdInsert]) /\
  (forall id u,
     let (_, w1) := Update ctx id u w in
     journal w1 = journal w \/ journal w1 = journal w ++ [CmdFind] \/
     journal w1 = journal w ++ [CmdFind; CmdUpdate]) /\
  (forall id,
     let (_, w1) := Delete ctx id w in
     journal w1 = journal w \/ journal w1 = journal w ++ [CmdDelete]).
Proof.
  repeat apply conj.
  - intros u. unfold Create, mbind, Go_bind.
    rewrite hashPassword_returns.
    destruct (GenerateFromPassword _ _ _) as [h [e|]]; [left; reflexivity |].
    cbn beta iota. unfold withPasswordHash at 1. cbn [Claims].
    destruct (validateClaims (Claims u)) as [e|]; [left; reflexivity |].
    unfold time_Now. cbn beta iota. rewrite NewObjectID_run, repo_Create_run.
    cbn zeta.
    destruct (faults _ _) as [e|]; [right; reflexivity |].
    destruct (existsb _ _); [right; reflexivity |].
    right. rewrite journal_install. reflexivity.
  - intros id u. unfold Update, mbind, Go_bind.
    rewrite repo_GetByID_run.
    destruct (primitive.ObjectIDFromHex id) as [oid [err|]] eqn:Hid;
      [left; reflexivity |].
    destruct (faults w (tick w)) as [err|]; [right; left; reflexivity |].
    destruct (List.find _ _) as [user|]; [| right; left; reflexivity].
    unfold deref, mret, Go_ret. cbn beta iota.
    set (merged := assign _ withEmail _).
    assert (Htail : forall m w2, journal w2 = journal w ++ [CmdFind] ->
              let (_, w1) :=
                (time_Now ≫= fun t : Time =>
                   infrastructure.Update ctx id
                     (withUpdatedAt (time.UTC t) m) false) w2 in
              journal w1 = journal w ++ [CmdFind; CmdUpdate]).
    { intros m w2 Hj. unfold mbind, Go_bind, time_Now.
      cbn beta iota. rewrite repo_Update_run, Hid. cbn beta iota zeta.
      destruct (faults (step w2) _).
      { cbn. rewrite Hj, <- app_assoc. reflexivity. }
      destruct (existsb _ _); [destruct (_ =? _)%N |];
        rewrite ?journal_install; cbn; rewrite Hj, <- app_assoc; reflexivity. }
    assert (Hclaims : forall m w2, journal w2 = journal w ++ [CmdFind] ->
              let (_, w1) :=
                (let (user0, err0) :=
                   match requests.UpdateUser.Claims u with
                   | Some claims =>
                       match validateClaims claims with
                       | Some e => (m, Some e)
                       | None => (withClaims claims m, None)
                       end
                   | None => (m, None)
                   end in
                 match err0 with
                 | Some e => mret (Some e)
                 | None =>
                     time_Now ≫= fun t : Time =>
                       infrastructure.Update ctx id
                         (withUpdatedAt (time.UTC t) user0) false
                 end) w2 in
              journal w1 = journal w ++ [CmdFind] \/
              journal w1 = journal w ++ [CmdFind; CmdUpdate]).
    { intros m w2 Hj.
      destruct (requests.UpdateUser.Claims u) as [cs|];
        [destruct (validateClaims cs) as [e|] |].
      - left. exact Hj.
      - pose proof (Htail (withClaims cs m) w2 Hj) as Ht.
        run_of Ht r w1. right. exact Ht.
      - pose proof (Htail m w2 Hj) as Ht.
        run_of Ht r w1. right. exact Ht. }
    destruct (requests.UpdateUser.NewPassword u) as [np|].
    + destruct (requests.UpdateUser.OldPassword u) as [op|];
        [| right; left; reflexivity].
      cbn beta iota.
      destruct (checkPasswordHash op (PasswordHash merged));
        [| right; left; reflexivity].
      rewrite hashPassword_returns.
      destruct (GenerateFromPassword _ np _) as [h [e|]];
        [right; left; reflexivity |].
      pose proof (Hclaims (withPasswordHash h merged)
                    (step (record CmdFind (step w))) eq_refl) as Ht.
      run_of Ht r w1. right. exact Ht.
    + pose proof (Hclaims merged (record CmdFind (step w)) eq_refl) as Ht.
      run_of Ht r w1. right. exact Ht.
  - intros id. unfold Delete. rewrite repo_Delete_run.
    destruct (primitive.ObjectIDFromHex id) as [oid [err|]];
      [left; reflexivity |].
    cbn zeta. destruct (faults w (tick w)) as [err|]; [right; reflexivity |].
    destruct (existsb _ _); right; rewrite ?journal_install;
      reflexivity.
Qed.

End Traffic.
